(** * minecraft-server-scripts: the folder archiver and the BellSoft Java installer

    A shallow embedding of the two command-line tools
    ([archive-tool/archive_modpack.py] and
    [bellsoft-java-installer/bellsoft_java.py]) and the properties their
    description states about them.

    Conventions of the embedding.
    - A Python [str] is a [string]; [startswith], [endswith], [==] and the
      ordering used by [sort] are the ones of the sequence of characters.
      The built-ins whose result depends on the Unicode tables ([strip],
      [upper], [lower], [isdigit], [int]) are the fields of the class
      [StrOps]; the functions are stated over any instance of it and
      [ascii_ops] is the instance for ASCII text.
    - What the operating system, the network and the user answer is an
      explicit argument of each function (a directory listing, the outcome
      of a request, the lines typed), and a function that changes the disk
      returns the new state.
    - An exception is a value: a function that can raise returns a sum, and
      each [try]/[except] of the source is a [match] on it.
    - Printing and logging are left out: they do not change any value the
      functions return or the files they touch. The removal of old files
      is the exception: it writes the log file anew, and its model keeps
      what it does to the log. *)

From Stdlib Require Import ZArith Lia Bool List Permutation Sorted.
From Stdlib Require Import Ascii String DecimalString.
From stdpp Require Import base option list sorting gmap strings.

Set Warnings "-register-all".
Open Scope string_scope.
Open Scope list_scope.
Open Scope Z_scope.

(** ** Python strings *)

Module PyStr.

(** [s.startswith(p)] *)
Definition startswith (s p : string) : bool := String.prefix p s.

(** [s.endswith(p)] *)
Definition endswith (s p : string) : bool :=
  let n := String.length s in
  let k := String.length p in
  (k <=? n)%nat && String.eqb (String.substring (n - k) k s) p.

(** The built-ins that follow the Unicode tables. [int_of] is [int(s)]:
    [None] stands for the [ValueError] it raises. *)
Class StrOps := {
  strip : string -> string;
  upper : string -> string;
  lower : string -> string;
  isdigit : string -> bool;
  int_of : string -> option Z
}.

(** *** The ASCII instance *)

Definition is_space (c : ascii) : bool :=
  let n := nat_of_ascii c in
  ((9 <=? n)%nat && (n <=? 13)%nat) || ((28 <=? n)%nat && (n <=? 32)%nat).

Fixpoint lstrip (s : string) : string :=
  match s with
  | String c s' => if is_space c then lstrip s' else s
  | EmptyString => EmptyString
  end.

Fixpoint rstrip (s : string) : string :=
  match s with
  | String c s' =>
      match rstrip s' with
      | EmptyString => if is_space c then EmptyString else String c EmptyString
      | r => String c r
      end
  | EmptyString => EmptyString
  end.

Definition upper_char (c : ascii) : ascii :=
  let n := nat_of_ascii c in
  if ((97 <=? n)%nat && (n <=? 122)%nat) then ascii_of_nat (n - 32) else c.

Definition lower_char (c : ascii) : ascii :=
  let n := nat_of_ascii c in
  if ((65 <=? n)%nat && (n <=? 90)%nat) then ascii_of_nat (n + 32) else c.

Fixpoint map_chars (f : ascii -> ascii) (s : string) : string :=
  match s with
  | String c s' => String (f c) (map_chars f s')
  | EmptyString => EmptyString
  end.

Definition digit_of (c : ascii) : option Z :=
  let n := nat_of_ascii c in
  if ((48 <=? n)%nat && (n <=? 57)%nat) then Some (Z.of_nat (n - 48)) else None.

Fixpoint all_digits (s : string) : bool :=
  match s with
  | String c s' => match digit_of c with Some _ => all_digits s' | None => false end
  | EmptyString => true
  end.

Fixpoint digits_value (acc : Z) (s : string) : option Z :=
  match s with
  | String c s' =>
      match digit_of c with
      | Some d => digits_value (10 * acc + d) s'
      | None => None
      end
  | EmptyString => Some acc
  end.

Definition ascii_isdigit (s : string) : bool :=
  match s with EmptyString => false | _ => all_digits s end.

(** [int] of a string of decimal digits (a sign, blanks or underscores
    are not needed by the callers, which test [isdigit] first). *)
Definition ascii_int (s : string) : option Z :=
  match s with EmptyString => None | _ => digits_value 0 s end.

Definition ascii_ops : StrOps := {|
  strip := fun s => rstrip (lstrip s);
  upper := map_chars upper_char;
  lower := map_chars lower_char;
  isdigit := ascii_isdigit;
  int_of := ascii_int
|}.

End PyStr.

(** ** [sorted] and [list.sort]

    Python's sort is stable; so is the insertion sort below, and a list has
    one stable sorted arrangement, so the two agree.  [le] is the order on
    the keys ([<=] for an ascending sort, [>=] for [reverse=True], which
    keeps equal keys in their original order too). *)

Module PySort.
Section Sort.
Context {A K : Type} (key : A -> K) (le : K -> K -> bool).

Fixpoint insert (x : A) (l : list A) : list A :=
  match l with
  | [] => [x]
  | y :: l' => if le (key x) (key y) then x :: l else y :: insert x l'
  end.

Fixpoint sorted (l : list A) : list A :=
  match l with
  | [] => []
  | x :: l' => insert x (sorted l')
  end.

(** [a] may stand before [b] in the sorted list. *)
Definition le_key (a b : A) : Prop := le (key a) (key b) = true.
End Sort.
End PySort.

(** ** Python values

    The values a JSON document holds once parsed (floats apart, which no
    property below needs).  A [dict] nested in a value is the list of its
    items. *)

Module PyValue.

Inductive value : Type :=
| VNone
| VBool (b : bool)
| VInt (z : Z)
| VStr (s : string)
| VList (l : list value)
| VDict (d : list (string * value)).

(** [bool(v)] *)
Definition truthy (v : value) : bool :=
  match v with
  | VNone => false
  | VBool b => b
  | VInt z => negb (z =? 0)
  | VStr s => negb (String.eqb s "")
  | VList l => match l with [] => false | _ => true end
  | VDict d => match d with [] => false | _ => true end
  end.

(** [hash(v)] succeeds: lists and dicts are unhashable. *)
Definition hashable (v : value) : bool :=
  match v with
  | VList _ | VDict _ => false
  | _ => true
  end.

Fixpoint assoc (k : string) (d : list (string * value)) : option value :=
  match d with
  | [] => None
  | (k', v) :: d' => if String.eqb k k' then Some v else assoc k d'
  end.

(** [a == b]: a bool is the integer 0 or 1, lists are compared item by
    item, dicts key by key. *)
Fixpoint py_eqb (a b : value) {struct a} : bool :=
  match a, b with
  | VNone, VNone => true
  | VBool x, VBool y => Bool.eqb x y
  | VBool x, VInt y => Z.b2z x =? y
  | VInt x, VBool y => x =? Z.b2z y
  | VInt x, VInt y => x =? y
  | VStr x, VStr y => String.eqb x y
  | VList xs, VList ys =>
      (fix items (xs ys : list value) {struct xs} : bool :=
         match xs, ys with
         | [], [] => true
         | x :: xs', y :: ys' => py_eqb x y && items xs' ys'
         | _, _ => false
         end) xs ys
  | VDict xs, VDict ys =>
      (length xs =? length ys)%nat &&
      (fix items (xs : list (string * value)) {struct xs} : bool :=
         match xs with
         | [] => true
         | (k, v) :: xs' =>
             match assoc k ys with
             | Some v' => py_eqb v v' && items xs'
             | None => false
             end
         end) xs
  | _, _ => false
  end.

(** The number a bool or an int stands for in a comparison. *)
Definition as_number (v : value) : option Z :=
  match v with
  | VBool b => Some (Z.b2z b)
  | VInt z => Some z
  | _ => None
  end.

(** [a < b] between two members of a set of JSON scalars: numbers with
    numbers, strings with strings; [None] is the [TypeError] of any other
    pair. *)
Definition py_lt (a b : value) : option bool :=
  match a, b with
  | VStr x, VStr y => Some (String.ltb x y)
  | _, _ =>
      match as_number a, as_number b with
      | Some x, Some y => Some (x <? y)
      | _, _ => None
      end
  end.

(** A computation that can raise [TypeError]. *)
Inductive result (A : Type) : Type :=
| Ok (a : A)
| TypeError.
Arguments Ok {A} a.
Arguments TypeError {A}.

(** [values.add(v)] on a set kept in insertion order. *)
Definition set_add (v : value) (s : list value) : list value :=
  if existsb (py_eqb v) s then s else s ++ [v].

(** [sorted(values)]: a stable insertion that compares with [<] only and
    raises as soon as two members cannot be compared. *)
Fixpoint insert_sorted (x : value) (l : list value) : result (list value) :=
  match l with
  | [] => Ok [x]
  | y :: l' =>
      match py_lt y x with
      | None => TypeError
      | Some false => Ok (x :: l)
      | Some true =>
          match insert_sorted x l' with
          | Ok r => Ok (y :: r)
          | TypeError => TypeError
          end
      end
  end.

Fixpoint py_sorted (l : list value) : result (list value) :=
  match l with
  | [] => Ok []
  | x :: l' =>
      match py_sorted l' with
      | Ok r => insert_sorted x r
      | TypeError => TypeError
      end
  end.

(** The kinds of values that compare with each other, and what [<] and [==]
    look at in each. *)
Definition is_text (v : value) : Prop := exists s, v = VStr s.
Definition is_number (v : value) : Prop := is_Some (as_number v).

Definition text_of (v : value) : string :=
  match v with VStr s => s | _ => "" end.
Definition number_of (v : value) : Z := default 0 (as_number v).

(** A string or a number. *)
Definition scalar (v : value) : Prop := is_text v \/ is_number v.


End PyValue.

(** ** Python numbers in the size formatters

    A finite double is the dyadic rational [mant / 2^scale].  An integer
    becomes a double by rounding to 53 significant bits, ties to even
    ([OverflowError] from 2^1024 on); dividing a double that is at least
    1024 by 1024 is exact; [format(x, '.df')] is the decimal expansion of
    the exact value of the double, rounded to [d] places, ties to even. *)

Module PyFloat.

Record double := { mant : Z; scale : Z }.

Inductive num :=
| NInt (z : Z)
| NFloat (x : double).

Definition round53 (n : Z) : Z :=
  let a := Z.abs n in
  let bits := Z.log2 a + 1 in
  if bits <=? 53 then n
  else
    let s := bits - 53 in
    let q := Z.shiftr a s in
    let r := a - Z.shiftl q s in
    let half := Z.shiftl 1 (s - 1) in
    let q' := if (half <? r) || ((r =? half) && Z.odd q) then q + 1 else q in
    Z.sgn n * Z.shiftl q' s.

(** [float(n)]; [None] is [OverflowError]. *)
Definition float_of_int (n : Z) : option double :=
  let m := round53 n in
  if 2 ^ 1024 <=? Z.abs m then None else Some {| mant := m; scale := 0 |}.

Definition to_float (x : num) : option double :=
  match x with
  | NInt n => float_of_int n
  | NFloat d => Some d
  end.

(** [x < c] and [x >= c] for an integer constant [c]: Python compares an
    int or a double with a number exactly. *)
Definition lt_const (x : num) (c : Z) : bool :=
  match x with
  | NInt n => n <? c
  | NFloat d => mant d <? c * 2 ^ scale d
  end.

Definition ge_const (x : num) (c : Z) : bool := negb (lt_const x c).

Definition is_zero (x : num) : bool :=
  match x with
  | NInt n => n =? 0
  | NFloat d => mant d =? 0
  end.

(** [x / 1024.0] (the int is converted first) for [x] outside
    (-1024, 1024). *)
Definition div_1024_float (x : num) : option double :=
  match to_float x with
  | Some d => Some {| mant := mant d; scale := scale d + 10 |}
  | None => None
  end.

(** [x / 1024] for [x] outside (-1024, 1024): the quotient of two ints is
    rounded once, and overflows only when the quotient does. *)
Definition div_1024_int (x : num) : option double :=
  match x with
  | NInt n =>
      let m := round53 n in
      if 2 ^ 1034 <=? Z.abs m then None else Some {| mant := m; scale := 10 |}
  | NFloat d => Some {| mant := mant d; scale := scale d + 10 |}
  end.

(** The integer nearest to [a / b] ([b > 0]), ties to even. *)
Definition round_half_even (a b : Z) : Z :=
  let q := a / b in
  let r := a mod b in
  if 2 * r <? b then q
  else if b <? 2 * r then q + 1
  else if Z.even q then q else q + 1.

Definition digits (n : Z) : string := NilZero.string_of_uint (N.to_uint (Z.to_N n)).

Fixpoint zeros (k : nat) : string :=
  match k with O => "" | S k' => String "0" (zeros k') end.

Definition pad_left (width : nat) (s : string) : string :=
  zeros (width - String.length s) +:+ s.

(** The decimal expansion of [a / b] ([b > 0]) with [d] places. *)
Definition render_decimals (d : nat) (a b : Z) : string :=
  let p := 10 ^ Z.of_nat d in
  let r := round_half_even (Z.abs a * p) b in
  (if a <? 0 then "-" else "") +:+ digits (r / p) +:+
  match d with
  | O => ""
  | _ => "." +:+ pad_left d (digits (r mod p))
  end.

(** [f"{x:.df}"]; an int is converted to a double first. *)
Definition format_f (d : nat) (x : num) : option string :=
  match to_float x with
  | Some f => Some (render_decimals d (mant f) (2 ^ scale f))
  | None => None
  end.


End PyFloat.

(** ** The store of dict objects

    [DEFAULT_SETTINGS] is one dict object that lives as long as the program;
    [.copy()] and [{**a, **b}] allocate a new one. *)

Module Store.
Import PyValue.

Abbreviation loc := nat.
Abbreviation store := (gmap nat (gmap string value)).

Definition alloc (d : gmap string value) (h : store) : loc * store :=
  let l := fresh (dom h) in (l, <[l := d]> h).

(** The contents of the object at [l] ([{}] for a dangling reference,
    which no caller below creates). *)
Definition read (l : loc) (h : store) : gmap string value :=
  default ∅ (h !! l).
End Store.

(** What a settings file holds when a tool starts: nothing, something that
    cannot be opened or read, text that is not JSON, or a JSON object. *)
Inductive settings_file :=
| Absent
| Unreadable
| InvalidJSON
| Object (d : gmap string PyValue.value).

(** The settings a load is expected to return, given the defaults and
    the file: the keys of the file over the defaults. *)
Definition loaded_from (defaults : gmap string PyValue.value) (file : settings_file)
    (settings : gmap string PyValue.value) : Prop :=
  match file with
  | Object d =>
      settings = d ∪ defaults /\
      (forall k, k ∈ dom defaults -> k ∈ dom settings) /\
      (forall k v, d !! k = Some v -> settings !! k = Some v) /\
      (forall k, d !! k = None -> settings !! k = defaults !! k)
  | Absent | Unreadable | InvalidJSON => settings = defaults
  end.

(** * The archiver ([archive_modpack.py]) *)

Module Archiver.
Import PyStr PyValue PyFloat Store.

(** The module-level [DEFAULT_SETTINGS] object. *)
Definition DEFAULT_SETTINGS : loc := 0%nat.

(** Its contents; [archives] is [str(Path.home() / "archives")]. *)
Definition default_settings (archives : string) : gmap string value :=
  <["archive_path" := VStr archives]>
  (<["default_delete" := VBool true]>
  (<["show_hidden" := VBool false]>
  (<["compression_level" := VInt 6]>
  (<["prefix" := VStr "GTNH"]>
  (<["backup_count" := VInt 5]> ∅))))).

Definition load_settings (file : settings_file) (h : store) : loc * store :=
  match file with
  | Object settings => alloc (settings ∪ read DEFAULT_SETTINGS h) h
  | Absent | Unreadable | InvalidJSON => alloc (read DEFAULT_SETTINGS h) h
  end.

(** An entry of the current directory and the directory as [iterdir]
    walks it: [denied_at = Some i] when a [PermissionError] stops the
    loop after [i] entries (0 when the directory cannot be opened). *)
Record dir_entry := { name : string; is_dir : bool }.
Record directory := { entries : list dir_entry; denied_at : option nat }.

Definition iterated (d : directory) : list dir_entry :=
  match denied_at d with
  | None => entries d
  | Some i => take i (entries d)
  end.

Definition find_gtnh_folders (PREFIX : string) (cwd : directory)
    (prefix : option string) : list dir_entry :=
  let prefix := match prefix with None => PREFIX | Some p => p end in
  let folders :=
    filter (fun item => is_dir item && startswith (name item) prefix)
           (iterated cwd) in
  PySort.sorted name String.leb folders.

(** What [find_gtnh_folders] looks for: a directory whose name starts with
    the prefix. *)
Definition wanted (p : string) (e : dir_entry) : Prop :=
  is_dir e = true /\ startswith (name e) p = true.

Definition units : list string := ["B"; "KB"; "MB"; "GB"].

(** The [for unit in units] loop; [unit] is what the last iteration left
    in the variable. [None] is [OverflowError]. *)
Fixpoint format_size_loop (us : list string) (size_bytes : num) (unit : string)
    : option (num * string) :=
  match us with
  | [] => Some (size_bytes, unit)
  | unit :: us' =>
      if lt_const size_bytes 1024 || String.eqb unit "GB"
      then Some (size_bytes, unit)
      else match div_1024_float size_bytes with
           | Some x => format_size_loop us' (NFloat x) unit
           | None => None
           end
  end.

Definition format_size (size_bytes : Z) : option string :=
  if size_bytes =? 0 then Some "0 B"
  else
    match format_size_loop units (NInt size_bytes) "" with
    | Some (size_bytes, unit) =>
        match format_f 2 size_bytes with
        | Some s => Some (s +:+ " " +:+ unit)
        | None => None
        end
    | None => None
    end.

(** A folder on disk. A symbolic link to a directory is listed with the
    directories by [os.walk] and not entered. *)
Inductive node :=
| File (name : string)
| DirLink (name : string)
| Dir (name : string) (children : list node).

Definition node_name (n : node) : string :=
  match n with File s | DirLink s | Dir s _ => s end.

Definition in_dirs (n : node) : bool :=
  match n with File _ => false | _ => true end.

Definition hidden (name : string) : bool := startswith name ".".

(** The [arcname]s handed to [zipf.write], in order, by the loop over
    [os.walk(folder_path)]: the files of a directory, then its
    sub-directories one after the other. With [show_hidden] off the loop
    drops the hidden names from [files] and from [dirs], and [os.walk]
    enters only the directories left in [dirs]. A path is the list of its
    components, relative to the parent of the archived folder. *)
Fixpoint walk (show_hidden : bool) (root : list string) (n : node)
    : list (list string) :=
  match n with
  | Dir name children =>
      let here := root ++ [name] in
      let keep (x : node) := show_hidden || negb (hidden (node_name x)) in
      let files := filter (fun x => negb (in_dirs x) && keep x) children in
      map (fun f => here ++ [node_name f]) files ++
      flat_map (fun d => if in_dirs d && keep d then walk show_hidden here d else [])
               children
  | File _ | DirLink _ => []
  end.

(** An archive in the archive directory. *)
Record archive_file := {
  a_name : string;                (* the file name in the archive directory *)
  a_mtime : Z;                    (* stat().st_mtime *)
  a_members : list (list string)  (* the paths written into the ZIP file *)
}.

Record world := {
  source : option (list node);   (* the folder to archive; None once removed *)
  archive_dir : list archive_file
}.

Inductive testzip_result :=
| TestzipNone
| TestzipBad (member : string)
| TestzipRaises.

Definition verify_archive (r : testzip_result) : bool :=
  match r with
  | TestzipNone => true
  | TestzipBad _ => false
  | TestzipRaises => false
  end.

Definition unlink (file : string) (dir : list archive_file) : list archive_file :=
  filter (fun a => negb (String.eqb (a_name a) file)) dir.

(** The patterns of [Path.glob] that hold no character class: [*] is any
    run of characters, [?] is one character, anything else is itself. *)
Fixpoint wildcard (pattern file : string) {struct pattern} : bool :=
  match pattern with
  | EmptyString => match file with EmptyString => true | _ => false end
  | String "*" pattern' =>
      (fix star (file : string) : bool :=
         wildcard pattern' file ||
         match file with
         | String _ file' => star file'
         | EmptyString => false
         end) file
  | String c pattern' =>
      match file with
      | String d file' => (Ascii.eqb c "?" || Ascii.eqb c d) && wildcard pattern' file'
      | EmptyString => false
      end
  end.

Section WithGlob.
(** [glob_match pattern file]: the file name matches the pattern of
    [Path.glob]. *)
Variable glob_match : string -> string -> bool.
(** [unlink_ok file]: [archive.unlink()] succeeds. *)
Variable unlink_ok : string -> bool.

Definition globbed (folder_name : string) (dir : list archive_file) : list archive_file :=
  filter (fun a => glob_match (folder_name +:+ "_*.zip") (a_name a)) dir.

Definition manage_backups (folder_name : string) (dir : list archive_file)
    (max_backups : Z) : list archive_file :=
  if max_backups <=? 0 then dir
  else
    let archives := PySort.sorted a_mtime Z.geb (globbed folder_name dir) in
    if Z.of_nat (length archives) >? max_backups then
      fold_left (fun dir archive =>
                   if unlink_ok (a_name archive) then unlink (a_name archive) dir
                   else dir)
                (drop (Z.to_nat max_backups) archives) dir
    else dir.
End WithGlob.

Inductive input_result :=
| Typed (line : string)
| InputRaises.

Inductive rmtree_result :=
| RmtreeOk
| RmtreeRaises (remains : option (list node)).

(** What the machine and the user answer during one run. *)
Record environment := {
  mkdir_ok : bool;
  timestamp : string;
  now : Z;
  zip_open_ok : bool;
  write_ok : list string -> bool;
  testzip : testzip_result;
  unlink_ok : string -> bool;
  answer : input_result;
  rmtree : rmtree_result
}.

(** How a call ends: it returns, or an exception leaves it. *)
Inductive outcome :=
| Returns (b : bool)
| Raises.

Fixpoint take_while {A} (p : A -> bool) (l : list A) : list A :=
  match l with
  | [] => []
  | x :: l' => if p x then x :: take_while p l' else []
  end.

Definition add_archive (a : archive_file) (dir : list archive_file) : list archive_file :=
  unlink (a_name a) dir ++ [a].

(** The files [os.walk(folder_path)] leads the loop to; a folder that is
    not there gives none. *)
Definition files_of (show_hidden : bool) (folder_name : string)
    (src : option (list node)) : list (list string) :=
  match src with
  | Some children => walk show_hidden [] (Dir folder_name children)
  | None => []
  end.

(** [settings.get('show_hidden', False)], as a condition. *)
Definition show_hidden_setting (settings : gmap string value) : bool :=
  truthy (default (VBool false) (settings !! "show_hidden")).

(** The files written into the archive: the loop stops at the first
    [zipf.write] that raises. *)
Definition archived_files (env : environment) (settings : gmap string value)
    (folder_name : string) (w : world) : list (list string) :=
  take_while (write_ok env)
             (files_of (show_hidden_setting settings) folder_name (source w)).

(** The [with zipfile.ZipFile(...)] block ends without an exception. *)
Definition zip_written (env : environment) (settings : gmap string value)
    (folder_name : string) (w : world) : bool :=
  zip_open_ok env &&
  forallb (write_ok env)
          (files_of (show_hidden_setting settings) folder_name (source w)).



Section CreateArchive.
Context `{StrOps} (glob_match : string -> string -> bool).

Definition create_archive (env : environment) (settings : gmap string value)
    (folder_name : string) (w : world) : outcome * world :=
  match settings !! "archive_path" with
  | Some (VStr _) =>
    if negb (mkdir_ok env) then (Raises, w) else
    let archive_name := folder_name +:+ "_" +:+ timestamp env +:+ ".zip" in
    (* try: *)
    if negb (zip_open_ok env) then (Returns false, w) else
    let w1 := {| source := source w;
                 archive_dir :=
                   add_archive {| a_name := archive_name; a_mtime := now env;
                                  a_members := archived_files env settings folder_name w |}
                               (archive_dir w) |} in
    if negb (zip_written env settings folder_name w) then (Returns false, w1) else
    if verify_archive (testzip env) then
      match as_number (default (VInt 5) (settings !! "backup_count")) with
      | None => (Returns false, w1)
      | Some max_backups =>
        let w2 := {| source := source w1;
                     archive_dir :=
                       manage_backups glob_match (unlink_ok env) folder_name
                                      (archive_dir w1) max_backups |} in
        match settings !! "default_delete" with
        | None => (Returns false, w2)
        | Some default_delete =>
          let default_text := if truthy default_delete then "Y" else "N" in
          match answer env with
          | InputRaises => (Returns false, w2)
          | Typed line =>
            let response := upper (strip line) in
            let response := if String.eqb response "" then default_text else response in
            if String.eqb response "Y" then
              match rmtree env with
              | RmtreeOk =>
                  (Returns true, {| source := None; archive_dir := archive_dir w2 |})
              | RmtreeRaises remains =>
                  (Returns true, {| source := remains; archive_dir := archive_dir w2 |})
              end
            else (Returns true, w2)
          end
        end
      end
    else (Returns true, w1)
  | _ => (Raises, w)
  end.

(** The prompt was answered with yes: [Y] or [y] was typed, or nothing
    was and the default is to delete. *)
Definition answered_yes (env : environment) (settings : gmap string value) : Prop :=
  exists line default_delete,
    answer env = Typed line /\
    settings !! "default_delete" = Some default_delete /\
    (upper (strip line) = "Y" \/
     (upper (strip line) = "" /\ truthy default_delete = true)).
End CreateArchive.

End Archiver.

(** * The Java installer ([bellsoft_java.py]) *)

Module Installer.
Import PyStr PyValue PyFloat Store.

Definition CACHE_FILE_PREFIX : string := "api-cache-".
Definition CACHE_MAX_AGE_HOURS : Z := 24.
Definition REQUEST_TIMEOUT : Z := 300.

Definition units : list string := ["Б"; "КБ"; "МБ"; "ГБ"; "ТБ"].

(** The [while] loop of [human_size]; each turn adds one to [unit], which
    stays below [len(units)], so [length units] turns are enough
    ([human_size_loop_done]). [None] is [OverflowError]. *)
Fixpoint human_size_loop (turns : nat) (size_bytes : num) (unit : nat)
    : option (num * nat) :=
  match turns with
  | O => Some (size_bytes, unit)
  | S turns' =>
      if ge_const size_bytes 1024 && (unit <? length units - 1)%nat
      then match div_1024_int size_bytes with
           | Some x => human_size_loop turns' (NFloat x) (unit + 1)%nat
           | None => None
           end
      else Some (size_bytes, unit)
  end.

Definition human_size (size_bytes : num) : option string :=
  if is_zero size_bytes then Some "0 Б"
  else
    match human_size_loop (length units) size_bytes 0%nat with
    | Some (size_bytes, unit) =>
        match format_f 1 size_bytes, units !! unit with
        | Some s, Some u => Some (s +:+ " " +:+ u)
        | _, _ => None
        end
    | None => None
    end.

(** One call of [input()]: a line, [KeyboardInterrupt] or [EOFError], or
    another exception. When the lines run out, [input()] raises
    [EOFError]. *)
Inductive input_event :=
| Line (choice : string)
| Interrupt
| Fault.

(** Why a menu returned [None]. *)
Inductive stop :=
| NoOptions
| ZeroTyped
| Interrupted
| ExceptionCaught
| IndexOutOfRange.

Inductive selection (A : Type) :=
| Picked (x : A)
| Stopped (why : stop).
Arguments Picked {A} x.
Arguments Stopped {A} why.

(** The value the menu returns. *)
Definition returned {A} (s : selection A) : option A :=
  match s with
  | Picked x => Some x
  | Stopped _ => None
  end.

(** The menu returned a member of the list, or [None] for a reason other
    than an index outside the list. *)
Definition in_options {A} (options : list A) (s : selection A) : Prop :=
  match s with
  | Picked x => x ∈ options
  | Stopped why => why <> IndexOutOfRange
  end.

Section Menus.
Context `{StrOps} {A : Type}.

(** The [while True] loop of [select_option]; the second component is
    the input left unread. *)
Fixpoint select_option_loop (options : list A) (allow_back : bool)
    (inputs : list input_event) : selection A * list input_event :=
  match inputs with
  | [] => (Stopped Interrupted, [])
  | Interrupt :: rest => (Stopped Interrupted, rest)
  | Fault :: rest => (Stopped ExceptionCaught, rest)
  | Line choice :: rest =>
      if String.eqb choice "0" && allow_back then (Stopped ZeroTyped, rest)
      else if isdigit choice then
        match int_of choice with
        | None => (Stopped ExceptionCaught, rest)
        | Some n =>
            let idx := n - 1 in
            if (0 <=? idx) && (idx <? Z.of_nat (length options)) then
              match options !! Z.to_nat idx with
              | Some x => (Picked x, rest)
              | None => (Stopped IndexOutOfRange, rest)
              end
            else select_option_loop options allow_back rest
        end
      else select_option_loop options allow_back rest
  end.

Definition select_option (options : list A) (allow_back : bool)
    (inputs : list input_event) : selection A * list input_event :=
  match options with
  | [] => (Stopped NoOptions, inputs)
  | _ => select_option_loop options allow_back inputs
  end.

Fixpoint select_release_loop (releases : list A) (inputs : list input_event)
    : selection A * list input_event :=
  match inputs with
  | [] => (Stopped Interrupted, [])
  | Interrupt :: rest => (Stopped Interrupted, rest)
  | Fault :: rest => (Stopped ExceptionCaught, rest)
  | Line choice :: rest =>
      if String.eqb choice "0" then (Stopped ZeroTyped, rest)
      else if isdigit choice then
        match int_of choice with
        | None => (Stopped ExceptionCaught, rest)
        | Some n =>
            let idx := n - 1 in
            if (0 <=? idx) && (idx <? Z.of_nat (length releases)) then
              match releases !! Z.to_nat idx with
              | Some x => (Picked x, rest)
              | None => (Stopped IndexOutOfRange, rest)
              end
            else select_release_loop releases rest
        end
      else select_release_loop releases rest
  end.

Definition select_release (releases : list A) (inputs : list input_event)
    : selection A * list input_event :=
  match releases with
  | [] => (Stopped NoOptions, inputs)
  | _ => select_release_loop releases inputs
  end.
End Menus.

(** The class attribute [Settings.DEFAULT_SETTINGS]. *)
Definition DEFAULT_SETTINGS : loc := 0%nat.

Definition default_settings (install_dir cache_dir : string) : gmap string value :=
  <["install_dir" := VStr install_dir]>
  (<["cache_dir" := VStr cache_dir]>
  (<["timeout" := VInt REQUEST_TIMEOUT]>
  (<["offline_mode" := VBool false]>
  (<["show_colors" := VBool true]>
  (<["keep_old_cache" := VInt 3]>
  (<["cleanup_days" := VInt 7]>
  (<["auto_update_cache" := VBool true]>
  (<["prefer_latest_link" := VBool true]>
  (<["check_sha1" := VBool true]>
  (<["download_resume" := VBool true]>
  (<["show_progress" := VBool true]>
  (<["max_releases_display" := VInt 20]>
  (<["cache_max_age_hours" := VInt CACHE_MAX_AGE_HOURS]> ∅))))))))))))).

(** [Settings.load_settings]: the copy of the defaults is updated in
    place. *)
Definition load_settings (file : settings_file) (h : store) : loc * store :=
  match file with
  | Object loaded_settings =>
      let '(settings, h1) := alloc (read DEFAULT_SETTINGS h) h in
      (settings, <[settings := loaded_settings ∪ read settings h1]> h1)
  | Unreadable | InvalidJSON => alloc (read DEFAULT_SETTINGS h) h
  | Absent => alloc (read DEFAULT_SETTINGS h) h
  end.

(** [Settings.get(key, default)] *)
Definition get (settings : gmap string value) (key : string) (dflt : value) : value :=
  default dflt (settings !! key).

(** [os.path.join(a, b)] on a POSIX system. *)
Definition path_join (a b : string) : string :=
  if startswith b "/" then b
  else if String.eqb a "" || endswith a "/" then a +:+ b
  else a +:+ "/" +:+ b.

(** An entry of the release catalog. *)
Definition item := gmap string value.

(** [item.get(key)] *)
Definition item_get (it : item) (key : string) : value := default VNone (it !! key).

(** The fields of the installer object that the functions below use. *)
Record installer := {
  cache_file : option string;
  api_data : option (list item)
}.

(** How the request to the catalog ends: with an exception of the class
    [URLError], raised by [urlopen] or while the response is read; with
    another exception, raised before the document is parsed or by
    [json.loads]; or with the parsed document, a list of objects. *)
Inductive request_outcome :=
| RaisesURLError
| RaisesOther
| Catalog (json_data : list item).

Record cache_env := {
  listdir : list string;          (* os.listdir(cache_dir) *)
  getmtime : string -> Z;         (* of a file of cache_dir, as a datetime: microseconds *)
  clock : Z;                      (* datetime.now(), microseconds *)
  stamp : string;                 (* datetime.now().strftime('%Y%m%d_%H%M%S') *)
  urlopen : nat -> request_outcome; (* the answer to the n-th request *)
  save_ok : bool;                 (* the new cache file can be written *)
  remove_ok : string -> bool      (* os.remove of a cache file succeeds *)
}.

Inductive outcome :=
| Returns (b : bool)
| Raises.

Record fetched := {
  ended : outcome;
  self_after : installer;
  files_after : list string;      (* the names in cache_dir afterwards *)
  requests : nat                  (* how many requests were sent *)
}.

(** [l[k:]] *)
Definition slice_from {A} (k : Z) (l : list A) : list A :=
  if k <? 0 then drop (Z.to_nat (Z.of_nat (length l) + k)) l
  else drop (Z.to_nat k) l.

Definition cache_files_of (names : list string) : list string :=
  PySort.sorted (fun f : string => f) (fun a b => String.leb b a)
    (filter (fun f => startswith f CACHE_FILE_PREFIX && endswith f ".json") names).

(** [cache_dir] is the 'cache_dir' setting: a path, since the constructor
    of the installer has created that directory. Times are those of
    [datetime], in microseconds. The source compares
    [cache_age.total_seconds()], the age in seconds as a double, with the
    integer [cache_max_age * 3600]; an age below 2^53 microseconds (285
    years) is apart from a whole number of seconds by more than the double
    is from the age, so the test decides as the comparison of the
    microseconds, written here, does. *)
Definition fetch_api_data (env : cache_env) (cache_dir : string)
    (settings : gmap string value) (force : bool) (self : installer) : fetched :=
  let unchanged r n :=
    {| ended := r; self_after := self; files_after := listdir env; requests := n |} in
  let use_cache f n :=
    {| ended := Returns true;
       self_after := {| cache_file := Some f; api_data := api_data self |};
       files_after := listdir env; requests := n |} in
  let cache_files := cache_files_of (listdir env) in
  let fresh_cache :=
    match cache_files with
    | [] => Some false
    | latest :: _ =>
        let cache_age := clock env - getmtime env latest in
        if force then Some false
        else
          match as_number (get settings "cache_max_age_hours" (VInt CACHE_MAX_AGE_HOURS)) with
          | Some cache_max_age => Some (cache_age <? cache_max_age * 3600 * 1000000)
          | None => None
          end
    end in
  match fresh_cache, cache_files with
  | None, _ => unchanged Raises 0%nat
  | Some true, latest :: _ => use_cache (path_join cache_dir latest) 0%nat
  | Some _, _ =>
    if truthy (get settings "offline_mode" VNone) then
      match cache_files with
      | latest :: _ => use_cache (path_join cache_dir latest) 0%nat
      | [] => unchanged (Returns false) 0%nat
      end
    else
      match urlopen env 0%nat with
      | Catalog json_data =>
          let cache_filename := CACHE_FILE_PREFIX +:+ stamp env +:+ ".json" in
          let saved :=
            filter (fun f => negb (String.eqb f cache_filename)) (listdir env)
              ++ [cache_filename] in
          let self1 := {| cache_file := Some (path_join cache_dir cache_filename);
                          api_data := Some json_data |} in
          if negb (save_ok env) then
            {| ended := Returns false;
               self_after := {| cache_file := Some (path_join cache_dir cache_filename);
                                api_data := api_data self |};
               files_after := listdir env; requests := 1 |}
          else
          match as_number (get settings "keep_old_cache" (VInt 3)) with
          | None =>
              {| ended := Returns false; self_after := self1;
                 files_after := saved; requests := 1 |}
          | Some keep_old =>
              let old :=
                if Z.of_nat (length cache_files) >? keep_old
                then slice_from keep_old cache_files else [] in
              {| ended := Returns true; self_after := self1;
                 files_after :=
                   filter (fun f => negb (existsb (fun o => String.eqb o f && remove_ok env o) old))
                          saved;
                 requests := 1 |}
          end
      | RaisesURLError =>
          match cache_files with
          | latest :: _ => use_cache (path_join cache_dir latest) 1%nat
          | [] => unchanged (Returns false) 1%nat
          end
      | RaisesOther => unchanged (Returns false) 1%nat
      end
  end.


(** [get_unique_values]: the loop over the catalog, then [sorted]. *)
Definition matches (filters : option (list (string * value))) (it : item) : bool :=
  match filters with
  | None | Some [] => true
  | Some items => forallb (fun '(key, value) => py_eqb (item_get it key) value) items
  end.

Fixpoint collect (field : string) (filters : option (list (string * value)))
    (items : list item) (values : list value) : result (list value) :=
  match items with
  | [] => Ok values
  | it :: rest =>
      if matches filters it then
        let value := item_get it field in
        if truthy value then
          if hashable value then collect field filters rest (set_add value values)
          else TypeError
        else collect field filters rest values
      else collect field filters rest values
  end.

Definition get_unique_values (self : installer) (field : string)
    (filters : option (list (string * value))) : result (list value) :=
  match api_data self with
  | None | Some [] => Ok []
  | Some catalog =>
      match collect field filters catalog [] with
      | Ok values => py_sorted values
      | TypeError => TypeError
      end
  end.

(** The truthy values that the field takes in the items that pass every
    filter. *)
Definition chosen (catalog : list item) (field : string)
    (filters : option (list (string * value))) (v : value) : Prop :=
  exists it, it ∈ catalog /\
    (forall key x, (key, x) ∈ default [] filters -> py_eqb (item_get it key) x = true) /\
    item_get it field = v /\ truthy v = true.

(** *** [download_file] *)

Inductive read_event :=
| Chunk (data : list Byte.byte)
| ReadRaises.

(** A response: its Content-Length header as [int] reads it ([None]: the
    [ValueError] of a header that is no number; 0 for a missing header)
    and what the successive [response.read(8192)] give; past the end of the
    list [read] gives [b'']. *)
Record response := {
  content_length : option Z;
  reads : list read_event
}.

Inductive urlopen_result :=
| OpenRaises
| Response (r : response).

Record downloaded := {
  path : option string;                    (* the value returned *)
  files : gmap string (list Byte.byte);    (* the files afterwards *)
  requested : bool                         (* a request was sent *)
}.

(** The loop that writes the chunks: the bytes written, or [None] when a
    [read] raises. *)
Fixpoint read_all (rs : list read_event) (written : list Byte.byte)
    : option (list Byte.byte) :=
  match rs with
  | [] => Some written
  | Chunk [] :: _ => Some written
  | Chunk chunk :: rs' => read_all rs' (written ++ chunk)
  | ReadRaises :: _ => None
  end.

Section Download.
Context `{StrOps}.
(** [hashlib.sha1(data).hexdigest()] *)
Variable sha1_hexdigest : list Byte.byte -> string.
(** The global [HAS_COLOR]. *)
Variable HAS_COLOR : bool.

Definition str_truthy (s : option string) : bool :=
  match s with
  | Some s => negb (String.eqb s "")
  | None => false
  end.

Definition int_truthy (n : option Z) : bool :=
  match n with
  | Some n => negb (n =? 0)
  | None => false
  end.

(** [actual_sha1.lower() == expected_sha1.lower()] *)
Definition sha1_matches (data : list Byte.byte) (expected_sha1 : option string) : bool :=
  String.eqb (lower (sha1_hexdigest data)) (lower (default "" expected_sha1)).


(** The part after the log lines: the request, the copy to disk, the
    checks. *)
Definition download_fresh (net : urlopen_result) (settings : gmap string value)
    (fs : gmap string (list Byte.byte)) (download_path : string)
    (expected_size : option Z) (expected_sha1 : option string) : downloaded :=
  let failed fs' :=
    {| path := None; files := delete download_path fs'; requested := true |} in
  match net with
  | OpenRaises => failed fs
  | Response r =>
      match content_length r with
      | None => failed fs
      | Some file_size =>
          let fs1 := <[download_path := []]> fs in
          match read_all (reads r) [] with
          | None => failed fs1
          | Some data =>
              let fs2 := <[download_path := data]> fs in
              (* show_progress is bound by the first turn of the loop *)
              let unbound := match data with [] => true | _ => false end in
              (* time.time() exceeds 0.1, so the first chunk draws the
                 progress bar, which formats file_size *)
              let progress_raises :=
                (0 <? file_size)
                && truthy (get settings "show_progress" (VBool true))
                && HAS_COLOR && negb unbound
                && match human_size (NInt file_size) with
                   | Some _ => false
                   | None => true
                   end in
              let actual_size := Z.of_nat (length data) in
              (* the warning about the size formats expected_size *)
              let warning_raises :=
                int_truthy expected_size
                && negb (actual_size =? default 0 expected_size)
                && match human_size (NInt (default 0 expected_size)) with
                   | Some _ => false
                   | None => true
                   end in
              if (0 <? file_size) && HAS_COLOR && unbound then failed fs2
              else if progress_raises then failed fs2
              else if warning_raises then failed fs2
              else if str_truthy expected_sha1
                      && truthy (get settings "check_sha1" (VBool true))
                      && negb (sha1_matches data expected_sha1)
              then {| path := None; files := delete download_path fs2; requested := true |}
              else {| path := Some download_path; files := fs2; requested := true |}
          end
      end
  end.

Definition download_file (net : urlopen_result) (cache_dir : string)
    (settings : gmap string value) (fs : gmap string (list Byte.byte))
    (filename : string) (expected_size : option Z) (expected_sha1 : option string)
    : downloaded :=
  let download_path := path_join (path_join cache_dir "downloads") filename in
  let reuse := {| path := Some download_path; files := fs; requested := false |} in
  let fresh := download_fresh net settings fs download_path expected_size expected_sha1 in
  match fs !! download_path with
  | Some existing =>
      if truthy (get settings "download_resume" (VBool true)) then
        let file_size := Z.of_nat (length existing) in
        if int_truthy expected_size && (file_size =? default 0 expected_size) then
          if str_truthy expected_sha1 && truthy (get settings "check_sha1" (VBool true)) then
            if sha1_matches existing expected_sha1 then reuse else fresh
          else reuse
        else fresh
      else fresh
  | None => fresh
  end.
End Download.

End Installer.

(** ** More of [str]

    A text is kept as its UTF-8 encoding, one [ascii] per byte; searching
    and replacing a (well-formed) piece of text in it is the same on the
    bytes as on the characters, and its length in characters is the number
    of bytes that do not continue a character. *)

Module PyText.

(** The byte continues a character begun before it (10xxxxxx). *)
Definition continues (c : ascii) : bool :=
  let n := nat_of_ascii c in (128 <=? n)%nat && (n <? 192)%nat.

(** [len(s)] *)
Fixpoint len (s : string) : nat :=
  match s with
  | EmptyString => O
  | String c s' => if continues c then len s' else S (len s')
  end.

Fixpoint spaces (k : nat) : string :=
  match k with O => "" | S k' => String " " (spaces k') end.

(** [s.ljust(width)] and [s.rjust(width)], which are also what
    [f"{s:<width}"] and [f"{s:>width}"] give for a string. *)
Definition ljust (width : nat) (s : string) : string := s +:+ spaces (width - len s).
Definition rjust (width : nat) (s : string) : string := spaces (width - len s) +:+ s.

(** [str(n)] for an int *)
Definition str_of_int (n : Z) : string :=
  (if n <? 0 then "-" else "") +:+ PyFloat.digits (Z.abs n).

(** [s.replace(old, new)] for a non-empty [old]: the occurrences of [old]
    are taken from the left and do not overlap; [skip] bytes of [s] belong
    to the occurrence just replaced. *)
Fixpoint replace_from (old new : string) (skip : nat) (s : string) : string :=
  match s with
  | EmptyString => EmptyString
  | String c s' =>
      match skip with
      | S skip' => replace_from old new skip' s'
      | O =>
          if String.prefix old s
          then new +:+ replace_from old new (String.length old - 1) s'
          else String c (replace_from old new 0 s')
      end
  end.

Definition replace (old new s : string) : string := replace_from old new 0 s.

(** [needle in s] *)
Fixpoint contains (needle s : string) : bool :=
  String.prefix needle s ||
  match s with
  | EmptyString => false
  | String _ s' => contains needle s'
  end.

End PyText.

(** ** [int] of a text *)

Module PyInt.
Import PyStr.

(** The digits of [int(s)]: decimal digits with single underscores between
    them; [after_digit]: the byte before was a digit. *)
Fixpoint digits_value (acc : Z) (after_digit : bool) (s : string) : option Z :=
  match s with
  | EmptyString => if after_digit then Some acc else None
  | String c s' =>
      match digit_of c with
      | Some d => digits_value (10 * acc + d) true s'
      | None =>
          if Ascii.eqb c "_" && after_digit then digits_value acc false s' else None
      end
  end.

(** [int(s)] for a text of ASCII: blanks around it, a sign, the digits. *)
Definition int_of_text (s : string) : option Z :=
  match rstrip (lstrip s) with
  | String "+" s' => digits_value 0 false s'
  | String "-" s' => Z.opp <$> digits_value 0 false s'
  | s' => digits_value 0 false s'
  end.

(** The ASCII instance with this [int]. *)
Definition text_ops : StrOps := {|
  strip := fun s => rstrip (lstrip s);
  upper := map_chars upper_char;
  lower := map_chars lower_char;
  isdigit := ascii_isdigit;
  int_of := int_of_text
|}.
End PyInt.

(** ** The [Settings] object and the start of the installer *)

Module InstallerSettings.
Import PyStr PyValue Store Installer.

(** How a write of the settings file ends: the file holds the dump; or it
    could not be opened and is as before; or it was opened, which empties
    it, and the dump was cut short, which leaves no JSON document. *)
Inductive save_result :=
| Saved
| NotOpened
| CutShort.

(** A [Settings] object with what it reaches: the dict objects, the dict
    that [self.settings] is bound to, the file at [self.settings_file], and
    how many times that file has been written to ([write_outcome n] is how
    the [n]-th write ends). *)
Record settings_state := {
  heap : store;
  self_settings : loc;
  file : settings_file;
  writes : nat
}.

(** The dict [self.settings] is bound to. *)
Definition current (st : settings_state) : gmap string value :=
  read (self_settings st) (heap st).

Section WithDisk.
Variable write_outcome : nat -> save_result.

(** [Settings.__init__], after the two assignments of paths *)
Definition settings_init (on_disk : settings_file) (h : store) : settings_state :=
  let '(l, h1) := load_settings on_disk h in
  {| heap := h1; self_settings := l; file := on_disk; writes := 0 |}.

(** [Settings.save_settings] *)
Definition save_settings (st : settings_state) : bool * settings_state :=
  let after f :=
    {| heap := heap st; self_settings := self_settings st; file := f;
       writes := S (writes st) |} in
  match write_outcome (writes st) with
  | Saved => (true, after (Object (current st)))
  | NotOpened => (false, after (file st))
  | CutShort => (false, after InvalidJSON)
  end.

(** [Settings.set(key, value)] *)
Definition set (key : string) (v : value) (st : settings_state) : bool * settings_state :=
  match current st !! key with
  | Some _ =>
      let st1 := {| heap := <[self_settings st := <[key := v]> (current st)]> (heap st);
                    self_settings := self_settings st; file := file st;
                    writes := writes st |} in
      (true, (save_settings st1).2)
  | None => (false, st)
  end.

(** [Settings.reset_to_defaults] *)
Definition reset_to_defaults (st : settings_state) : bool * settings_state :=
  let '(l, h1) := alloc (read DEFAULT_SETTINGS (heap st)) (heap st) in
  let st1 := {| heap := h1; self_settings := l; file := file st; writes := writes st |} in
  (true, (save_settings st1).2).

(** [Settings.get_all]: the copy and the state with it *)
Definition get_all (st : settings_state) : loc * settings_state :=
  let '(l, h1) := alloc (current st) (heap st) in
  (l, {| heap := h1; self_settings := self_settings st; file := file st;
         writes := writes st |}).

(** A sequence of calls on a [Settings] object. *)
Inductive call :=
| CallSet (key : string) (v : value)
| CallReset
| CallSave.

Definition after_call (st : settings_state) (c : call) : settings_state :=
  match c with
  | CallSet key v => (set key v st).2
  | CallReset => (reset_to_defaults st).2
  | CallSave => (save_settings st).2
  end.

(** The parsed command line. *)
Record arguments := {
  work_dir : string;
  install_dir : string;
  timeout : Z;
  offline : bool;
  no_color : bool
}.

(** What [JavaInstaller.__init__] leaves: the settings, the global
    [HAS_COLOR] (as a condition) and the two fields of the cache. *)
Record started := {
  settings_of : settings_state;
  has_color : bool;
  self_of : installer
}.

(** [os.makedirs(path, exist_ok=True)] succeeds on a string for which the
    system allows it. *)
Definition makedirs (makedirs_ok : string -> bool) (path : value) : bool :=
  match path with
  | VStr p => makedirs_ok p
  | _ => false
  end.

(** [JavaInstaller.__init__]; [None] when it raises. [DEFAULT_CACHE_DIR]
    and [DEFAULT_INSTALL_DIR] are the module's globals, [isatty] is
    [sys.stdout.isatty()]. *)
Definition installer_init (DEFAULT_CACHE_DIR DEFAULT_INSTALL_DIR : string)
    (isatty : bool) (makedirs_ok : string -> bool)
    (args : arguments) (on_disk : settings_file) (h : store) : option started :=
  let st := settings_init on_disk h in
  let st := if negb (String.eqb (work_dir args) DEFAULT_CACHE_DIR)
            then (set "cache_dir" (VStr (work_dir args)) st).2 else st in
  let st := if negb (String.eqb (install_dir args) DEFAULT_INSTALL_DIR)
            then (set "install_dir" (VStr (install_dir args)) st).2 else st in
  let st := if negb (timeout args =? REQUEST_TIMEOUT)
            then (set "timeout" (VInt (timeout args)) st).2 else st in
  let st := if offline args then (set "offline_mode" (VBool true) st).2 else st in
  let st := if no_color args then (set "show_colors" (VBool false) st).2 else st in
  let color := truthy (get (current st) "show_colors" VNone) && isatty in
  if makedirs makedirs_ok (get (current st) "cache_dir" VNone)
     && makedirs makedirs_ok (get (current st) "install_dir" VNone)
  then Some {| settings_of := st; has_color := color;
               self_of := {| cache_file := None; api_data := None |} |}
  else None.
End WithDisk.

(** What every call keeps: [self.settings] is a dict of its own, apart
    from the class's defaults, which are as they were, and it has every
    key of the defaults. *)
Definition well_kept (defaults : gmap string value) (st : settings_state) : Prop :=
  heap st !! DEFAULT_SETTINGS = Some defaults /\
  self_settings st <> DEFAULT_SETTINGS /\
  is_Some (heap st !! self_settings st) /\
  dom defaults ⊆ dom (current st).

(** The file holds what [self.settings] holds. *)
Definition in_step (st : settings_state) : Prop := file st = Object (current st).

End InstallerSettings.

(** ** The interactive choice of a release ([interactive_setup]) *)

Module InstallerSetup.
Import PyStr PyText PyValue PyFloat Installer.

(** The class [Colors] of the installer. *)
Definition ESC : string := String (ascii_of_nat 27) "".
Definition RED : string := ESC +:+ "[0;31m".
Definition GREEN : string := ESC +:+ "[0;32m".
Definition YELLOW : string := ESC +:+ "[1;33m".
Definition BLUE : string := ESC +:+ "[0;34m".
Definition CYAN : string := ESC +:+ "[0;36m".
Definition MAGENTA : string := ESC +:+ "[0;35m".
Definition BOLD : string := ESC +:+ "[1m".
Definition DIM : string := ESC +:+ "[2m".
Definition NC : string := ESC +:+ "[0m".

(** [colorize(text, color)] on a text. *)
Definition colorize (HAS_COLOR : bool) (text color : string) : string :=
  if HAS_COLOR then color +:+ text +:+ NC else text.

(** The dict that [interactive_setup] returns. *)
Record setup := {
  sel_os : value;
  sel_arch : value;
  sel_package_type : value;
  sel_java_version : string;
  sel_bundle_type : value;
  sel_release : item
}.

(** How the call ends. *)
Inductive ending :=
| SetupNone
| SetupRaises
| SetupReturns (s : setup).

(** How a call ends before its last line. *)
Inductive early :=
| NoneReturned
| Raised.

(** A part of the function: it reads some of the lines typed and either
    goes on with a value or ends the call. *)
Inductive flow (A : Type) :=
| Next (a : A)
| Stop (e : early).
Arguments Next {A} a.
Arguments Stop {A} e.

Definition run (A : Type) : Type := list input_event -> flow A * list input_event.

#[global] Instance run_ret : MRet run := fun A a inputs => (Next a, inputs).
#[global] Instance run_bind : MBind run := fun A B k m inputs =>
  match m inputs with
  | (Next a, rest) => k a rest
  | (Stop e, rest) => (Stop e, rest)
  end.

(** [return None] *)
Definition return_none {A} : run A := fun inputs => (Stop NoneReturned, inputs).

(** An exception that nothing in the function catches. *)
Definition raise {A} : run A := fun inputs => (Stop Raised, inputs).

(** [if c: return None] *)
Definition return_none_if (c : bool) : run unit :=
  if c then return_none else mret tt.

(** A call that can raise [TypeError] *)
Definition raising {A} (r : result A) : run A :=
  match r with Ok a => mret a | TypeError => raise end.

(** A value that is there unless the expression raised *)
Definition evaluated {A} (r : option A) : run A :=
  match r with Some a => mret a | None => raise end.

(** A menu, followed by [if not selected: return None] on what it
    returned when that is [None] *)
Definition ask {A} (menu : list input_event -> selection A * list input_event) : run A :=
  fun inputs =>
    match menu inputs with
    | (Picked x, rest) => (Next x, rest)
    | (Stopped _, rest) => (Stop NoneReturned, rest)
    end.

Definition is_empty {A} (l : list A) : bool :=
  match l with [] => true | _ => false end.

(** [l[:k]]; [None] is the [TypeError] of a [k] that is no index. *)
Definition slice_to {A} (k : value) (l : list A) : option (list A) :=
  let upto (n : Z) :=
    if n <? 0 then take (Z.to_nat (Z.of_nat (length l) + n)) l
    else take (Z.to_nat n) l in
  match k with
  | VNone => Some l
  | VInt n => Some (upto n)
  | VBool b => Some (upto (Z.b2z b))
  | _ => None
  end.

(** [l.index(x)]; [None] is its [ValueError]. *)
Fixpoint index (x : string) (l : list string) : option nat :=
  match l with
  | [] => None
  | y :: l' => if String.eqb y x then Some O else S <$> index x l'
  end.

(** [f"{v:<15}"]; [None] is the [TypeError] of a value that takes no
    format. *)
Definition format_left (width : nat) (v : value) : option string :=
  match v with
  | VStr s => Some (ljust width s)
  | VInt n => Some (ljust width (str_of_int n))
  | VBool b => Some (ljust width (str_of_int (Z.b2z b)))
  | VNone | VList _ | VDict _ => None
  end.

(** [human_size(size)] on a value of the catalog; [None] when it raises
    ([TypeError] on what is no number, [OverflowError]). *)
Definition human_size_of (size : value) : option string :=
  match size with
  | VInt n => human_size (NInt n)
  | VBool b => human_size (NInt (Z.b2z b))
  | VNone | VStr _ | VList _ | VDict _ => None
  end.

(** [os.path.join(a, b)] on two values; [None] is its [TypeError]. *)
Definition path_join_values (a : value) (b : string) : option string :=
  match a with
  | VStr a => Some (path_join a b)
  | _ => None
  end.

Section Setup.
Context `{StrOps}.
(** The global [HAS_COLOR]. *)
Variable HAS_COLOR : bool.
(** [str(v)] for a list or a dict. *)
Variable repr_of : value -> string.
(** [releases.sort(key=lambda x: x.get('version', ''), reverse=True)], as a
    function of the list; [TypeError] when two versions do not compare. *)
Variable sort_by_version : list item -> result (list item).

(** [str(v)] *)
Definition py_str (v : value) : string :=
  match v with
  | VStr s => s
  | VInt n => str_of_int n
  | VBool true => "True"
  | VBool false => "False"
  | VNone => "None"
  | VList _ | VDict _ => repr_of v
  end.

(** The line shown for a release; [None] when formatting it raises. *)
Definition release_line (release : item) : option string :=
  let version := default (VStr "") (release !! "version") in
  let filename := default (VStr "") (release !! "filename") in
  let size := default (VInt 0) (release !! "size") in
  let status :=
    (if truthy (item_get release "LTS") then [colorize HAS_COLOR "LTS" GREEN] else [])
    ++ (if truthy (item_get release "GA") then [colorize HAS_COLOR "GA" BLUE] else []) in
  let status_str :=
    if is_empty status then colorize HAS_COLOR "Stable" YELLOW
    else colorize HAS_COLOR (String.concat " | " status) MAGENTA in
  match format_left 15 version, human_size_of size with
  | Some version, Some size =>
      let version_str := colorize HAS_COLOR version CYAN in
      let size_str := colorize HAS_COLOR (rjust 10 size) YELLOW in
      let file_str := colorize HAS_COLOR (py_str filename) DIM in
      Some (version_str +:+ " | " +:+ size_str +:+ " | " +:+ status_str +:+ " | "
            +:+ file_str)
  | _, _ => None
  end.

(** The loop that fills [release_options]. *)
Fixpoint release_lines (releases : list item) : option (list string) :=
  match releases with
  | [] => Some []
  | release :: rest =>
      match release_line release, release_lines rest with
      | Some line, Some lines => Some (line :: lines)
      | _, _ => None
      end
  end.

(** The test of step 6 on an item of the catalog. *)
Definition fits (selected_os selected_arch selected_package : value)
    (feature_version : Z) (selected_bundle : value) (item : item) : bool :=
  py_eqb (item_get item "os") selected_os &&
  py_eqb (item_get item "architecture") selected_arch &&
  py_eqb (item_get item "packageType") selected_package &&
  py_eqb (item_get item "featureVersion") (VInt feature_version) &&
  py_eqb (item_get item "bundleType") selected_bundle.

(** The name of the folder of the release: its file name without the
    endings of an archive. [None]: the file name is no string. *)
Definition folder_of (filename : value) : option string :=
  match filename with
  | VStr f => Some (replace ".zip" "" (replace ".tgz" "" (replace ".tar.gz" "" f)))
  | _ => None
  end.

Definition interactive_setup_steps (self : installer) (settings : gmap string value)
    : run setup :=
  (* step 1: the operating system *)
  os_list ← raising (get_unique_values self "os" None);
  _ ← return_none_if (is_empty os_list);
  selected_os ← ask (select_option os_list true);
  _ ← return_none_if (negb (truthy selected_os));
  (* step 2: the architecture *)
  arch_list ← raising (get_unique_values self "architecture"
                         (Some [("os", selected_os)]));
  _ ← return_none_if (is_empty arch_list);
  selected_arch ← ask (select_option arch_list true);
  _ ← return_none_if (negb (truthy selected_arch));
  (* step 3: the type of package *)
  package_list ← raising (get_unique_values self "packageType"
                            (Some [("os", selected_os); ("architecture", selected_arch)]));
  _ ← return_none_if (is_empty package_list);
  selected_package ← ask (select_option package_list true);
  _ ← return_none_if (negb (truthy selected_package));
  (* step 4: the version of Java, with a menu of its own *)
  version_list ← raising (get_unique_values self "featureVersion"
                            (Some [("os", selected_os); ("architecture", selected_arch);
                                   ("packageType", selected_package)]));
  _ ← return_none_if (is_empty version_list);
  let version_display := map (fun v => "Java " +:+ py_str v) version_list in
  selected_version_display ← ask (select_release_loop version_display);
  let selected_version := replace "Java " "" selected_version_display in
  (* step 5: the bundle; int(selected_version) is evaluated here first *)
  feature_version ← evaluated (int_of selected_version);
  bundle_list ← raising (get_unique_values self "bundleType"
                           (Some [("os", selected_os); ("architecture", selected_arch);
                                  ("packageType", selected_package);
                                  ("featureVersion", VInt feature_version)]));
  let bundle_list := if is_empty bundle_list then [VStr "standard"] else bundle_list in
  selected_bundle ← ask (select_option bundle_list true);
  _ ← return_none_if (negb (truthy selected_bundle));
  (* step 6: the releases that fit *)
  let releases :=
    filter (fun item => fits selected_os selected_arch selected_package feature_version
                          selected_bundle item)
           (default [] (api_data self)) in
  _ ← return_none_if (is_empty releases);
  releases ← raising (sort_by_version releases);
  let max_releases := get settings "max_releases_display" (VInt 20) in
  shown ← evaluated (slice_to max_releases releases);
  release_options ← evaluated (release_lines shown);
  selected_release_display ← ask (select_option release_options true);
  _ ← return_none_if (String.eqb selected_release_display "");
  selected_idx ← evaluated (index selected_release_display release_options);
  selected_release ← evaluated (releases !! selected_idx);
  (* the summary that is printed *)
  let install_dir := get settings "install_dir" VNone in
  folder ← evaluated (folder_of (default (VStr "") (selected_release !! "filename")));
  _ ← evaluated (path_join_values install_dir folder);
  _ ← evaluated (human_size_of (default (VInt 0) (selected_release !! "size")));
  mret {| sel_os := selected_os;
          sel_arch := selected_arch;
          sel_package_type := selected_package;
          sel_java_version := selected_version;
          sel_bundle_type := selected_bundle;
          sel_release := selected_release |}.

(** [interactive_setup]: how it ends and the lines left unread. *)
Definition interactive_setup (self : installer) (settings : gmap string value)
    (inputs : list input_event) : ending * list input_event :=
  match interactive_setup_steps self settings inputs with
  | (Next s, rest) => (SetupReturns s, rest)
  | (Stop NoneReturned, rest) => (SetupNone, rest)
  | (Stop Raised, rest) => (SetupRaises, rest)
  end.
End Setup.

(** [list.sort] by version, newest first, for the catalogs whose versions
    are all strings or all numbers: equal versions keep their order. With
    two releases or more, a string and a number, [None] or a dict among the
    versions make a comparison raise; versions that are lists are not
    covered and are answered in the same way. *)
Definition sort_by_scalar_version (releases : list item) : result (list item) :=
  let version (r : item) := default (VStr "") (r !! "version") in
  if forallb (fun r => match version r with VStr _ => true | _ => false end) releases
  then Ok (PySort.sorted (fun r => text_of (version r)) (fun a b => String.leb b a)
             releases)
  else if forallb (fun r => match as_number (version r) with
                            | Some _ => true | None => false end) releases
  then Ok (PySort.sorted (fun r => number_of (version r)) Z.geb releases)
  else match releases with
       | [] | [_] => Ok releases
       | _ => TypeError
       end.

End InstallerSetup.

(** ** The catalog in the cache file ([load_cached_data]) *)

Module InstallerCache.
Import PyStr PyValue Installer.

(** What is at a path when [load_cached_data] looks: nothing; a file that
    cannot be opened or does not hold a JSON document; or a JSON document,
    a list of objects. *)
Inductive cache_content :=
| NoFile
| NotJSON
| Document (data : list item).

(** [load_cached_data]: what it returns and the installer afterwards. *)
Definition load_cached_data (disk : string -> cache_content) (self : installer)
    : bool * installer :=
  match cache_file self with
  | None => (false, self)
  | Some f =>
      if String.eqb f "" then (false, self)
      else
        match disk f with
        | NoFile => (false, self)
        | NotJSON => (false, self)
        | Document data => (true, {| cache_file := Some f; api_data := Some data |})
        end
  end.

End InstallerCache.

(** ** The removal of old files ([cleanup_old_files]) *)

Module InstallerCleanup.
Import PyStr PyValue PyFloat Installer.

(** [a < b] on two doubles. *)
Definition lt_double (a b : double) : bool :=
  mant a * 2 ^ scale b <? mant b * 2 ^ scale a.

(** [now - seconds] for a double and an int: the int becomes a double
    ([None] is the [OverflowError] of one that is too large) and the
    difference is rounded. *)
Definition minus_seconds (now : double) (seconds : Z) : option double :=
  match float_of_int seconds with
  | Some d =>
      Some {| mant := round53 (mant now - mant d * 2 ^ scale now); scale := scale now |}
  | None => None
  end.

(** An entry of the downloads directory; [dl_mtime] is [None] when
    [getmtime] raises. *)
Record download_entry := {
  dl_name : string;
  dl_is_file : bool;
  dl_mtime : option double
}.

Inductive downloads_dir :=
| NoDownloads
| Unlistable
| Downloads (entries : list download_entry).

(** What the call does to the log: a message handed to [self.log], the
    message of the outer handler (its text is the exception's), or the
    file written anew with these lines ([completed]: the writing went
    through). *)
Inductive log_event :=
| Logged (msg : string)
| LoggedError
| Rewrote (lines : list string) (completed : bool).

(** What the system answers during one call. *)
Record disk := {
  now : double;                              (* time.time() *)
  downloads : downloads_dir;                 (* cache_dir/downloads *)
  log_exists : bool;                         (* os.path.exists(log_file) *)
  log_stat : option (Z * double);            (* its size and mtime; None: stat raises *)
  log_read : option (list string);           (* f.readlines(); None: reading raises *)
  log_rewrite_ok : bool;                     (* the file can be written anew *)
  listing : option (list string);            (* os.listdir(cache_dir); None: it raises *)
  cache_mtime : string -> option double;     (* getmtime of a file of cache_dir *)
  backups : list (string * option double);   (* glob of settings-backup-*.json, mtimes *)
  remove_ok : string -> bool                 (* os.remove(path) succeeds *)
}.

(** What has happened so far. *)
Record progress := {
  removed : list string;             (* the paths removed, in order *)
  log_events : list log_event;       (* what was done to the log, in order *)
  deleted_count : Z;
  kept_count : Z
}.

(** How the call ends: [failed] when the outer handler was reached. *)
Record cleaned := {
  failed : bool;
  outcome_of : progress
}.

Section Cleanup.
Variable env : disk.

Definition log_event_added (e : log_event) (p : progress) : progress :=
  {| removed := removed p; log_events := log_events p ++ [e];
     deleted_count := deleted_count p; kept_count := kept_count p |}.

(** [self.log(msg)] *)
Definition log (msg : string) (p : progress) : progress := log_event_added (Logged msg) p.

(** [os.remove(path)] in a [try] with [deleted_count += 1] and a message
    for the log behind it. *)
Definition try_remove (path : string) (msg : option string) (p : progress) : progress :=
  if remove_ok env path
  then
    let p := {| removed := removed p ++ [path]; log_events := log_events p;
                deleted_count := deleted_count p + 1; kept_count := kept_count p |} in
    match msg with Some m => log m p | None => p end
  else p.

Definition keep (p : progress) : progress :=
  {| removed := removed p; log_events := log_events p;
     deleted_count := deleted_count p; kept_count := kept_count p + 1 |}.

(** The loop over the downloads, and whether it came to its end ([getmtime]
    did not raise). *)
Fixpoint clean_downloads (downloads_dir : string) (cutoff_time : double)
    (entries : list download_entry) (p : progress) : progress * bool :=
  match entries with
  | [] => (p, true)
  | f :: rest =>
      if dl_is_file f then
        match dl_mtime f with
        | None => (p, false)
        | Some mtime =>
            let p :=
              if lt_double mtime cutoff_time
              then try_remove (path_join downloads_dir (dl_name f))
                     (Some ("Удалён старый файл загрузки: " +:+ dl_name f)) p
              else keep p in
            clean_downloads downloads_dir cutoff_time rest p
        end
      else clean_downloads downloads_dir cutoff_time rest p
  end.

(** The part on the log, inside its [try]. *)
Definition shorten_log (p : progress) : progress :=
  match log_read env with
  | None => p
  | Some lines =>
      if (1000 <? length lines)%nat then
        let last := slice_from (-1000) lines in
        if log_rewrite_ok env
        then log "Лог был сокращён в процессе очистки"
               (log_event_added (Rewrote last true) p)
        else log_event_added (Rewrote last false) p
      else p
  end.

(** The list [cache_files]: the cache files whose [getmtime] succeeds. *)
Fixpoint cache_files_with_mtime (names : list string) : list (string * double) :=
  match names with
  | [] => []
  | f :: rest =>
      if startswith f CACHE_FILE_PREFIX && endswith f ".json" then
        match cache_mtime env f with
        | Some file_mtime => (f, file_mtime) :: cache_files_with_mtime rest
        | None => cache_files_with_mtime rest
        end
      else cache_files_with_mtime rest
  end.

(** The loop over the sorted cache files, from index [i] on. *)
Fixpoint clean_caches (cache_dir : string) (cutoff_time : double) (keep_old : Z)
    (i : Z) (cache_files : list (string * double)) (p : progress) : progress :=
  match cache_files with
  | [] => p
  | (filename, file_mtime) :: rest =>
      let p :=
        if i <? keep_old then keep p
        else if lt_double file_mtime cutoff_time
        then try_remove (path_join cache_dir filename)
               (Some ("Удалён старый кэш: " +:+ filename)) p
        else keep p in
      clean_caches cache_dir cutoff_time keep_old (i + 1) rest p
  end.

(** The loop over the backups of the settings. *)
Fixpoint clean_backups (cutoff_time : double) (files : list (string * option double))
    (p : progress) : progress :=
  match files with
  | [] => p
  | (backup_file, mtime) :: rest =>
      let p :=
        match mtime with
        | Some mtime =>
            if lt_double mtime cutoff_time then try_remove backup_file None p else p
        | None => p
        end in
      clean_backups cutoff_time rest p
  end.

Definition cleanup_old_files (settings : gmap string value) : cleaned :=
  let cleanup_days := get settings "cleanup_days" (VInt 7) in
  let cache_dir := get settings "cache_dir" VNone in
  let start := {| removed := []; log_events := []; deleted_count := 0; kept_count := 0 |} in
  (* except Exception: *)
  let fails p := {| failed := true; outcome_of := log_event_added LoggedError p |} in
  (* try: *)
  match as_number cleanup_days with
  | None => fails start
  | Some days =>
  match minus_seconds (now env) (days * 24 * 3600) with
  | None => fails start
  | Some cutoff_time =>
  match cache_dir with
  | VStr cache_dir =>
    (* the downloads *)
    let downloads_dir := path_join cache_dir "downloads" in
    let after_downloads :=
      match downloads env with
      | NoDownloads => (start, true)
      | Unlistable => (start, false)
      | Downloads entries => clean_downloads downloads_dir cutoff_time entries start
      end in
    match after_downloads with
    | (p, false) => fails p
    | (p, true) =>
    (* the log *)
    let after_log :=
      if log_exists env then
        match log_stat env with
        | None => None
        | Some (log_size, log_mtime) =>
            if lt_double log_mtime cutoff_time || (10 * 1024 * 1024 <? log_size)
            then Some (shorten_log p) else Some p
        end
      else Some p in
    match after_log with
    | None => fails p
    | Some p =>
    (* the caches of the catalog *)
    match listing env with
    | None => fails p
    | Some names =>
    let cache_files :=
      PySort.sorted snd (fun a b => negb (lt_double a b)) (cache_files_with_mtime names) in
    let after_caches :=
      match cache_files with
      | [] => Some p
      | _ =>
          match as_number (get settings "keep_old_cache" (VInt 3)) with
          | None => None
          | Some keep_old => Some (clean_caches cache_dir cutoff_time keep_old 0 cache_files p)
          end
      end in
    match after_caches with
    | None => fails p
    | Some p =>
    (* the backups of the settings *)
    {| failed := false; outcome_of := clean_backups cutoff_time (backups env) p |}
    end end end end
  | _ => fails start
  end end end.

(** The three kinds of files that are removed. *)
Definition old_download (cache_dir : string) (cutoff_time : double) (path : string) : Prop :=
  exists entries f mtime,
    downloads env = Downloads entries /\ f ∈ entries /\ dl_is_file f = true /\
    dl_mtime f = Some mtime /\ lt_double mtime cutoff_time = true /\
    path = path_join (path_join cache_dir "downloads") (dl_name f).

Definition old_cache (settings : gmap string value) (cache_dir : string)
    (cutoff_time : double) (path : string) : Prop :=
  exists names f mtime keep_old i,
    listing env = Some names /\ f ∈ names /\
    startswith f CACHE_FILE_PREFIX = true /\ endswith f ".json" = true /\
    cache_mtime env f = Some mtime /\ lt_double mtime cutoff_time = true /\
    path = path_join cache_dir f /\
    as_number (get settings "keep_old_cache" (VInt 3)) = Some keep_old /\
    PySort.sorted snd (fun a b => negb (lt_double a b)) (cache_files_with_mtime names)
      !! i = Some (f, mtime) /\
    keep_old <= Z.of_nat i.

Definition old_backup (cutoff_time : double) (path : string) : Prop :=
  exists mtime, (path, Some mtime) ∈ backups env /\ lt_double mtime cutoff_time = true.

(** What is said of a call of the log. *)
Definition log_event_ok (e : log_event) : Prop :=
  (exists m, e = Logged m) \/ e = LoggedError \/
  exists read completed,
    log_read env = Some read /\ (1000 < length read)%nat /\
    e = Rewrote (drop (length read - 1000) read) completed.

(** What is said of a removal, the time limit and the directory known. *)
Definition removal_ok (settings : gmap string value) (cache_dir : string)
    (cutoff_time : double) (path : string) : Prop :=
  remove_ok env path = true /\
  (old_download cache_dir cutoff_time path \/
   old_cache settings cache_dir cutoff_time path \/
   old_backup cutoff_time path).
End Cleanup.

(** What a part of the call adds to what has happened: removals that all
    satisfy [P], each of them counted, and events of the log that all
    satisfy [Q]. *)
Definition adds (P : string -> Prop) (Q : log_event -> Prop) (p p' : progress) : Prop :=
  exists paths events,
    removed p' = removed p ++ paths /\ Forall P paths /\
    log_events p' = log_events p ++ events /\ Forall Q events /\
    deleted_count p' = deleted_count p + Z.of_nat (length paths).

End InstallerCleanup.

(** ** The shell configuration ([add_to_shell_config]) *)

Module InstallerShell.
Import PyStr PyText PyValue Installer.

Definition quote : string := String (ascii_of_nat 34) "".
Definition newline : string := String (ascii_of_nat 10) "".

(** The files of the shells and what the system answers about them. A
    file that is not text in the encoding of the system is [unreadable]. *)
Record world := {
  files : gmap string string;        (* the text files that exist, with their content *)
  unreadable : string -> bool;       (* opening or reading the file raises *)
  unwritable : string -> bool;       (* appending to the file raises *)
  link_exists : string -> bool       (* os.path.exists of the link [latest] *)
}.

(** What [f.read()] gives for the bytes of a file opened with
    [open(path, 'r')]: a carriage return, with the line feed after it if
    there is one, is read as a line feed. [after_cr]: the byte before was
    a carriage return. *)
Definition cr : ascii := ascii_of_nat 13.
Definition lf : ascii := ascii_of_nat 10.

Fixpoint read_from (after_cr : bool) (s : string) : string :=
  match s with
  | EmptyString => EmptyString
  | String c s' =>
      if Ascii.eqb c cr then String lf (read_from true s')
      else if Ascii.eqb c lf && after_cr then read_from false s'
      else String c (read_from false s')
  end.

Definition read_text (s : string) : string := read_from false s.

(** Whether the last byte read was a carriage return. *)
Fixpoint ends_cr (after_cr : bool) (s : string) : bool :=
  match s with
  | EmptyString => after_cr
  | String c s' => ends_cr (Ascii.eqb c cr) s'
  end.

(** [format_java_env_config(java_home_path, use_latest_link)]; [today] is
    [datetime.now().strftime('%Y-%m-%d')]. *)
Definition format_java_env_config (w : world) (today : string)
    (java_home_path : string) (use_latest_link : option string) : string :=
  let config_lines :=
    ["# Java from BellSoft Installer (" +:+ today +:+ ")";
     match use_latest_link with
     | Some link =>
         if negb (String.eqb link "") && link_exists w link
         then "export JAVA_HOME=" +:+ quote +:+ link +:+ quote
         else "export JAVA_HOME=" +:+ quote +:+ java_home_path +:+ quote
     | None => "export JAVA_HOME=" +:+ quote +:+ java_home_path +:+ quote
     end;
     "export PATH=" +:+ quote +:+ "$JAVA_HOME/bin:$PATH" +:+ quote] in
  String.concat newline config_lines.

(** No byte of the text is a carriage return. *)
Fixpoint no_cr (s : string) : bool :=
  match s with
  | EmptyString => true
  | String c s' => negb (Ascii.eqb c cr) && no_cr s'
  end.

Section Shell.
Context `{StrOps}.
(** The home directory, as [os.path.expanduser] puts it for [~]. *)
Variable home : string.
Variable today : string.

Definition bashrc : string := home +:+ "/.bashrc".
Definition zshrc : string := home +:+ "/.zshrc".
Definition profile : string := home +:+ "/.profile".

(** The list [shell_configs], without the names shown. *)
Definition shell_configs (w : world) : list string :=
  filter (fun config => bool_decide (is_Some (files w !! config))) [bashrc; zshrc; profile].

(** [JAVA_HOME="path"], the text looked for in a file. *)
Definition java_home_of (path : string) : string :=
  "JAVA_HOME=" +:+ quote +:+ path +:+ quote.

(** Java is in the file already, as far as the function looks. *)
Definition configured (install_path : string) (latest_link : option string)
    (content : string) : bool :=
  contains (java_home_of install_path) content ||
  match latest_link with
  | Some link => negb (String.eqb link "") && contains (java_home_of link) content
  | None => false
  end.

(** The body of the loop for a file to which the answer was yes. *)
Definition add_to (settings : gmap string value) (install_path : string)
    (latest_link : option string) (config_path : string) (w : world) : world :=
  let use_latest := truthy (get settings "prefer_latest_link" (VBool true)) in
  let found :=
    if unreadable w config_path then false
    else match files w !! config_path with
         | Some content => configured install_path latest_link (read_text content)
         | None => false
         end in
  if found then w
  else
    let java_config :=
      newline +:+ format_java_env_config w today install_path
                    (if use_latest then latest_link else None) +:+ newline in
    if unwritable w config_path then w
    else
      {| files := <[config_path := default "" (files w !! config_path) +:+ java_config]>
                    (files w);
         unreadable := unreadable w; unwritable := unwritable w;
         link_exists := link_exists w |}.

(** The loop over the files found: whether it came to its end (no
    [input()] raised), the files then, and the lines left unread. *)
Fixpoint ask_each (settings : gmap string value) (install_path : string)
    (latest_link : option string) (configs : list string)
    (inputs : list input_event) (w : world) : bool * world * list input_event :=
  match configs with
  | [] => (true, w, inputs)
  | config_path :: configs' =>
      match inputs with
      | Line choice :: rest =>
          let w := if String.eqb (lower choice) "y"
                   then add_to settings install_path latest_link config_path w else w in
          ask_each settings install_path latest_link configs' rest w
      | Interrupt :: rest | Fault :: rest => (false, w, rest)
      | [] => (false, w, [])
      end
  end.

(** Java is in the file already, or the file cannot be written. *)
Definition settled (install_path : string) (latest_link : option string)
    (config_path : string) (w : world) : Prop :=
  unwritable w config_path = true \/
  exists content, files w !! config_path = Some content /\
    configured install_path latest_link (read_text content) = true.

Definition add_to_shell_config (settings : gmap string value) (install_path : string)
    (latest_link : option string) (inputs : list input_event) (w : world)
    : bool * world * list input_event :=
  ask_each settings install_path latest_link (shell_configs w) inputs w.
End Shell.

End InstallerShell.

(** ** The settings menu of the archiver ([save_settings], [show_settings]) *)

Module ArchiverSettings.
Import PyStr PyText PyValue Store Archiver InstallerSettings.

(** The dict objects, the file [~/.gtnh_archiver.json] and how many times
    it has been written to ([write_outcome n] is how the [n]-th write
    ends). *)
Record state := {
  heap : store;
  file : settings_file;
  writes : nat
}.

(** How [show_settings] ends: it returns a dict, a [KeyError] leaves it, or
    the exception of an [input()] does. *)
Inductive ending :=
| SettingsReturned (settings : loc)
| KeyErrorRaised
| InputRaised.

Section WithDisk.
Context `{StrOps}.
Variable write_outcome : nat -> save_result.

(** [save_settings(settings)] *)
Definition save_settings (settings : loc) (st : state) : bool * state :=
  let after f := {| heap := heap st; file := f; writes := S (writes st) |} in
  match write_outcome (writes st) with
  | Saved => (true, after (Object (read settings (heap st))))
  | NotOpened => (false, after (file st))
  | CutShort => (false, after InvalidJSON)
  end.

(** [settings[key] = v] followed by [save_settings(settings)] *)
Definition change (settings : loc) (key : string) (v : value) (st : state) : state :=
  (save_settings settings
     {| heap := <[settings := <[key := v]> (read settings (heap st))]> (heap st);
        file := file st; writes := writes st |}).2.

(** What the branches 2 to 6 do with the line typed as the new value. *)
Definition answered (settings : loc) (choice line : string) (st : state) : state :=
  if String.eqb choice "2" then
    let new_value := upper (strip line) in
    if String.eqb new_value "Y" || String.eqb new_value "N"
    then change settings "default_delete" (VBool (String.eqb new_value "Y")) st
    else st
  else if String.eqb choice "3" then
    match int_of (strip line) with
    | Some new_value =>
        if (0 <=? new_value) && (new_value <=? 9)
        then change settings "compression_level" (VInt new_value) st
        else st
    | None => st
    end
  else if String.eqb choice "4" then
    let new_value := strip line in
    if negb (String.eqb new_value "") then change settings "prefix" (VStr new_value) st
    else st
  else if String.eqb choice "5" then
    match int_of (strip line) with
    | Some new_value =>
        if 0 <=? new_value
        then change settings "backup_count" (VInt new_value) st
        else st
    | None => st
    end
  else
    let new_value := upper (strip line) in
    if String.eqb new_value "Y" || String.eqb new_value "N"
    then change settings "show_hidden" (VBool (String.eqb new_value "Y")) st
    else st.

(** [show_settings(settings)]: the [while True] loop. What it prints is
    left out, but for the two subscripts [settings['archive_path']] and
    [settings['default_delete']] at the top of every turn, which raise
    [KeyError] on a dict without the key. When the lines run out,
    [input()] raises [EOFError]. The third component is the input left
    unread. *)
Fixpoint show_settings (settings : loc) (inputs : list input_result) (st : state)
    {struct inputs} : ending * state * list input_result :=
  let d := read settings (heap st) in
  if negb (bool_decide (is_Some (d !! "archive_path")) &&
           bool_decide (is_Some (d !! "default_delete")))
  then (KeyErrorRaised, st, inputs)
  else
    match inputs with
    | [] => (InputRaised, st, [])
    | InputRaises :: rest => (InputRaised, st, rest)
    | Typed line :: rest =>
        let choice := strip line in
        if String.eqb choice "0" then (SettingsReturned settings, st, rest)
        else if String.eqb choice "1" then
          match rest with
          | [] => (InputRaised, st, [])
          | InputRaises :: rest1 => (InputRaised, st, rest1)
          | Typed line1 :: rest1 =>
              let new_path := strip line1 in
              if negb (String.eqb new_path "") then
                let st1 := change settings "archive_path" (VStr new_path) st in
                match rest1 with
                | [] => (InputRaised, st1, [])
                | InputRaises :: rest2 => (InputRaised, st1, rest2)
                | Typed _ :: rest2 => show_settings settings rest2 st1
                end
              else show_settings settings rest1 st
          end
        else if String.eqb choice "2" || String.eqb choice "3" || String.eqb choice "4"
                || String.eqb choice "5" || String.eqb choice "6" then
          match rest with
          | [] => (InputRaised, st, [])
          | InputRaises :: rest1 => (InputRaised, st, rest1)
          | Typed line1 :: rest1 =>
              let st1 := answered settings choice line1 st in
              match rest1 with
              | [] => (InputRaised, st1, [])
              | InputRaises :: rest2 => (InputRaised, st1, rest2)
              | Typed _ :: rest2 => show_settings settings rest2 st1
              end
          end
        else
          match rest with
          | [] => (InputRaised, st, [])
          | InputRaises :: rest1 => (InputRaised, st, rest1)
          | Typed _ :: rest1 => show_settings settings rest1 st
          end
    end.

(** What the menu may store under a key. *)
Definition storable (key : string) (v : value) : Prop :=
  (key = "archive_path" /\ exists s, v = VStr s /\ s <> "") \/
  (key = "default_delete" /\ exists b, v = VBool b) \/
  (key = "compression_level" /\ exists n, v = VInt n /\ 0 <= n <= 9) \/
  (key = "prefix" /\ exists s, v = VStr s /\ s <> "") \/
  (key = "backup_count" /\ exists n, v = VInt n /\ 0 <= n) \/
  (key = "show_hidden" /\ exists b, v = VBool b).

(** The states reached from a state by storing such values, each with a
    write of the file after it. *)
Inductive changed (settings : loc) : state -> state -> Prop :=
| changed_refl st : changed settings st st
| changed_step st st' key v :
    changed settings st st' -> storable key v ->
    changed settings st (change settings key v st').
End WithDisk.

(** The six settings have values of their kinds, within their bounds. *)
Definition in_range (d : gmap string value) : Prop :=
  (exists s, d !! "archive_path" = Some (VStr s) /\ s <> "") /\
  (exists b, d !! "default_delete" = Some (VBool b)) /\
  (exists n, d !! "compression_level" = Some (VInt n) /\ 0 <= n <= 9) /\
  (exists s, d !! "prefix" = Some (VStr s) /\ s <> "") /\
  (exists n, d !! "backup_count" = Some (VInt n) /\ 0 <= n) /\
  (exists b, d !! "show_hidden" = Some (VBool b)).

End ArchiverSettings.

(** ** The settings menu of the installer ([show_settings_menu]) *)

Module InstallerMenu.
Import PyStr PyValue Store Installer InstallerSettings.

(** One call of [input()] in the menu: a line, [KeyboardInterrupt], or an
    exception that [except Exception] catches, [EOFError] among them. *)
Inductive key_event :=
| Entered (line : string)
| KeyboardInterrupt
| InputError.

(** How the menu ends. At the end of the input every [input()] raises
    [EOFError], which the menu catches before it starts again: it does
    not return. *)
Inductive menu_end :=
| MenuReturned (b : bool)
| MenuHangs.

(** The [Settings] object and the global [HAS_COLOR], as a condition. *)
Record menu_state := {
  menu_settings : settings_state;
  HAS_COLOR : bool
}.

(** The kinds of value the menu tells apart with [isinstance]. *)
Inductive kind :=
| KBool
| KInt
| KOther.

Definition kind_of (v : value) : kind :=
  match v with
  | VBool _ => KBool
  | VInt _ => KInt
  | _ => KOther
  end.

(** The test that refuses a new value: [Some true] when it is refused,
    [None] for the [TypeError] of the comparison. *)
Definition refused (key : string) (new_value : value) : option bool :=
  if String.eqb key "cleanup_days" then py_lt new_value (VInt 0)
  else if String.eqb key "timeout" then py_lt new_value (VInt 1)
  else if String.eqb key "keep_old_cache" then py_lt new_value (VInt 1)
  else Some false.

Section Menu.
Context `{StrOps}.
Variable write_outcome : nat -> save_result.
(** [sys.stdout.isatty()] *)
Variable isatty : bool.
(** [list(d.keys())]: the keys of the dict, in the order in which it got
    them. *)
Variable keys_of : gmap string value -> list string.

Definition with_settings (st : menu_state) (s : settings_state) : menu_state :=
  {| menu_settings := s; HAS_COLOR := HAS_COLOR st |}.

(** [self.settings.reset_to_defaults()] and the assignment to
    [HAS_COLOR] after it. *)
Definition reset (st : menu_state) : menu_state :=
  let s := (reset_to_defaults write_outcome (menu_settings st)).2 in
  {| menu_settings := s;
     HAS_COLOR := truthy (get (current s) "show_colors" VNone) && isatty |}.

(** [self.settings.set(key, new_value)] and what follows it. *)
Definition store_value (key : string) (new_value : value) (st : menu_state) : menu_state :=
  let r := set write_outcome key new_value (menu_settings st) in
  {| menu_settings := r.2;
     HAS_COLOR := if r.1 && String.eqb key "show_colors"
                  then truthy new_value && isatty else HAS_COLOR st |}.

(** The [while True] loop, one turn for each call; what it prints is
    left out. [int_of] gives [None] for the [ValueError] of [int]; an
    exception inside the [try] that is not [KeyboardInterrupt] starts the
    next turn. The third component is the input left unread. *)
Fixpoint show_settings_menu (inputs : list key_event) (st : menu_state)
    {struct inputs} : menu_end * menu_state * list key_event :=
  let copy := get_all (menu_settings st) in
  let st := with_settings st copy.2 in
  let all_settings := read copy.1 (heap copy.2) in
  let setting_keys := keys_of all_settings in
  match inputs with
  | [] => (MenuHangs, st, [])
  | KeyboardInterrupt :: rest => (MenuReturned false, st, rest)
  | InputError :: rest => show_settings_menu rest st
  | Entered line :: rest =>
      let choice := lower line in
      if String.eqb choice "0" then (MenuReturned true, st, rest)
      else if String.eqb choice "r" then
        match rest with
        | [] => (MenuHangs, st, [])
        | KeyboardInterrupt :: rest1 => (MenuReturned false, st, rest1)
        | InputError :: rest1 => show_settings_menu rest1 st
        | Entered confirm :: rest1 =>
            if String.eqb (lower confirm) "y" then show_settings_menu rest1 (reset st)
            else show_settings_menu rest1 st
        end
      else if String.eqb choice "s" then
        (MenuReturned true,
         with_settings st (save_settings write_outcome (menu_settings st)).2, rest)
      else if isdigit choice then
        match int_of choice with
        | None => show_settings_menu rest st
        | Some n =>
            let idx := n - 1 in
            if (0 <=? idx) && (idx <? Z.of_nat (length setting_keys)) then
              match setting_keys !! Z.to_nat idx with
              | None => show_settings_menu rest st
              | Some key =>
                  match all_settings !! key with
                  | None => show_settings_menu rest st
                  | Some current_value =>
                      match rest with
                      | [] => (MenuHangs, st, [])
                      | KeyboardInterrupt :: rest1 => (MenuReturned false, st, rest1)
                      | InputError :: rest1 => show_settings_menu rest1 st
                      | Entered new_value_str :: rest1 =>
                          let new_value :=
                            match current_value with
                            | VBool _ => Some (VBool (String.eqb (lower new_value_str) "y"))
                            | VInt _ => VInt <$> int_of new_value_str
                            | _ =>
                                let new_value_str := strip new_value_str in
                                Some (if negb (String.eqb new_value_str "")
                                      then VStr new_value_str else current_value)
                            end in
                          match new_value with
                          | None =>
                              match rest1 with
                              | [] => (MenuHangs, st, [])
                              | KeyboardInterrupt :: rest2 => (MenuReturned false, st, rest2)
                              | InputError :: rest2 => show_settings_menu rest2 st
                              | Entered _ :: rest2 => show_settings_menu rest2 st
                              end
                          | Some new_value =>
                              match refused key new_value with
                              | None => show_settings_menu rest1 st
                              | Some true =>
                                  match rest1 with
                                  | [] => (MenuHangs, st, [])
                                  | KeyboardInterrupt :: rest2 =>
                                      (MenuReturned false, st, rest2)
                                  | InputError :: rest2 => show_settings_menu rest2 st
                                  | Entered _ :: rest2 => show_settings_menu rest2 st
                                  end
                              | Some false =>
                                  show_settings_menu rest1 (store_value key new_value st)
                              end
                          end
                      end
                  end
              end
            else show_settings_menu rest st
        end
      else show_settings_menu rest st
  end.
End Menu.

(** The settings of the defaults are there with values of the kinds of
    the defaults, and the three numbers the menu tests are within their
    bounds. *)
Definition sound (defaults d : gmap string value) : Prop :=
  (forall k v0, defaults !! k = Some v0 ->
     exists v, d !! k = Some v /\ kind_of v = kind_of v0) /\
  (forall n, d !! "timeout" = Some (VInt n) -> 1 <= n) /\
  (forall n, d !! "cleanup_days" = Some (VInt n) -> 0 <= n) /\
  (forall n, d !! "keep_old_cache" = Some (VInt n) -> 1 <= n).

(** What the menu keeps: the [Settings] object is as every call leaves
    it, and its settings are sound. *)
Definition kept (defaults : gmap string value) (st : menu_state) : Prop :=
  well_kept defaults (menu_settings st) /\ sound defaults (current (menu_settings st)).

(** What is shown of a run of the menu. *)
Definition menu_kept (defaults : gmap string value) (inputs : list key_event)
    (r : menu_end * menu_state * list key_event) : Prop :=
  kept defaults r.1.2 /\
  (r.1.1 = MenuReturned false -> KeyboardInterrupt ∈ inputs) /\
  (r.1.1 = MenuHangs -> r.2 = []).

End InstallerMenu.

(** ** The log file ([Logger]) *)

Module InstallerLog.
Import PyStr PyText InstallerSetup.

Definition between (lo hi : nat) (c : ascii) : bool :=
  let n := nat_of_ascii c in (lo <=? n)%nat && (n <=? hi)%nat.

(** The classes of the pattern
    [\x1B(?:[@-Z\\-_]|\[[0-?]*[ -/]*[@-~])]. *)
Definition is_single (c : ascii) : bool := between 64 90 c || between 92 95 c.
Definition is_parameter (c : ascii) : bool := between 48 63 c.
Definition is_intermediate (c : ascii) : bool := between 32 47 c.
Definition is_final (c : ascii) : bool := between 64 126 c.

(** The longest run of bytes of a class at the start of a text: its
    length and what follows it. *)
Fixpoint span (p : ascii -> bool) (s : string) : nat * string :=
  match s with
  | String c s' =>
      if p c then let r := span p s' in (S r.1, r.2) else (O, s)
  | EmptyString => (O, s)
  end.

(** The length of the match of the pattern at the start of the text, if
    there is one. The three classes after the bracket have no byte in
    common, so that the longest runs are the only way to match. *)
Definition ansi_escape_match (s : string) : option nat :=
  match s with
  | String e (String d s') =>
      if Ascii.eqb e (ascii_of_nat 27) then
        if is_single d then Some 2%nat
        else if Ascii.eqb d "[" then
          let parameters := span is_parameter s' in
          let intermediates := span is_intermediate parameters.2 in
          match intermediates.2 with
          | String f _ =>
              if is_final f then Some (3 + parameters.1 + intermediates.1)%nat else None
          | EmptyString => None
          end
        else None
      else None
  | _ => None
  end.

(** [ansi_escape.sub('', msg)]: the matches are taken from the left;
    [skip] bytes belong to the match just removed. *)
Fixpoint ansi_escape_sub_from (skip : nat) (s : string) : string :=
  match s with
  | EmptyString => EmptyString
  | String c s' =>
      match skip with
      | S skip' => ansi_escape_sub_from skip' s'
      | O =>
          match ansi_escape_match s with
          | Some n => ansi_escape_sub_from (n - 1) s'
          | None => String c (ansi_escape_sub_from 0 s')
          end
      end
  end.

Definition ansi_escape_sub (msg : string) : string := ansi_escape_sub_from 0 msg.

(** The items of the dict [emoji_replacements], in its order; its literal
    names one key twice, and the dict has the second value at the place
    of the first. *)
Definition emoji_replacements : list (string * string) :=
  [
   ("✅", "[OK]");
   ("⚠️ ", "[WARN]");
   ("❌", "[ERR]");
   ("ℹ️ ", "[INFO]");
   ("📥", "[DL]");
   ("📁", "[DIR]");
   ("💻", "[CPU]");
   ("📦", "[PKG]");
   ("🔢", "[VER]");
   ("🎯", "[SEL]");
   ("📊", "[STAT]");
   ("🚀", "[START]");
   ("🌐", "[OS]");
   ("🛜", "[OFFLINE]");
   ("⏱️ ", "[TIME]");
   ("💾", "[SAVE]");
   ("🌍", "[NET]");
   ("🔍", "[SEARCH]");
   ("🛠️ ", "[TOOL]");
   ("🗑️ ", "[TRASH]");
   ("⚙️ ", "[GEAR]");
   ("🔄", "[RESET]")
  ].

(** [Logger._clean_message(msg)] *)
Definition _clean_message (msg : string) : string :=
  foldl (fun msg '(emoji, text) => replace emoji text msg)
    (ansi_escape_sub msg) emoji_replacements.

(** The codes of the class [Colors]. *)
Definition codes : list string := [RED; GREEN; YELLOW; BLUE; CYAN; MAGENTA; BOLD; DIM; NC].

End InstallerLog.

(** * Properties *)

(** ** The sort *)

Section SortFacts.
Context {A K : Type} (key : A -> K) (le : K -> K -> bool).

Lemma insert_Permutation x l : PySort.insert key le x l ≡ₚ x :: l.
Proof.
  induction l as [|y l IH]; simpl; [done|].
  destruct (le (key x) (key y)); [done|].
  rewrite IH. apply Permutation_swap.
Qed.

Lemma sorted_Permutation l : PySort.sorted key le l ≡ₚ l.
Proof.
  induction l as [|x l IH]; simpl; [done|].
  by rewrite insert_Permutation, IH.
Qed.

Lemma sorted_elem_of l x : x ∈ PySort.sorted key le l ↔ x ∈ l.
Proof. by rewrite sorted_Permutation. Qed.

Hypothesis le_total : forall a b, le a b = true \/ le b a = true.
Hypothesis le_trans : forall a b c, le a b = true -> le b c = true -> le a c = true.

Lemma insert_StronglySorted x l :
  StronglySorted (PySort.le_key key le) l ->
  StronglySorted (PySort.le_key key le) (PySort.insert key le x l).
Proof.
  induction 1 as [|y l Hl IH Hy]; simpl.
  - repeat constructor.
  - destruct (le (key x) (key y)) eqn:Hxy.
    + constructor; [by constructor|].
      constructor; [done|].
      eapply Forall_impl; [exact Hy|]. intros z Hz. eapply le_trans; eauto.
    + constructor; [done|].
      rewrite insert_Permutation. constructor; [|done].
      destruct (le_total (key x) (key y)) as [E|E]; [congruence|done].
Qed.

Lemma sorted_StronglySorted l :
  StronglySorted (PySort.le_key key le) (PySort.sorted key le l).
Proof.
  induction l; simpl; [constructor|]. by apply insert_StronglySorted.
Qed.
End SortFacts.

(** ** The order on strings *)

Lemma ascii_compare_N a b :
  Ascii.compare a b = (N_of_ascii a ?= N_of_ascii b)%N.
Proof. reflexivity. Qed.

Lemma string_compare_trans a b c :
  String.compare a b <> Gt -> String.compare b c <> Gt -> String.compare a c <> Gt.
Proof.
  revert b c. induction a as [|x a IH]; intros [|y b] [|z c]; simpl; try congruence.
  rewrite !ascii_compare_N.
  destruct (N.compare_spec (N_of_ascii x) (N_of_ascii y)) as [E1|E1|E1];
    destruct (N.compare_spec (N_of_ascii y) (N_of_ascii z)) as [E2|E2|E2];
    destruct (N.compare_spec (N_of_ascii x) (N_of_ascii z)) as [E3|E3|E3];
    try congruence; try lia.
  apply IH.
Qed.

Lemma string_leb_trans a b c :
  String.leb a b = true -> String.leb b c = true -> String.leb a c = true.
Proof.
  unfold String.leb. intros H1 H2.
  pose proof (string_compare_trans a b c) as T.
  destruct (String.compare a b); destruct (String.compare b c);
    destruct (String.compare a c); try done; exfalso; apply T; congruence.
Qed.

Lemma Z_geb_total (a b : Z) : Z.geb a b = true \/ Z.geb b a = true.
Proof. rewrite !Z.geb_leb. destruct (Z.leb_spec b a), (Z.leb_spec a b); auto; lia. Qed.

Lemma Z_geb_trans (a b c : Z) : Z.geb a b = true -> Z.geb b c = true -> Z.geb a c = true.
Proof. rewrite !Z.geb_leb, !Z.leb_le. lia. Qed.

(** ** The archiver *)

Section ArchiverFacts.
Import PyStr PyValue PyFloat Store Archiver.

(** *** [find_gtnh_folders] *)

Lemma wanted_filter p e :
  Is_true (is_dir e && startswith (name e) p) <-> wanted p e.
Proof.
  unfold wanted. by rewrite andb_True, !Is_true_true.
Qed.

(** C5, as the code has it: the folders found are the directories with
    the prefix among the entries that [iterdir] gave before any
    [PermissionError], in the order of their names; when the directory is
    listed to its end these are exactly the directories of the current
    directory that start with the prefix; and [prefix=None] means the
    global [PREFIX]. *)
Theorem find_gtnh_folders_found (PREFIX : string) (cwd : directory)
    (prefix : option string) :
  let p := match prefix with Some p => p | None => PREFIX end in
  let found := find_gtnh_folders PREFIX cwd prefix in
  (forall e, e ∈ found <-> e ∈ iterated cwd /\ wanted p e) /\
  StronglySorted (fun a b => String.leb (name a) (name b) = true) found /\
  length found = length (filter (fun e => is_dir e && startswith (name e) p) (iterated cwd)) /\
  (denied_at cwd = None -> forall e, e ∈ found <-> e ∈ entries cwd /\ wanted p e) /\
  find_gtnh_folders PREFIX cwd None = find_gtnh_folders PREFIX cwd (Some PREFIX).
Proof.
  intros p found.
  assert (Hin : forall e, e ∈ found <-> e ∈ iterated cwd /\ wanted p e).
  { intros e. unfold found, find_gtnh_folders. fold p.
    rewrite sorted_elem_of, list_elem_of_filter, wanted_filter. tauto. }
  split; [exact Hin|]. split; [|split; [|split]].
  - apply (sorted_StronglySorted name String.leb).
    + apply String.leb_total.
    + apply string_leb_trans.
  - unfold found, find_gtnh_folders. fold p.
    apply Permutation_length, sorted_Permutation.
  - intros Hd e. rewrite Hin. unfold iterated. by rewrite Hd.
  - reflexivity.
Qed.

(** C5 as stated fails when the directory cannot be listed: the folder is
    there and nothing is returned. *)
Lemma find_gtnh_folders_denied :
  let folder := {| name := "GTNH-2.7.4"; is_dir := true |} in
  let cwd := {| entries := [folder]; denied_at := Some 0%nat |} in
  (folder ∈ entries cwd /\ wanted "GTNH" folder) /\
  find_gtnh_folders "GTNH" cwd None = [].
Proof.
  simpl. split; [split|]; [apply list_elem_of_here | by split | reflexivity].
Qed.

(** *** [manage_backups] *)

Section Backups.
Variable glob_match : string -> string -> bool.
Variable unlink_ok : string -> bool.

Lemma elem_of_unlink file dir a :
  a ∈ unlink file dir <-> a ∈ dir /\ a_name a <> file.
Proof.
  unfold unlink. rewrite list_elem_of_filter.
  destruct (String.eqb_spec (a_name a) file); simpl; intuition.
Qed.

Lemma elem_of_unlink_all doomed dir a :
  a ∈ fold_left (fun dir archive =>
                   if unlink_ok (a_name archive) then unlink (a_name archive) dir
                   else dir) doomed dir
  <-> a ∈ dir /\
      forall d, d ∈ doomed -> unlink_ok (a_name d) = true -> a_name d <> a_name a.
Proof.
  revert dir. induction doomed as [|d doomed IH]; intros dir; simpl.
  - split; [intros ?; split; [done|] | tauto].
    intros d Hd. by apply elem_of_nil in Hd.
  - rewrite IH. destruct (unlink_ok (a_name d)) eqn:Hok.
    + rewrite elem_of_unlink. split.
      * intros [[Ha Hne] Hrest]. split; [done|].
        intros d' [->|Hd']%elem_of_cons; [congruence | auto].
      * intros [Ha Hall]. split; [split; [done|]|].
        -- intros E. eapply Hall; [apply list_elem_of_here|done|done].
        -- intros d' Hd'. apply Hall. by apply list_elem_of_further.
    + split.
      * intros [Ha Hrest]. split; [done|].
        intros d' [->|Hd']%elem_of_cons; [congruence | auto].
      * intros [Ha Hall]. split; [done|].
        intros d' Hd'. apply Hall. by apply list_elem_of_further.
Qed.

Lemma elem_of_globbed folder dir a :
  a ∈ globbed glob_match folder dir
  <-> a ∈ dir /\ glob_match (folder +:+ "_*.zip") (a_name a) = true.
Proof.
  unfold globbed. rewrite list_elem_of_filter, Is_true_true. tauto.
Qed.

(** C4, as the code has it.  With [max_backups <= 0] nothing is deleted.
    Otherwise the archives of the folder are put in the order of their
    modification time, newest first; the first [max_backups] are kept,
    and the others are the ones [unlink] is called on: an archive
    leaves the directory exactly when it is one of these and its
    [unlink] succeeds, none of them is newer than a kept one, and when
    every [unlink] succeeds the archives of the folder that remain are
    the kept ones, at most [max_backups]. *)
Theorem manage_backups_prunes (folder_name : string)
    (dir : list archive_file) (max_backups : Z) :
  NoDup (a_name <$> dir) ->
  let archives := PySort.sorted a_mtime Z.geb (globbed glob_match folder_name dir) in
  let kept := take (Z.to_nat max_backups) archives in
  let doomed := drop (Z.to_nat max_backups) archives in
  let dir' := manage_backups glob_match unlink_ok folder_name dir max_backups in
  (max_backups <= 0 -> dir' = dir) /\
  (0 < max_backups ->
     (forall a, a ∈ dir' <-> a ∈ dir /\ ~ (a ∈ doomed /\ unlink_ok (a_name a) = true)) /\
     (forall a b, a ∈ kept -> b ∈ doomed -> a_mtime b <= a_mtime a) /\
     ((forall a, a ∈ doomed -> unlink_ok (a_name a) = true) ->
        globbed glob_match folder_name dir' ≡ₚ kept /\
        Z.of_nat (length (globbed glob_match folder_name dir')) <= max_backups)).
Proof.
  intros Hnames archives kept doomed dir'.
  assert (Hnd : NoDup dir) by (eapply NoDup_fmap_1; exact Hnames).
  assert (Hinj : forall a b, a ∈ dir -> b ∈ dir -> a_name a = a_name b -> a = b).
  { intros a b Ha Hb E.
    apply list_elem_of_lookup in Ha as [i Hi]. apply list_elem_of_lookup in Hb as [j Hj].
    assert (i = j) as ->; [|congruence].
    eapply NoDup_lookup; [exact Hnames| |]; rewrite list_lookup_fmap;
      [by rewrite Hi | by rewrite Hj, E]. }
  assert (Hperm : archives ≡ₚ globbed glob_match folder_name dir)
    by apply sorted_Permutation.
  assert (Hsplit : archives = kept ++ doomed)
    by (symmetry; apply take_drop).
  assert (Hdoomed : forall a, a ∈ doomed -> a ∈ dir).
  { intros a Ha. assert (a ∈ archives) by (rewrite Hsplit, elem_of_app; auto).
    rewrite Hperm, elem_of_globbed in H. tauto. }
  split.
  { intros Hle. unfold dir', manage_backups.
    destruct (Z.leb_spec max_backups 0); [done|lia]. }
  intros Hpos.
  assert (Hdir' : forall a, a ∈ dir' <->
            a ∈ dir /\ ~ (a ∈ doomed /\ unlink_ok (a_name a) = true)).
  { intros a. unfold dir', manage_backups.
    destruct (Z.leb_spec max_backups 0); [lia|]. fold archives.
    destruct (Z.gtb_spec (Z.of_nat (length archives)) max_backups) as [Hlen|Hlen].
    - fold doomed. rewrite elem_of_unlink_all. split.
      + intros [Ha Hall]. split; [done|]. intros [Hd Hok]. by eapply Hall.
      + intros [Ha Hno]. split; [done|]. intros d Hd Hok E.
        apply Hno. assert (d = a) as <- by (apply Hinj; auto). done.
    - assert (doomed = []) as Hnil.
      { unfold doomed. apply drop_ge. lia. }
      rewrite Hnil. split; [intros ?; split; [done|] | tauto].
      intros [Hd _]. by apply elem_of_nil in Hd. }
  split; [exact Hdir'|]. split.
  - intros a b Ha Hb.
    assert (Hs : StronglySorted (PySort.le_key a_mtime Z.geb) (kept ++ doomed)).
    { rewrite <- Hsplit. apply sorted_StronglySorted; [apply Z_geb_total|apply Z_geb_trans]. }
    pose proof (StronglySorted_app_1_elem_of _ _ _ _ _ Hs Ha Hb) as Hab.
    unfold PySort.le_key in Hab. rewrite Z.geb_leb, Z.leb_le in Hab. done.
  - intros Hall.
    assert (Hndarch : NoDup (kept ++ doomed)).
    { rewrite <- Hsplit, Hperm. unfold globbed. by apply NoDup_filter. }
    apply NoDup_app in Hndarch as (Hndk & Hdisj & _).
    assert (P : globbed glob_match folder_name dir' ≡ₚ kept).
    { apply NoDup_Permutation; [| done |].
      - unfold globbed. apply NoDup_filter.
        unfold dir', manage_backups.
        destruct (Z.leb_spec max_backups 0); [lia|].
        destruct (_ >? _); [|done].
        generalize (drop (Z.to_nat max_backups)
          (PySort.sorted a_mtime Z.geb (globbed glob_match folder_name dir))).
        intros l. revert Hnd. generalize dir. induction l as [|d l IH]; intros dir0 Hnd0; simpl; [done|].
        apply IH. destruct (unlink_ok (a_name d)); [|done].
        unfold unlink. by apply NoDup_filter.
      - intros a. rewrite elem_of_globbed, Hdir'. split.
        + intros [[Ha Hno] Hg].
          assert (Hin : a ∈ archives) by (rewrite Hperm, elem_of_globbed; done).
          rewrite Hsplit, elem_of_app in Hin. destruct Hin as [|Hd]; [done|].
          exfalso. apply Hno. split; [done|]. by apply Hall.
        + intros Ha.
          assert (Hin : a ∈ archives) by (rewrite Hsplit, elem_of_app; auto).
          rewrite Hperm, elem_of_globbed in Hin. destruct Hin as [Hin Hg].
          split; [split; [done|]|done].
          intros [Hd _]. by eapply Hdisj. }
    split; [done|]. rewrite P. unfold kept. rewrite length_take. lia.
Qed.
End Backups.

(** The theorem on a directory with three archives of the folder and one
    of another, two to keep. *)
Lemma manage_backups_prunes_example :
  let zip n t := {| a_name := n; a_mtime := t; a_members := [] |} in
  let dir := [zip "GTNH_1.zip" 10; zip "GTNH_3.zip" 30; zip "Other_1.zip" 5;
              zip "GTNH_2.zip" 20] in
  manage_backups wildcard (fun _ => true) "GTNH" dir 2
  = [zip "GTNH_3.zip" 30; zip "Other_1.zip" 5; zip "GTNH_2.zip" 20] /\
  Z.of_nat (length (globbed wildcard "GTNH"
                      (manage_backups wildcard (fun _ => true) "GTNH" dir 2))) <= 2.
Proof.
  intros zip dir. split; [reflexivity|].
  assert (Hnd : NoDup (a_name <$> dir)) by (apply NoDup_ListNoDup; repeat constructor; simpl; intuition congruence).
  destruct (manage_backups_prunes wildcard (fun _ => true) "GTNH" dir 2 Hnd)
    as [_ Hpos].
  destruct (Hpos ltac:(lia)) as (_ & _ & Hall).
  apply Hall. reflexivity.
Defined.

(** C4 as stated fails when an [unlink] raises: the error is reported and
    the archive stays, so two archives remain where one should. *)
Lemma manage_backups_unlink_raises :
  let zip n t := {| a_name := n; a_mtime := t; a_members := [] |} in
  let dir := [zip "GTNH_1.zip" 10; zip "GTNH_2.zip" 20] in
  manage_backups wildcard (fun _ => false) "GTNH" dir 1 = dir /\
  length (globbed wildcard "GTNH" (manage_backups wildcard (fun _ => false) "GTNH" dir 1))
  = 2%nat.
Proof. split; reflexivity. Qed.

End ArchiverFacts.

Section WalkFacts.
Import PyStr PyValue Archiver.




Lemma take_while_all {A} (q : A -> bool) l :
  forallb q l = true -> take_while q l = l.
Proof.
  induction l as [|y l IH]; simpl; [done|].
  destruct (q y); simpl; [|done]. intros ?. f_equal. auto.
Qed.



End WalkFacts.

Section CreateArchiveFacts.
Import PyStr PyValue Archiver.
Context `{StrOps} (glob_match : string -> string -> bool).

(** The branches that leave the folder alone. *)
Local Ltac same_source :=
  split; [intros Hne; exfalso; by apply Hne
         |split; [intros; reflexivity
                 |intros ?; split; [reflexivity|try discriminate; try congruence]]].

(** C1: a run of [create_archive] changes the source folder only if the
    archive was written without an exception, [verify_archive] returned
    [True] on it and the prompt was answered with yes; when the check
    fails, or when writing the archive raises, the folder is as it was
    (and in the second case the call does not return [True]). *)
Theorem create_archive_source_kept (env : environment)
    (settings : gmap string value) (folder_name : string) (w : world) :
  let run := create_archive glob_match env settings folder_name w in
  (source run.2 <> source w ->
     zip_written env settings folder_name w = true /\
     verify_archive (testzip env) = true /\
     answered_yes env settings) /\
  (verify_archive (testzip env) = false -> source run.2 = source w) /\
  (zip_written env settings folder_name w = false ->
     source run.2 = source w /\ run.1 <> Returns true).
Proof.
  unfold create_archive, answered_yes.
  destruct (settings !! "archive_path") as [[]|]; try by same_source.
  destruct (mkdir_ok env); cbn [negb]; [|by same_source].
  destruct (zip_open_ok env); cbn [negb]; [|by same_source].
  destruct (zip_written env settings folder_name w) eqn:Hzip; cbn [negb];
    [|by same_source].
  destruct (verify_archive (testzip env)) eqn:Hverify; [|by same_source].
  destruct (as_number _); [|by same_source].
  destruct (settings !! "default_delete") as [default_delete|] eqn:Hdd;
    [|by same_source].
  destruct (answer env) as [line|] eqn:Hanswer; [|by same_source].
  destruct (String.eqb_spec (upper (strip line)) "") as [Hempty|Hempty].
  - destruct (truthy default_delete) eqn:Htruthy; cbn; [|by same_source].
    destruct (rmtree env); cbn;
      (split; [intros _; split; [done|split; [done|]];
               exists line, default_delete; auto
              |split; [done|intros; done]]).
  - destruct (String.eqb_spec (upper (strip line)) "Y") as [HY|HY];
      [|by same_source].
    destruct (rmtree env); cbn;
      (split; [intros _; split; [done|split; [done|]];
               exists line, default_delete; auto
              |split; [done|intros; done]]).
Qed.
End CreateArchiveFacts.

(** ** The settings files *)

Section SettingsFacts.
Import PyValue Store.

Lemma alloc_fresh (d : gmap string value) (h : store) :
  (fst (alloc d h) ∉ dom h) /\
  snd (alloc d h) !! fst (alloc d h) = Some d /\
  (forall l, l ∈ dom h -> snd (alloc d h) !! l = h !! l).
Proof.
  unfold alloc. simpl. pose proof (is_fresh (dom h)) as Hfresh.
  split; [done|]. split; [apply lookup_insert_eq|].
  intros l Hl. apply lookup_insert_ne. intros <-. done.
Qed.

Lemma loaded_from_union defaults d : loaded_from defaults (Object d) (d ∪ defaults).
Proof.
  simpl. split; [done|]. split; [|split].
  - intros k. rewrite dom_union. set_solver.
  - intros k v Hk. by apply lookup_union_Some_l.
  - intros k Hk. by apply lookup_union_r.
Qed.

(** C8: in both tools the load returns a new dict object, leaves every
    other object (the defaults among them) as it was, and the new dict is
    the defaults updated with the pairs of the file when the file holds a
    JSON object (every default key is there, every key of the file has
    the file's value, the other keys keep their default), and equal to
    the defaults when the file is absent, unreadable or not JSON. *)
Theorem load_settings_defaults (file : settings_file) (h : store) :
  let archiver := Archiver.load_settings file h in
  let installer := Installer.load_settings file h in
  ((fst archiver ∉ dom h) /\
   (forall l, l ∈ dom h -> snd archiver !! l = h !! l) /\
   exists settings, snd archiver !! fst archiver = Some settings /\
     loaded_from (read Archiver.DEFAULT_SETTINGS h) file settings) /\
  ((fst installer ∉ dom h) /\
   (forall l, l ∈ dom h -> snd installer !! l = h !! l) /\
   exists settings, snd installer !! fst installer = Some settings /\
     loaded_from (read Installer.DEFAULT_SETTINGS h) file settings).
Proof.
  intros archiver installer. split.
  - unfold archiver, Archiver.load_settings.
    destruct file as [| | |d];
      match goal with |- context [alloc ?x h] =>
        destruct (alloc_fresh x h) as (Hf & Hl & Ho) end;
      (split; [done|split; [done|]]); eexists; (split; [exact Hl|]);
      try done. apply loaded_from_union.
  - unfold installer, Installer.load_settings.
    destruct file as [| | |d];
      try (match goal with |- context [alloc ?x h] =>
             destruct (alloc_fresh x h) as (Hf & Hl & Ho) end;
           (split; [done|split; [done|]]); eexists; (split; [exact Hl|]); done).
    destruct (alloc_fresh (read Installer.DEFAULT_SETTINGS h) h) as (Hf & Hl & Ho).
    destruct (alloc (read Installer.DEFAULT_SETTINGS h) h) as [l h1] eqn:E.
    simpl in *. split; [done|]. split.
    + intros l' Hl'. rewrite lookup_insert_ne; [by apply Ho|]. by intros <-.
    + eexists. split; [apply lookup_insert_eq|].
      assert (read l h1 = read Installer.DEFAULT_SETTINGS h) as ->
        by (unfold read at 1; by rewrite Hl).
      apply loaded_from_union.
Qed.
End SettingsFacts.

(** ** The menus *)

Section MenuFacts.
Import PyStr Installer.
Context `{StrOps} {A : Type}.

Lemma select_option_loop_in (options : list A) allow_back inputs :
  in_options options (select_option_loop options allow_back inputs).1.
Proof.
  induction inputs as [|[choice| |] rest IH]; simpl; try done.
  destruct (String.eqb choice "0" && allow_back); [done|].
  destruct (isdigit choice); [|done].
  destruct (int_of choice) as [n|]; [|done].
  destruct ((0 <=? n - 1) && (n - 1 <? Z.of_nat (length options))) eqn:Hrange; [|done].
  apply andb_true_iff in Hrange as [H0 Hlt].
  apply Z.leb_le in H0. apply Z.ltb_lt in Hlt.
  destruct (options !! Z.to_nat (n - 1)) as [x|] eqn:Hx; simpl.
  - by eapply list_elem_of_lookup_2.
  - apply lookup_ge_None in Hx. lia.
Qed.

Lemma select_release_loop_in (releases : list A) inputs :
  in_options releases (select_release_loop releases inputs).1.
Proof.
  induction inputs as [|[choice| |] rest IH]; simpl; try done.
  destruct (String.eqb choice "0"); [done|].
  destruct (isdigit choice); [|done].
  destruct (int_of choice) as [n|]; [|done].
  destruct ((0 <=? n - 1) && (n - 1 <? Z.of_nat (length releases))) eqn:Hrange; [|done].
  apply andb_true_iff in Hrange as [H0 Hlt].
  apply Z.leb_le in H0. apply Z.ltb_lt in Hlt.
  destruct (releases !! Z.to_nat (n - 1)) as [x|] eqn:Hx; simpl.
  - by eapply list_elem_of_lookup_2.
  - apply lookup_ge_None in Hx. lia.
Qed.

(** C9: whatever is typed, [select_option] and [select_release] return
    [None] or a member of the list they were given, the index they read
    the list at is always within it, and on an empty list they return
    [None] at once, before reading any input. *)
Theorem select_option_in_options (options : list A) (allow_back : bool)
    (inputs : list input_event) :
  let chosen := select_option options allow_back inputs in
  let release := select_release options inputs in
  (returned chosen.1 = None \/ exists x, returned chosen.1 = Some x /\ x ∈ options) /\
  chosen.1 <> Stopped IndexOutOfRange /\
  (returned release.1 = None \/ exists x, returned release.1 = Some x /\ x ∈ options) /\
  release.1 <> Stopped IndexOutOfRange /\
  (options = [] ->
     chosen = (Stopped NoOptions, inputs) /\ release = (Stopped NoOptions, inputs)).
Proof.
  intros chosen release.
  assert (Hc : in_options options chosen.1).
  { unfold chosen, select_option. destruct options; [done|].
    apply select_option_loop_in. }
  assert (Hr : in_options options release.1).
  { unfold release, select_release. destruct options; [done|].
    apply select_release_loop_in. }
  split; [|split; [|split; [|split]]].
  - destruct chosen.1; simpl in *; eauto.
  - destruct chosen.1; simpl in *; congruence.
  - destruct release.1; simpl in *; eauto.
  - destruct release.1; simpl in *; congruence.
  - by intros ->.
Qed.
End MenuFacts.

(** ** The size formatters *)

Section SizeFacts.
Import PyFloat.






(** The turns given to the loop of [human_size] are enough: it ends
    because its condition fails, with an index inside [units]. *)
Lemma human_size_loop_done turns size_bytes unit s u :
  Installer.human_size_loop turns size_bytes unit = Some (s, u) ->
  (unit <= length Installer.units - 1)%nat ->
  (length Installer.units - 1 <= unit + turns)%nat ->
  ge_const s 1024 && (u <? length Installer.units - 1)%nat = false /\
  (u < length Installer.units)%nat.
Proof.
change (length Installer.units - 1)%nat with 4%nat.
change (length Installer.units) with 5%nat.
revert size_bytes unit. induction turns as [|turns IH]; intros size_bytes unit; simpl.
- intros [= <- <-] Hle Hge. split; [|lia].
  destruct (Nat.ltb_spec unit 4); [lia|]. apply andb_false_r.
- destruct (ge_const size_bytes 1024 && (unit <? 4)%nat) eqn:Hcond.
  + destruct (div_1024_int size_bytes) as [x|]; [|done].
    intros Hrun Hle Hge. apply andb_true_iff in Hcond as [_ Hu].
    apply Nat.ltb_lt in Hu. eapply IH; [exact Hrun|lia|lia].
  + intros [= <- <-] Hle Hge. split; [exact Hcond|lia].
Qed.








Example format_size_1536 :
  Archiver.format_size 1536 = Some "1.50 KB" /\
  Installer.human_size (NInt 1536) = Some "1.5 КБ" /\
  Archiver.format_size (5 * 1024 ^ 4) = Some "5120.00 GB" /\
  Installer.human_size (NInt 1023) = Some "1023.0 Б".
Proof. repeat split; vm_compute; reflexivity. Qed.

End SizeFacts.

(** ** The catalog cache *)

Section FetchFacts.
Import PyStr PyValue Installer.

Lemma elem_of_cache_files_of names f :
  f ∈ cache_files_of names <->
  f ∈ names /\ startswith f CACHE_FILE_PREFIX = true /\ endswith f ".json" = true.
Proof.
unfold cache_files_of.
rewrite sorted_elem_of, list_elem_of_filter, andb_True, !Is_true_true. tauto.
Qed.


End FetchFacts.


(** ** The download *)

Section DownloadFacts.
Import PyStr PyValue Installer.
Context `{StrOps}.
Variable sha1_hexdigest : list Byte.byte -> string.
Variable HAS_COLOR : bool.



End DownloadFacts.

(** ** [get_unique_values] *)

Section UniqueFacts.
Import PyValue Installer.

Lemma matches_spec filters it :
  matches filters it = true <->
  forall key x, (key, x) ∈ default [] filters -> py_eqb (item_get it key) x = true.
Proof.
destruct filters as [[|f fs]|]; simpl.
- split; [|done]. intros _ ? ? ?%elem_of_nil. done.
- rewrite andb_true_iff, forallb_forall. split.
  + intros [Hf Hfs] key x [<-|Hin]%elem_of_cons; [done|].
    apply list_elem_of_In in Hin. by apply (Hfs (key, x)).
  + intros Hall. split.
    * destruct f as [key x]. apply Hall, list_elem_of_here.
    * intros [key x] Hin. apply Hall, list_elem_of_further. by apply list_elem_of_In.
- split; [|done]. intros _ ? ? ?%elem_of_nil. done.
Qed.

Lemma chosen_cons it catalog field filters v :
  chosen (it :: catalog) field filters v <->
  (matches filters it = true /\ item_get it field = v /\ truthy v = true) \/
  chosen catalog field filters v.
Proof.
unfold chosen. setoid_rewrite elem_of_cons. rewrite matches_spec. split.
- intros (it' & [->|Hin] & Hm & Hv & Ht); [by left|right; by exists it'].
- intros [(Hm & Hv & Ht)|(it' & Hin & Hm & Hv & Ht)]; [exists it|exists it']; auto.
Qed.

Lemma chosen_nil field filters v : ~ chosen [] field filters v.
Proof. intros (it & Hin & _). by apply elem_of_nil in Hin. Qed.

Section Homogeneous.
(** One kind of values that compare with each other: [key] is what [<] and
    [==] look at. *)
Context {K : Type} (kind : value -> Prop) (key : value -> K) (ltb : K -> K -> bool).
Hypothesis kind_hashable : forall v, kind v -> hashable v = true.
Hypothesis kind_lt : forall a b, kind a -> kind b -> py_lt a b = Some (ltb (key a) (key b)).
Hypothesis kind_eq : forall a b, kind a -> kind b -> py_eqb a b = true <-> key a = key b.
Hypothesis ltb_irrefl : forall a, ltb a a = false.
Hypothesis ltb_trans : forall a b c, ltb a b = true -> ltb b c = true -> ltb a c = true.
Hypothesis ltb_total : forall a b, a <> b -> ltb a b = true \/ ltb b a = true.







End Homogeneous.





Lemma scalar_of_truthy v : hashable v = true -> truthy v = true -> scalar v.
Proof.
destruct v; simpl; try done; intros _ _.
- right. by eexists.
- right. by eexists.
- left. by eexists.
Qed.

Lemma py_eqb_refl_scalar v : scalar v -> py_eqb v v = true.
Proof.
intros [[s ->]|[z Hz]]; simpl; [apply String.eqb_refl|].
destruct v as [|b|n|s|l|d]; simpl in *; try done; [by destruct b|apply Z.eqb_refl].
Qed.

Lemma text_not_number v : is_text v -> is_number v -> False.
Proof. intros [s ->] [z Hz]. done. Qed.


Lemma py_lt_same_kind a b :
  scalar a -> scalar b -> is_Some (py_lt a b) ->
  (is_text a <-> is_text b) /\ (is_number a <-> is_number b).
Proof.
intros [Ha|Ha] [Hb|Hb] [c Hlt].
- split; split; intros; try done; exfalso; eauto using text_not_number.
- exfalso. destruct Ha as [s ->], Hb as [z Hz].
  destruct b as [|p|n|t|l|d]; simpl in *; done.
- exfalso. destruct Hb as [s ->], Ha as [z Hz].
  destruct a as [|p|n|t|l|d]; simpl in *; done.
- split; split; intros; try done; exfalso; eauto using text_not_number.
Qed.

Lemma insert_sorted_Ok x l r :
  insert_sorted x l = Ok r ->
  r ≡ₚ x :: l /\ forall y l', l = y :: l' -> is_Some (py_lt y x).
Proof.
revert r. induction l as [|y l IH]; intros r; simpl.
- intros [= <-]. split; [done|]. intros ? ? [=].
- destruct (py_lt y x) as [[]|] eqn:Hlt; [| |done].
  + destruct (insert_sorted x l) as [r'|]; [|done]. intros [= <-].
    destruct (IH r' eq_refl) as [Hperm _]. split.
    * rewrite Hperm. apply Permutation_swap.
    * intros ? ? [= <- <-]. by rewrite Hlt.
  + intros [= <-]. split; [done|]. intros ? ? [= <- <-]. by rewrite Hlt.
Qed.

Lemma py_sorted_Ok l r :
  py_sorted l = Ok r -> Forall scalar l ->
  r ≡ₚ l /\ (Forall is_text l \/ Forall is_number l).
Proof.
revert r. induction l as [|x l IH]; intros r; simpl.
- intros [= <-] _. split; [done|]. left. constructor.
- destruct (py_sorted l) as [r'|]; [|done]. intros Hins [Hx Hl]%Forall_cons.
  destruct (IH r' eq_refl Hl) as [Hperm Hkind].
  destruct (insert_sorted_Ok _ _ _ Hins) as [Hperm' Hhead].
  split; [by rewrite Hperm', Hperm|].
  destruct r' as [|y r''].
  { apply Permutation_nil_l in Hperm. subst l.
    destruct Hx; [left|right]; by repeat constructor. }
  assert (Hy : y ∈ l) by (rewrite <- Hperm; apply list_elem_of_here).
  assert (Hsy : scalar y) by (rewrite Forall_forall in Hl; auto).
  destruct (py_lt_same_kind y x Hsy Hx (Hhead _ _ eq_refl)) as [Ht Hn].
  destruct Hkind as [Hall|Hall]; [left|right]; constructor; try done;
    rewrite Forall_forall in Hall; [apply Ht|apply Hn]; auto.
Qed.

Lemma collect_Ok field filters catalog : forall values vs,
  collect field filters catalog values = Ok vs ->
  Forall scalar values ->
  Forall scalar vs /\
  (forall v, v ∈ values -> v ∈ vs) /\
  (forall v, chosen catalog field filters v ->
     scalar v /\ exists v', v' ∈ vs /\ py_eqb v v' = true).
Proof.
induction catalog as [|it catalog IH]; intros values vs; simpl.
- intros [= <-] Hs. split; [done|]. split; [done|].
  intros v Hv. by apply chosen_nil in Hv.
- destruct (matches filters it) eqn:Hm.
  2:{ intros Hc Hs. destruct (IH _ _ Hc Hs) as (? & ? & Hall).
      split; [done|]. split; [done|].
      intros v [(? & ? & ?)|Hv]%chosen_cons; [congruence|auto]. }
  destruct (truthy (item_get it field)) eqn:Ht.
  2:{ intros Hc Hs. destruct (IH _ _ Hc Hs) as (? & ? & Hall).
      split; [done|]. split; [done|].
      intros v [(? & <- & ?)|Hv]%chosen_cons; [congruence|auto]. }
  destruct (hashable (item_get it field)) eqn:Hh; [|done].
  pose proof (scalar_of_truthy _ Hh Ht) as Hsc.
  intros Hc Hs.
  assert (Hs' : Forall scalar (set_add (item_get it field) values)).
  { unfold set_add. destruct (existsb _ _); [done|].
    apply Forall_app. split; [done|by constructor]. }
  destruct (IH _ _ Hc Hs') as (Hvs & Hkeep & Hall).
  split; [done|]. split.
  + intros v Hv. apply Hkeep. unfold set_add.
    destruct (existsb _ _); [done|]. apply elem_of_app. by left.
  + intros v [(_ & <- & _)|Hv]%chosen_cons; [|auto].
    split; [done|]. unfold set_add in Hkeep.
    destruct (existsb (py_eqb (item_get it field)) values) eqn:Hex.
    * apply existsb_exists in Hex as (x & Hx & Heq). apply list_elem_of_In in Hx.
      exists x. split; [by apply Hkeep|done].
    * exists (item_get it field). split; [|by apply py_eqb_refl_scalar].
      apply Hkeep, elem_of_app. right. apply list_elem_of_here.
Qed.


End UniqueFacts.





(** ** Further properties *)

Section DamagedArchive.
Import PyStr PyValue Archiver.
Context `{StrOps} (glob_match : string -> string -> bool).

(** X1: when the archive is written and the integrity check fails,
    [create_archive] still returns [True]: the damaged archive stays in
    the archive directory under its new name, no older backup is pruned,
    no question is asked and the source folder is kept. *)
Theorem create_archive_damaged (env : environment) (settings : gmap string value)
    (folder_name archive_path : string) (w : world) :
  settings !! "archive_path" = Some (VStr archive_path) ->
  mkdir_ok env = true ->
  zip_written env settings folder_name w = true ->
  verify_archive (testzip env) = false ->
  let archive :=
    {| a_name := folder_name +:+ "_" +:+ timestamp env +:+ ".zip";
       a_mtime := now env;
       a_members := files_of (show_hidden_setting settings) folder_name (source w) |} in
  create_archive glob_match env settings folder_name w
  = (Returns true,
     {| source := source w; archive_dir := add_archive archive (archive_dir w) |}).
Proof.
intros Hpath Hmkdir Hzip Hbad archive.
unfold create_archive. rewrite Hpath, Hmkdir, Hzip, Hbad. cbn [negb].
assert (Hopen : zip_open_ok env = true).
{ unfold zip_written in Hzip. by apply andb_prop in Hzip as [? _]. }
rewrite Hopen. cbn [negb].
assert (Hall : archived_files env settings folder_name w
               = files_of (show_hidden_setting settings) folder_name (source w)).
{ unfold archived_files. apply take_while_all.
  unfold zip_written in Hzip. by apply andb_prop in Hzip as [_ ?]. }
by rewrite Hall.
Qed.
End DamagedArchive.

(** A folder of two files whose archive fails the check. *)
Lemma create_archive_damaged_example :
  let env := {| Archiver.mkdir_ok := true; Archiver.timestamp := "20240101_120000";
                Archiver.now := 1704110400; Archiver.zip_open_ok := true;
                Archiver.write_ok := fun _ => true;
                Archiver.testzip := Archiver.TestzipBad "GTNH_271/world/level.dat";
                Archiver.unlink_ok := fun _ => true;
                Archiver.answer := Archiver.Typed "y";
                Archiver.rmtree := Archiver.RmtreeOk |} in
  let w := {| Archiver.source :=
                Some [Archiver.File "server.properties";
                      Archiver.Dir "world" [Archiver.File "level.dat"]];
              Archiver.archive_dir := [] |} in
  let run := Archiver.create_archive (H := PyStr.ascii_ops) Archiver.wildcard env
               (Archiver.default_settings "/home/user/archives") "GTNH_271" w in
  run.1 = Archiver.Returns true /\
  Archiver.source run.2 = Archiver.source w /\
  Archiver.a_name <$> Archiver.archive_dir run.2 = ["GTNH_271_20240101_120000.zip"].
Proof.
intros env w run.
pose proof (create_archive_damaged (H := PyStr.ascii_ops) Archiver.wildcard env
              (Archiver.default_settings "/home/user/archives") "GTNH_271"
              "/home/user/archives" w eq_refl eq_refl eq_refl eq_refl) as Hrun.
cbv zeta in Hrun. fold run in Hrun. rewrite Hrun. done.
Defined.

Section MenuPicks.
Import PyStr Installer.
Context `{StrOps} {A : Type}.

(** X2: a line that holds the number of an option makes both menus return
    that option, the [n]-th of the list counted from one, and read no
    further input. *)
Theorem select_option_picks (options : list A) (allow_back : bool)
    (choice : string) (n : Z) (x : A) (rest : list input_event) :
  choice <> "0" -> isdigit choice = true -> int_of choice = Some n ->
  0 < n -> options !! Z.to_nat (n - 1) = Some x ->
  select_option options allow_back (Line choice :: rest) = (Picked x, rest) /\
  select_release options (Line choice :: rest) = (Picked x, rest).
Proof.
intros Hzero Hdigit Hint Hpos Hx.
assert (Hlen : (Z.to_nat (n - 1) < length options)%nat) by (eapply lookup_lt_Some; eauto).
assert (Hin : (0 <=? n - 1) && (n - 1 <? Z.of_nat (length options)) = true).
{ apply andb_true_intro. split; [apply Z.leb_le|apply Z.ltb_lt]; lia. }
unfold select_option, select_release.
destruct options as [|o options]; [done|].
cbn [select_option_loop select_release_loop].
destruct (String.eqb_spec choice "0") as [|_]; [done|].
cbn [andb]. rewrite Hdigit, Hint. cbv zeta. rewrite Hin, Hx. done.
Qed.

(** X3: a line that is not made of digits is answered with the error
    message and the next line is read: it changes nothing of what the
    menus return. *)
Theorem select_option_asks_again (options : list A) (allow_back : bool)
    (choice : string) (rest : list input_event) :
  choice <> "0" -> isdigit choice = false ->
  select_option options allow_back (Line choice :: rest)
  = (if options is [] then (Stopped NoOptions, Line choice :: rest)
     else select_option options allow_back rest) /\
  select_release options (Line choice :: rest)
  = (if options is [] then (Stopped NoOptions, Line choice :: rest)
     else select_release options rest).
Proof.
intros Hzero Hdigit. unfold select_option, select_release.
destruct options as [|o options]; [done|].
cbn [select_option_loop select_release_loop].
destruct (String.eqb_spec choice "0") as [|_]; [done|].
cbn [andb]. by rewrite Hdigit.
Qed.
End MenuPicks.

(** The second of three systems is picked by typing 2, after a line that
    is no number. *)
Lemma select_option_picks_example :
  Installer.select_option (H := PyStr.ascii_ops) ["linux"; "windows"; "macos"] true
    [Installer.Line "2"; Installer.Line "1"]
  = (Installer.Picked "windows", [Installer.Line "1"]).
Proof.
refine (proj1 (select_option_picks (H := PyStr.ascii_ops) ["linux"; "windows"; "macos"]
                 true "2" 2 "windows" [Installer.Line "1"] _ eq_refl eq_refl _ eq_refl));
  [discriminate|reflexivity].
Defined.

Lemma select_option_asks_again_example :
  Installer.select_release (H := PyStr.ascii_ops) ["21.0.1"; "17.0.9"]
    [Installer.Line "two"; Installer.Line "2"]
  = Installer.select_release (H := PyStr.ascii_ops) ["21.0.1"; "17.0.9"] [Installer.Line "2"].
Proof.
refine (proj2 (select_option_asks_again (H := PyStr.ascii_ops) ["21.0.1"; "17.0.9"]
                 true "two" [Installer.Line "2"] _ eq_refl)).
discriminate.
Defined.

Section Reuse.
Import PyStr PyValue Installer.
Context `{StrOps}.
Variable sha1_hexdigest : list Byte.byte -> string.
Variable HAS_COLOR : bool.

(** X4: with the [download_resume] setting on, a file already at the
    download path whose size is the expected one (and not zero) is
    returned as it is, without a request, when no digest is given or the
    [check_sha1] setting is off. *)
Theorem download_file_reuses (net : urlopen_result) (cache_dir : string)
    (settings : gmap string value) (fs : gmap string (list Byte.byte))
    (filename : string) (expected_size : Z) (expected_sha1 : option string)
    (existing : list Byte.byte) :
  let download_path := path_join (path_join cache_dir "downloads") filename in
  fs !! download_path = Some existing ->
  truthy (get settings "download_resume" (VBool true)) = true ->
  expected_size <> 0 -> Z.of_nat (length existing) = expected_size ->
  str_truthy expected_sha1 = false \/
    truthy (get settings "check_sha1" (VBool true)) = false ->
  download_file sha1_hexdigest HAS_COLOR net cache_dir settings fs filename
    (Some expected_size) expected_sha1
  = {| path := Some download_path; files := fs; requested := false |}.
Proof.
intros download_path Hfile Hresume Hsize Hlen Hcheck.
unfold download_file. fold download_path. rewrite Hfile, Hresume. cbn [int_truthy default from_option id].
destruct (Z.eqb_spec expected_size 0) as [|_]; [done|].
destruct (Z.eqb_spec (Z.of_nat (length existing)) expected_size) as [_|]; [|done].
cbn [negb andb].
destruct Hcheck as [-> | ->]; [done|]. by rewrite andb_false_r.
Qed.
End Reuse.

Lemma download_file_reuses_example :
  let fs : gmap string (list Byte.byte) :=
    {[ "/tmp/bellsoft-java/downloads/jdk.tar.gz" := [Byte.x61; Byte.x62; Byte.x63] ]} in
  let r := Installer.download_file (H := PyStr.ascii_ops) (fun _ => "") true
             Installer.OpenRaises "/tmp/bellsoft-java"
             (Installer.default_settings "/opt/Java" "/tmp/bellsoft-java") fs
             "jdk.tar.gz" (Some 3) None in
  Installer.path r = Some "/tmp/bellsoft-java/downloads/jdk.tar.gz" /\
  Installer.files r = fs /\ Installer.requested r = false.
Proof.
intros fs r.
pose proof (download_file_reuses (H := PyStr.ascii_ops) (fun _ => "") true
              Installer.OpenRaises "/tmp/bellsoft-java"
              (Installer.default_settings "/opt/Java" "/tmp/bellsoft-java") fs
              "jdk.tar.gz" 3 None [Byte.x61; Byte.x62; Byte.x63]
              eq_refl eq_refl) as Hrun.
cbv zeta in Hrun. fold r in Hrun. rewrite Hrun; [done|lia|reflexivity|by left].
Defined.

Section Pruning.
Import PyStr PyValue Installer.


End Pruning.


(** ** The [Settings] object *)

Section SettingsObjectFacts.
Import PyStr PyValue Store Installer InstallerSettings.
Variable write_outcome : nat -> save_result.


Lemma save_settings_keeps st :
  heap (save_settings write_outcome st).2 = heap st /\
  self_settings (save_settings write_outcome st).2 = self_settings st.
Proof. unfold save_settings. by destruct (write_outcome (writes st)). Qed.

Lemma current_save st : current (save_settings write_outcome st).2 = current st.
Proof.
unfold current. destruct (save_settings_keeps st) as [-> ->]. done.
Qed.

Lemma well_kept_init defaults on_disk h :
  h !! DEFAULT_SETTINGS = Some defaults ->
  well_kept defaults (settings_init on_disk h).
Proof.
intros Hd. unfold settings_init, load_settings.
assert (Hfresh : forall d, well_kept defaults
          (let '(l, h1) := alloc d h in
           {| heap := h1; self_settings := l; file := on_disk; writes := 0 |}) <->
          dom defaults ⊆ dom d).
{ intros d. destruct (alloc_fresh d h) as (Hf & Hl & Ho).
  destruct (alloc d h) as [l h1]. simpl in *.
  unfold well_kept, current, read. simpl. rewrite Hl. simpl.
  assert (l <> DEFAULT_SETTINGS).
  { intros ->. apply Hf. apply elem_of_dom. by eexists. }
  rewrite Ho by (apply elem_of_dom; by eexists).
  split; [by intros (_ & _ & _ & ?)|]. intros ?. split; [done|]. split; [done|].
  split; [by eexists|done]. }
assert (Hread : read DEFAULT_SETTINGS h = defaults) by (unfold read; by rewrite Hd).
destruct on_disk as [| | |d]; try (apply Hfresh; by rewrite Hread).
destruct (alloc_fresh (read DEFAULT_SETTINGS h) h) as (Hf & Hl & Ho).
destruct (alloc (read DEFAULT_SETTINGS h) h) as [l h1]. simpl in *.
assert (l <> DEFAULT_SETTINGS).
{ intros ->. apply Hf. apply elem_of_dom. by eexists. }
unfold well_kept, current, read. simpl.
rewrite lookup_insert_ne by done. rewrite lookup_insert_eq. simpl.
rewrite Ho by (apply elem_of_dom; by eexists).
split; [done|]. split; [done|]. split; [by eexists|].
rewrite Hl. simpl. rewrite Hread, dom_union. apply union_subseteq_r.
Qed.

Lemma well_kept_call defaults st c :
  well_kept defaults st -> well_kept defaults (after_call write_outcome st c).
Proof.
intros (Hd & Hne & Hsome & Hdom). destruct c as [key v| |]; cbn [after_call].
- unfold set. destruct (current st !! key) as [old|] eqn:Hkey; [|done]. simpl.
  match goal with |- well_kept _ (save_settings _ ?s).2 =>
    destruct (save_settings_keeps s) as [Hh Hs]; pose proof (current_save s) as Hc end.
  unfold well_kept. rewrite Hh, Hs, Hc. simpl.
  rewrite lookup_insert_ne by done. rewrite lookup_insert_eq.
  split; [done|]. split; [done|]. split; [by eexists|].
  unfold current, read. simpl. rewrite lookup_insert_eq. simpl.
  rewrite dom_insert. fold (read (self_settings st) (heap st)). fold (current st).
  etrans; [exact Hdom|apply union_subseteq_r].
- unfold reset_to_defaults.
  destruct (alloc_fresh (read DEFAULT_SETTINGS (heap st)) (heap st)) as (Hf & Hl & Ho).
  destruct (alloc (read DEFAULT_SETTINGS (heap st)) (heap st)) as [l h1]. simpl in *.
  match goal with |- well_kept _ (save_settings _ ?s).2 =>
    destruct (save_settings_keeps s) as [Hh Hs]; pose proof (current_save s) as Hc end.
  unfold well_kept. rewrite Hh, Hs, Hc. simpl.
  assert (l <> DEFAULT_SETTINGS).
  { intros ->. apply Hf. apply elem_of_dom. by eexists. }
  rewrite Ho by (apply elem_of_dom; by eexists).
  split; [done|]. split; [done|]. split; [by eexists|].
  unfold current, read. simpl. rewrite Hl. simpl. unfold read. by rewrite Hd.
- destruct (save_settings_keeps st) as [Hh Hs]. pose proof (current_save st) as Hc.
  unfold well_kept. by rewrite Hh, Hs, Hc.
Qed.

Lemma well_kept_calls defaults calls : forall st,
  well_kept defaults st -> well_kept defaults (foldl (after_call write_outcome) st calls).
Proof.
induction calls as [|c calls IH]; intros st Hst; simpl; [done|].
apply IH. by apply well_kept_call.
Qed.

(** X6: [set] changes a setting that exists, in memory, and returns [True],
    also when the file could not be written; the other settings and the
    defaults of the class keep their values and no key is added. On a key
    that is not a setting it returns [False] and changes nothing, the file
    included. *)
Theorem set_only_known_keys (defaults : gmap string value) (st : settings_state)
    (key : string) (v : value) :
  well_kept defaults st ->
  let r := set write_outcome key v st in
  (key ∈ dom (current st) ->
     r.1 = true /\ current r.2 = <[key := v]> (current st) /\
     dom (current r.2) = dom (current st) /\
     read DEFAULT_SETTINGS (heap r.2) = defaults) /\
  (key ∉ dom (current st) -> r = (false, st)).
Proof.
intros (Hd & Hne & Hsome & Hdom) r. unfold r, set. split.
- intros [old Hold]%elem_of_dom. rewrite Hold. cbn [fst snd].
  match goal with |- context [save_settings _ ?s] =>
    destruct (save_settings_keeps s) as [Hh Hs]; pose proof (current_save s) as Hc;
    set (st1 := s) in * end.
  assert (Hcur : current st1 = <[key := v]> (current st)).
  { unfold current at 1, read, st1. cbn [heap self_settings].
    by rewrite lookup_insert_eq. }
  rewrite Hc, Hcur. split; [done|]. split; [done|]. split.
  + apply dom_insert_lookup_L. by eexists.
  + rewrite Hh. unfold read, st1. cbn [heap].
    rewrite lookup_insert_ne by done. by rewrite Hd.
- intros Hkey%not_elem_of_dom. by rewrite Hkey.
Qed.

(** X7: Whatever calls were made on a [Settings] object, a write that
    succeeds stores settings that the next start reads back as they are:
    [load_settings] on the file returns a dict equal to [self.settings]. *)
Theorem settings_saved_are_loaded (defaults : gmap string value)
    (on_disk : settings_file) (h : store) (calls : list call) :
  h !! DEFAULT_SETTINGS = Some defaults ->
  let st := foldl (after_call write_outcome) (settings_init on_disk h) calls in
  write_outcome (writes st) = Saved ->
  let saved := save_settings write_outcome st in
  let loaded := load_settings (file saved.2) (heap saved.2) in
  saved.1 = true /\ read loaded.1 loaded.2 = current st.
Proof.
intros Hd st Hw saved loaded.
assert (Hst : well_kept defaults st) by by apply well_kept_calls, well_kept_init.
destruct Hst as (Hdef & Hne & Hsome & Hdom).
unfold loaded, saved, save_settings. rewrite Hw. cbn [fst snd file heap]. split; [done|].
unfold load_settings.
destruct (alloc_fresh (read DEFAULT_SETTINGS (heap st)) (heap st)) as (Hf & Hl & Ho).
destruct (alloc (read DEFAULT_SETTINGS (heap st)) (heap st)) as [l h1].
cbn [fst snd] in *.
assert (Hcopy : read l h1 = defaults).
{ unfold read at 1. rewrite Hl. cbn. unfold read. by rewrite Hdef. }
unfold read at 1. rewrite lookup_insert_eq, Hcopy. cbn.
apply map_eq. intros k. rewrite lookup_union.
destruct (current st !! k) as [x|] eqn:Hk.
- by destruct (defaults !! k).
- assert (Hnone : defaults !! k = None).
  { apply not_elem_of_dom. intros Hin. apply Hdom in Hin.
    by apply not_elem_of_dom in Hk. }
  by rewrite Hnone.
Qed.
End SettingsObjectFacts.

(** ** The start of the installer *)

Section InstallerInitFacts.
Import PyStr PyValue Store Installer InstallerSettings.
Variable write_outcome : nat -> save_result.
Variables DEFAULT_CACHE_DIR DEFAULT_INSTALL_DIR : string.
Variable isatty : bool.
Variable makedirs_ok : string -> bool.

Lemma current_set key v st old :
  current st !! key = Some old ->
  current (set write_outcome key v st).2 = <[key := v]> (current st).
Proof.
intros Hold. unfold set. rewrite Hold. cbn [snd]. rewrite current_save.
unfold current at 1, read. cbn [heap self_settings]. by rewrite lookup_insert_eq.
Qed.

Lemma set_unknown key v st :
  current st !! key = None -> (set write_outcome key v st).2 = st.
Proof. intros Hnone. unfold set. by rewrite Hnone. Qed.

Lemma file_set key v st old :
  current st !! key = Some old -> write_outcome (writes st) = Saved ->
  file (set write_outcome key v st).2 = Object (<[key := v]> (current st)).
Proof.
intros Hold Hw. unfold set. rewrite Hold. cbn [snd]. unfold save_settings.
cbn [writes]. rewrite Hw. cbn [snd file]. f_equal.
unfold current, read. cbn [heap self_settings]. by rewrite lookup_insert_eq.
Qed.


Lemma in_step_set key v st :
  (forall n, write_outcome n = Saved) ->
  in_step st -> in_step (set write_outcome key v st).2.
Proof.
intros Hw Hst. destruct (current st !! key) as [old|] eqn:Hkey.
- unfold in_step. by rewrite (file_set _ _ _ old), (current_set _ _ _ old).
- by rewrite set_unknown.
Qed.

Lemma lookup_set key v st k :
  k <> key -> current (set write_outcome key v st).2 !! k = current st !! k.
Proof.
intros Hne. destruct (current st !! key) as [old|] eqn:Hkey.
- rewrite (current_set _ _ _ old) by done. by apply lookup_insert_ne.
- by rewrite set_unknown.
Qed.

Lemma lookup_set_same key v st :
  is_Some (current st !! key) -> current (set write_outcome key v st).2 !! key = Some v.
Proof.
intros [old Hold]. rewrite (current_set _ _ _ old) by done. apply lookup_insert_eq.
Qed.

Lemma settings_init_current defaults on_disk h :
  h !! DEFAULT_SETTINGS = Some defaults ->
  current (settings_init on_disk h)
  = match on_disk with Object d => d ∪ defaults | _ => defaults end.
Proof.
intros Hd. unfold settings_init, load_settings, current.
assert (Hread : read DEFAULT_SETTINGS h = defaults) by (unfold read; by rewrite Hd).
destruct (alloc_fresh (read DEFAULT_SETTINGS h) h) as (Hf & Hl & Ho).
destruct on_disk as [| | |d];
  destruct (alloc (read DEFAULT_SETTINGS h) h) as [l h1]; cbn [fst snd] in *;
  cbn [heap self_settings]; unfold read at 1.
1-3: by rewrite Hl.
rewrite lookup_insert_eq. cbn. unfold read at 1. rewrite Hl. cbn. by rewrite Hread.
Qed.

(** The settings after the five overrides of [__init__]. *)
Lemma installer_init_settings args on_disk h s :
  installer_init write_outcome DEFAULT_CACHE_DIR DEFAULT_INSTALL_DIR isatty makedirs_ok
    args on_disk h = Some s ->
  exists st1 st2 st3 st4,
    st1 = (if negb (String.eqb (work_dir args) DEFAULT_CACHE_DIR)
           then (set write_outcome "cache_dir" (VStr (work_dir args))
                   (settings_init on_disk h)).2
           else settings_init on_disk h) /\
    st2 = (if negb (String.eqb (install_dir args) DEFAULT_INSTALL_DIR)
           then (set write_outcome "install_dir" (VStr (install_dir args)) st1).2
           else st1) /\
    st3 = (if negb (timeout args =? REQUEST_TIMEOUT)
           then (set write_outcome "timeout" (VInt (timeout args)) st2).2 else st2) /\
    st4 = (if offline args then (set write_outcome "offline_mode" (VBool true) st3).2
           else st3) /\
    settings_of s = (if no_color args
                     then (set write_outcome "show_colors" (VBool false) st4).2 else st4).
Proof.
unfold installer_init. intros Hs.
match type of Hs with (if ?c then _ else _) = _ => destruct c; [|done] end.
injection Hs as <-. cbn [settings_of]. by repeat eexists.
Qed.

(** X8: [--offline] outlives the run it is given to.  When the settings
    file can be written, a start with [--offline] stores the setting, and
    a later start from that file, with whatever arguments, is offline too:
    [fetch_api_data] then sends no request, forced or not. *)
Theorem offline_outlives_the_run (defaults : gmap string value) (h : store)
    (args later_args : arguments) (on_disk : settings_file) (first later : started)
    (env : cache_env) (cache_dir : string) (force : bool) :
  h !! DEFAULT_SETTINGS = Some defaults ->
  "offline_mode" ∈ dom defaults ->
  (forall n, write_outcome n = Saved) ->
  offline args = true ->
  work_dir later_args = work_dir args ->
  installer_init write_outcome DEFAULT_CACHE_DIR DEFAULT_INSTALL_DIR isatty makedirs_ok
    args on_disk h = Some first ->
  installer_init write_outcome DEFAULT_CACHE_DIR DEFAULT_INSTALL_DIR isatty makedirs_ok
    later_args (file (settings_of first)) h = Some later ->
  let settings := current (settings_of later) in
  get settings "offline_mode" VNone = VBool true /\
  requests (fetch_api_data env cache_dir settings force (self_of later)) = 0%nat.
Proof.
intros Hd Hkey Hw Hoff _ Hfirst Hlater settings.
assert (Hon : settings !! "offline_mode" = Some (VBool true)).
{ (* the first run leaves the setting in the file *)
  apply installer_init_settings in Hfirst as (s1 & s2 & s3 & s4 & E1 & E2 & E3 & E4 & E5).
  rewrite Hoff in E4.
  assert (Hknown : forall st key v,
            is_Some (current st !! "offline_mode") ->
            is_Some (current (set write_outcome key v st).2 !! "offline_mode")).
  { intros st key v Hst. destruct (String.eqb_spec "offline_mode" key) as [<-|Hne].
    - rewrite lookup_set_same by done. by eexists.
    - by rewrite lookup_set. }
  assert (H0 : is_Some (current (settings_init on_disk h) !! "offline_mode")).
  { rewrite (settings_init_current defaults) by done.
    apply elem_of_dom in Hkey as [x Hx].
    destruct on_disk as [| | |d]; try by eexists.
    rewrite lookup_union. rewrite Hx. destruct (d !! "offline_mode"); by eexists. }
  assert (H3 : is_Some (current s3 !! "offline_mode")).
  { subst s3 s2 s1. repeat (match goal with |- context [if ?c then _ else _] =>
      destruct c end); repeat apply Hknown; done. }
  assert (H4 : current s4 !! "offline_mode" = Some (VBool true) /\ in_step s4).
  { subst s4. split; [by apply lookup_set_same|].
    destruct H3 as [old Hold]. unfold in_step.
    by rewrite (file_set _ _ _ old), (current_set _ _ _ old). }
  assert (H5 : current (settings_of first) !! "offline_mode" = Some (VBool true) /\
               in_step (settings_of first)).
  { rewrite E5. destruct (no_color args); [|done]. destruct H4 as [H4 Hstep]. split.
    - by rewrite lookup_set.
    - by apply in_step_set. }
  destruct H5 as [Hval Hfile]. unfold in_step in Hfile. rewrite Hfile in Hlater.
  (* the later run reads it back and does not take it away *)
  apply installer_init_settings in Hlater as (t1 & t2 & t3 & t4 & F1 & F2 & F3 & F4 & F5).
  assert (Hkeeps : forall st key v,
            (key <> "offline_mode" \/ v = VBool true) ->
            current st !! "offline_mode" = Some (VBool true) ->
            current (set write_outcome key v st).2 !! "offline_mode" = Some (VBool true)).
  { intros st key v [Hne| ->] Hst.
    - by rewrite lookup_set.
    - destruct (String.eqb_spec "offline_mode" key) as [<-|Hne].
      + apply lookup_set_same. by eexists.
      + by rewrite lookup_set. }
  assert (G0 : current (settings_init (Object (current (settings_of first))) h)
               !! "offline_mode" = Some (VBool true)).
  { rewrite (settings_init_current defaults) by done.
    by apply lookup_union_Some_l. }
  unfold settings. rewrite F5. subst t4 t3 t2 t1.
  repeat (match goal with |- context [if ?c then _ else _] => destruct c end);
    repeat (apply Hkeeps; [first [by left|by right]|]); done. }
split; [unfold get; by rewrite Hon|].
unfold fetch_api_data, get. rewrite Hon. cbn [default truthy from_option id].
repeat match goal with
       | |- context [match ?x with _ => _ end] => destruct x; cbn; try done
       end.
Qed.

(** X9: an argument of the command line that has its default value leaves
    the stored setting in force, and one that differs from the default
    replaces it: [--timeout 300] cannot bring a stored timeout back to 300
    seconds, and likewise for the two directories. *)
Theorem default_arguments_do_not_override (defaults d : gmap string value) (h : store)
    (args : arguments) (s : started) :
  h !! DEFAULT_SETTINGS = Some defaults ->
  installer_init write_outcome DEFAULT_CACHE_DIR DEFAULT_INSTALL_DIR isatty makedirs_ok
    args (Object d) h = Some s ->
  let settings := current (settings_of s) in
  (settings !! "timeout"
   = if timeout args =? REQUEST_TIMEOUT then (d ∪ defaults) !! "timeout"
     else (fun _ => VInt (timeout args)) <$> ((d ∪ defaults) !! "timeout")) /\
  (settings !! "cache_dir"
   = if String.eqb (work_dir args) DEFAULT_CACHE_DIR then (d ∪ defaults) !! "cache_dir"
     else (fun _ => VStr (work_dir args)) <$> ((d ∪ defaults) !! "cache_dir")) /\
  (settings !! "install_dir"
   = if String.eqb (install_dir args) DEFAULT_INSTALL_DIR
     then (d ∪ defaults) !! "install_dir"
     else (fun _ => VStr (install_dir args)) <$> ((d ∪ defaults) !! "install_dir")).
Proof.
intros Hd Hs settings.
apply installer_init_settings in Hs as (s1 & s2 & s3 & s4 & E1 & E2 & E3 & E4 & E5).
assert (H0 : current (settings_init (Object d) h) = d ∪ defaults)
  by apply (settings_init_current defaults (Object d) h Hd).
assert (Hset : forall st key v k,
          current (set write_outcome key v st).2 !! k
          = if String.eqb k key then (fun _ => v) <$> (current st !! k)
            else current st !! k).
{ intros st key v k. destruct (String.eqb_spec k key) as [->|Hne].
  - destruct (current st !! key) as [old|] eqn:Hold.
    + rewrite lookup_set_same by by eexists. done.
    + rewrite set_unknown by done. by rewrite Hold.
  - by rewrite lookup_set. }
assert (Hif : forall (c : bool) st key v k,
          current (if c then (set write_outcome key v st).2 else st) !! k
          = if c && String.eqb k key then (fun _ => v) <$> (current st !! k)
            else current st !! k).
{ intros [] st key v k; [apply Hset|done]. }
unfold settings. rewrite E5, E4, E3, E2, E1, !Hif, H0.
cbn [String.eqb Ascii.eqb Bool.eqb andb]. rewrite !andb_false_r, !andb_true_r.
repeat split.
- by destruct (timeout args =? REQUEST_TIMEOUT).
- by destruct (String.eqb (work_dir args) DEFAULT_CACHE_DIR).
- by destruct (String.eqb (install_dir args) DEFAULT_INSTALL_DIR).
Qed.
End InstallerInitFacts.

(** A [Settings] object started without a file, on a disk that refuses
    every write: the timeout is changed all the same, and a key that is
    no setting is refused. *)
Lemma set_only_known_keys_example :
  let defaults := Installer.default_settings "/opt/Java" "/tmp/bellsoft-java" in
  let h : Store.store := {[ Installer.DEFAULT_SETTINGS := defaults ]} in
  let refuse (n : nat) := InstallerSettings.NotOpened in
  let st := InstallerSettings.settings_init Absent h in
  let r := InstallerSettings.set refuse "timeout" (PyValue.VInt 10) st in
  (r.1 = true /\
   InstallerSettings.current r.2 !! "timeout" = Some (PyValue.VInt 10) /\
   InstallerSettings.file r.2 = Absent) /\
  InstallerSettings.set refuse "colour" (PyValue.VBool true) st = (false, st).
Proof.
intros defaults h refuse st r.
assert (Hkept : InstallerSettings.well_kept defaults st)
  by (apply well_kept_init; reflexivity).
destruct (set_only_known_keys refuse defaults st "timeout" (PyValue.VInt 10) Hkept)
  as [Hknown _].
destruct (set_only_known_keys refuse defaults st "colour" (PyValue.VBool true) Hkept)
  as [_ Hunknown].
split.
- destruct Hknown as (Hret & Hcur & _).
  + apply elem_of_dom. eexists. reflexivity.
  + split; [exact Hret|]. fold r in Hcur. rewrite Hcur.
    split; [apply lookup_insert_eq|reflexivity].
- apply Hunknown. apply not_elem_of_dom. reflexivity.
Defined.

(** Two changes, then a write that succeeds: the next start reads the
    changed settings. *)
Lemma settings_saved_are_loaded_example :
  let defaults := Installer.default_settings "/opt/Java" "/tmp/bellsoft-java" in
  let h : Store.store := {[ Installer.DEFAULT_SETTINGS := defaults ]} in
  let write (n : nat) := InstallerSettings.Saved in
  let st := foldl (InstallerSettings.after_call write)
              (InstallerSettings.settings_init InvalidJSON h)
              [InstallerSettings.CallSet "timeout" (PyValue.VInt 10);
               InstallerSettings.CallReset;
               InstallerSettings.CallSet "check_sha1" (PyValue.VBool false)] in
  let saved := InstallerSettings.save_settings write st in
  let loaded := Installer.load_settings (InstallerSettings.file saved.2)
                  (InstallerSettings.heap saved.2) in
  Store.read loaded.1 loaded.2 = InstallerSettings.current st /\
  InstallerSettings.current st !! "check_sha1" = Some (PyValue.VBool false) /\
  InstallerSettings.current st !! "timeout" = Some (PyValue.VInt 300).
Proof.
intros defaults h write st saved loaded.
destruct (settings_saved_are_loaded write defaults InvalidJSON h
            [InstallerSettings.CallSet "timeout" (PyValue.VInt 10);
             InstallerSettings.CallReset;
             InstallerSettings.CallSet "check_sha1" (PyValue.VBool false)]
            eq_refl eq_refl) as [_ Hload].
split; [exact Hload|]. split; vm_compute; reflexivity.
Defined.

(** A start with [--offline], then a start without it in the same
    directory: the second one is offline. *)
Lemma offline_outlives_the_run_example :
  let defaults := Installer.default_settings "/opt/Java" "/tmp/bellsoft-java" in
  let h : Store.store := {[ Installer.DEFAULT_SETTINGS := defaults ]} in
  let write (n : nat) := InstallerSettings.Saved in
  let start := InstallerSettings.installer_init write "/tmp/bellsoft-java" "/opt/Java"
                 true (fun _ => true) in
  let args offline :=
    {| InstallerSettings.work_dir := "/tmp/bellsoft-java";
       InstallerSettings.install_dir := "/opt/Java";
       InstallerSettings.timeout := 300;
       InstallerSettings.offline := offline;
       InstallerSettings.no_color := false |} in
  exists first later,
    start (args true) Absent h = Some first /\
    start (args false)
      (InstallerSettings.file (InstallerSettings.settings_of first)) h = Some later /\
    Installer.get (InstallerSettings.current (InstallerSettings.settings_of later))
      "offline_mode" PyValue.VNone = PyValue.VBool true.
Proof.
intros defaults h write start args.
assert (Hruns : bool_decide
          (is_Some (first ← start (args true) Absent h;
                    start (args false)
                      (InstallerSettings.file (InstallerSettings.settings_of first)) h))
        = true) by (vm_compute; reflexivity).
revert Hruns.
destruct (start (args true) Absent h) as [first|] eqn:Hfirst; [|discriminate].
cbn [mbind option_bind].
destruct (start (args false)
            (InstallerSettings.file (InstallerSettings.settings_of first)) h)
  as [later|] eqn:Hlater; [|discriminate].
intros _. exists first, later. split; [reflexivity|]. split; [exact Hlater|].
refine (proj1 (offline_outlives_the_run write "/tmp/bellsoft-java" "/opt/Java" true
                 (fun _ => true) defaults h (args true) (args false) Absent first later
                 {| Installer.listdir := []; Installer.getmtime := fun _ => 0;
                    Installer.clock := 0; Installer.stamp := "";
                    Installer.urlopen := fun _ => Installer.RaisesOther;
                    Installer.save_ok := true; Installer.remove_ok := fun _ => true |}
                 "/tmp/bellsoft-java" false eq_refl _ (fun _ => eq_refl) eq_refl eq_refl
                 Hfirst Hlater)).
apply elem_of_dom. eexists. reflexivity.
Defined.

(** A stored timeout of ten seconds and a command line that leaves
    [--timeout] at 300 but names another install directory. *)
Lemma default_arguments_do_not_override_example :
  let defaults := Installer.default_settings "/opt/Java" "/tmp/bellsoft-java" in
  let h : Store.store := {[ Installer.DEFAULT_SETTINGS := defaults ]} in
  let write (n : nat) := InstallerSettings.Saved in
  let stored : gmap string PyValue.value := {[ "timeout" := PyValue.VInt 10 ]} in
  let args :=
    {| InstallerSettings.work_dir := "/tmp/bellsoft-java";
       InstallerSettings.install_dir := "/home/user/jdk";
       InstallerSettings.timeout := 300;
       InstallerSettings.offline := false;
       InstallerSettings.no_color := false |} in
  exists s,
    InstallerSettings.installer_init write "/tmp/bellsoft-java" "/opt/Java" true
      (fun _ => true) args (Object stored) h = Some s /\
    InstallerSettings.current (InstallerSettings.settings_of s) !! "timeout"
    = Some (PyValue.VInt 10) /\
    InstallerSettings.current (InstallerSettings.settings_of s) !! "install_dir"
    = Some (PyValue.VStr "/home/user/jdk").
Proof.
intros defaults h write stored args.
assert (Hruns : bool_decide
          (is_Some (InstallerSettings.installer_init write "/tmp/bellsoft-java" "/opt/Java"
                      true (fun _ => true) args (Object stored) h)) = true)
  by (vm_compute; reflexivity).
revert Hruns.
destruct (InstallerSettings.installer_init write "/tmp/bellsoft-java" "/opt/Java" true
            (fun _ => true) args (Object stored) h) as [s|] eqn:Hs; [|discriminate].
intros _. exists s. split; [reflexivity|].
destruct (default_arguments_do_not_override write "/tmp/bellsoft-java" "/opt/Java" true
            (fun _ => true) defaults stored h args s eq_refl Hs) as (Ht & _ & Hi).
split; [exact Ht|exact Hi].
Defined.

(** ** The interactive choice of a release *)

Section SetupFacts.
Import PyStr PyText PyValue PyFloat Installer InstallerSetup.
Context `{StrOps}.
Variable HAS_COLOR : bool.
Variable repr_of : value -> string.
Variable sort_by_version : list item -> result (list item).

Lemma bind_Next {A B} (m : run A) (k : A -> run B) inputs b rest :
  (m ≫= k) inputs = (Next b, rest) ->
  exists a mid, m inputs = (Next a, mid) /\ k a mid = (Next b, rest).
Proof.
unfold mbind, run_bind. destruct (m inputs) as [[a|e] mid]; [|done]. eauto.
Qed.

Lemma raising_Next {A} (r : result A) inputs a rest :
  raising r inputs = (Next a, rest) -> r = Ok a /\ rest = inputs.
Proof. destruct r; [|done]. by intros [= -> ->]. Qed.

Lemma evaluated_Next {A} (r : option A) inputs a rest :
  evaluated r inputs = (Next a, rest) -> r = Some a /\ rest = inputs.
Proof. destruct r; [|done]. by intros [= -> ->]. Qed.

Lemma return_none_if_Next c inputs u rest :
  return_none_if c inputs = (Next u, rest) -> c = false /\ rest = inputs.
Proof. destruct c; [done|]. by intros [= _ ->]. Qed.

Lemma ask_Next {A} (menu : list input_event -> selection A * list input_event)
    inputs x rest :
  ask menu inputs = (Next x, rest) -> menu inputs = (Picked x, rest).
Proof. unfold ask. destruct (menu inputs) as [[y|why] r]; [|done]. by intros [= -> ->]. Qed.

Lemma select_option_Picked {A} (options : list A) allow_back inputs x rest :
  select_option options allow_back inputs = (Picked x, rest) -> x ∈ options.
Proof.
intros E. unfold select_option in E. destruct options as [|o options]; [done|].
pose proof (select_option_loop_in (o :: options) allow_back inputs) as Hin.
by rewrite E in Hin.
Qed.

(** The members of what [get_unique_values] returns are values of the
    field in items that pass the filters. *)
Lemma insert_sorted_elem x l r v :
  insert_sorted x l = Ok r -> v ∈ r -> v = x \/ v ∈ l.
Proof.
revert r. induction l as [|y l IH]; intros r; simpl.
- intros [= <-] ->%list_elem_of_singleton. by left.
- destruct (py_lt y x) as [[]|]; [|by intros [= <-] [->|?]%elem_of_cons; auto|done].
  destruct (insert_sorted x l) as [r'|]; [|done].
  intros [= <-] [->|Hv]%elem_of_cons.
  + right. apply list_elem_of_here.
  + destruct (IH _ eq_refl Hv); [by left|right; by apply list_elem_of_further].
Qed.

Lemma py_sorted_elem l r v : py_sorted l = Ok r -> v ∈ r -> v ∈ l.
Proof.
revert r. induction l as [|x l IH]; intros r; simpl.
- by intros [= <-].
- destruct (py_sorted l) as [r'|]; [|done]. intros Hins Hv.
  destruct (insert_sorted_elem _ _ _ _ Hins Hv) as [->|Hv'].
  + apply list_elem_of_here.
  + apply list_elem_of_further. by apply (IH r').
Qed.

Lemma collect_elem field filters items : forall values vs v,
  collect field filters items values = Ok vs -> v ∈ vs ->
  v ∈ values \/ chosen items field filters v.
Proof.
induction items as [|it items IH]; intros values vs v; simpl.
- intros [= <-]. by left.
- intros Hc Hv.
  assert (Hlater : forall values', collect field filters items values' = Ok vs ->
            (forall w, w ∈ values' -> w ∈ values \/
               (matches filters it = true /\ item_get it field = w /\ truthy w = true)) ->
            v ∈ values \/ chosen (it :: items) field filters v).
  { intros values' Hc' Hsub. destruct (IH _ _ _ Hc' Hv) as [Hin|Hch].
    - destruct (Hsub _ Hin) as [?|?]; [by left|right]. apply chosen_cons. by left.
    - right. apply chosen_cons. by right. }
  destruct (matches filters it) eqn:Hm; [|apply (Hlater values); auto].
  destruct (truthy (item_get it field)) eqn:Ht; [|apply (Hlater values); auto].
  destruct (hashable (item_get it field)); [|done].
  apply (Hlater _ Hc). intros w Hw. unfold set_add in Hw.
  destruct (existsb _ values); [by left|].
  apply elem_of_app in Hw as [? | ->%list_elem_of_singleton]; [by left|by right].
Qed.

Lemma get_unique_values_elem self field filters l v :
  get_unique_values self field filters = Ok l -> v ∈ l ->
  chosen (default [] (api_data self)) field filters v.
Proof.
unfold get_unique_values.
destruct (api_data self) as [[|it items]|]; cbn [default].
1,3: intros [= <-] Hv; by apply elem_of_nil in Hv.
destruct (collect field filters (it :: items) []) as [vs|] eqn:Hc; [|done].
intros Hs Hv. apply (py_sorted_elem _ _ _ Hs) in Hv.
destruct (collect_elem _ _ _ _ _ _ Hc Hv) as [Hin|?]; [|done].
by apply elem_of_nil in Hin.
Qed.

Local Ltac step H :=
  let Hs := fresh "Hstep" in
  apply bind_Next in H as (? & ? & Hs & H);
  first [ apply raising_Next in Hs as [? ->]
        | apply return_none_if_Next in Hs as [? ->]
        | apply evaluated_Next in Hs as [? ->]
        | apply ask_Next in Hs ].

(** What a run that returns a selection went through. *)
Lemma interactive_setup_Returns self settings inputs s rest :
  interactive_setup HAS_COLOR repr_of sort_by_version self settings inputs
  = (SetupReturns s, rest) ->
  exists feature_version bundle_list sorted idx,
    int_of (sel_java_version s) = Some feature_version /\
    sel_bundle_type s ∈
      (if is_empty bundle_list then [VStr "standard"] else bundle_list) /\
    get_unique_values self "bundleType"
      (Some [("os", sel_os s); ("architecture", sel_arch s);
             ("packageType", sel_package_type s);
             ("featureVersion", VInt feature_version)]) = Ok bundle_list /\
    sort_by_version
      (filter (fun item => fits (sel_os s) (sel_arch s) (sel_package_type s)
                             feature_version (sel_bundle_type s) item)
              (default [] (api_data self))) = Ok sorted /\
    sorted !! idx = Some (sel_release s).
Proof.
unfold interactive_setup.
destruct (interactive_setup_steps _ _ _ _ _ _) as [[s'|[]] rest'] eqn:E; [|done..].
intros [= -> ->]. unfold interactive_setup_steps in E.
repeat step E. injection E as <- <-. cbn [sel_os sel_arch sel_package_type sel_java_version
                             sel_bundle_type sel_release].
  repeat match goal with Hsel : select_option _ _ _ = _ |- _ =>
    apply select_option_Picked in Hsel end.
  eauto 10.
Qed.
End SetupFacts.

Section SetupTheorems.
Import PyStr PyText PyValue PyFloat Installer InstallerSetup.
Context `{StrOps}.
Variable HAS_COLOR : bool.
Variable repr_of : value -> string.
Variable sort_by_version : list item -> result (list item).
(** All that is used of [list.sort]: what it leaves is the list it was
    given, in some order. *)
Hypothesis sort_permutes : forall l r, sort_by_version l = Ok r -> r ≡ₚ l.

(** X10: the release that [interactive_setup] returns is an item of the
    catalog that has the chosen system, architecture, type of package,
    version of Java (the number read back from the line chosen) and
    bundle. *)
Theorem interactive_setup_release_fits (self : installer)
    (settings : gmap string value) (inputs : list input_event)
    (s : setup) (rest : list input_event) :
  interactive_setup HAS_COLOR repr_of sort_by_version self settings inputs
  = (SetupReturns s, rest) ->
  let release := sel_release s in
  release ∈ default [] (api_data self) /\
  py_eqb (item_get release "os") (sel_os s) = true /\
  py_eqb (item_get release "architecture") (sel_arch s) = true /\
  py_eqb (item_get release "packageType") (sel_package_type s) = true /\
  (exists n, int_of (sel_java_version s) = Some n /\
             py_eqb (item_get release "featureVersion") (VInt n) = true) /\
  py_eqb (item_get release "bundleType") (sel_bundle_type s) = true.
Proof.
intros Hrun release.
apply interactive_setup_Returns in Hrun
  as (n & bundle_list & sorted & idx & Hn & _ & _ & Hsorted & Hidx).
apply list_elem_of_lookup_2 in Hidx. rewrite (sort_permutes _ _ Hsorted) in Hidx.
apply list_elem_of_filter in Hidx as [Hfits Hin]. fold release in Hfits, Hin.
unfold fits in Hfits. rewrite !andb_True, !Is_true_true in Hfits.
destruct Hfits as ((((? & ?) & ?) & ?) & ?). eauto 10.
Qed.

Lemma get_unique_values_complete (self : installer) field filters l v :
  get_unique_values self field filters = Ok l ->
  chosen (default [] (api_data self)) field filters v ->
  exists v', v' ∈ l /\ py_eqb v v' = true.
Proof.
unfold get_unique_values.
destruct (api_data self) as [[|it items]|]; cbn [default].
1,3: intros _ Hv; by apply chosen_nil in Hv.
destruct (collect field filters (it :: items) []) as [vs|] eqn:Hc; [|done].
intros Hs Hv.
destruct (collect_Ok _ _ _ _ _ Hc) as (Hvs & _ & Hall); [constructor|].
destruct (py_sorted_Ok _ _ Hs Hvs) as [Hperm _].
destruct (Hall v Hv) as (_ & v' & Hv' & Heq).
exists v'. split; [by rewrite Hperm|done].
Qed.

(** X11: the bundle "standard", offered when no item that fits has a type
    of bundle, fits no item, so that it never leads to a selection: the
    bundle of a selection that is returned is in the list that
    [get_unique_values] gave for the choices made. On a catalog whose
    items have no (or an empty) [bundleType], [interactive_setup] thus
    never returns a selection, whatever is typed. *)
Theorem interactive_setup_needs_bundle_type (self : installer)
    (settings : gmap string value) (inputs : list input_event) :
  (forall s rest,
     interactive_setup HAS_COLOR repr_of sort_by_version self settings inputs
     = (SetupReturns s, rest) ->
     exists n bundle_list,
       int_of (sel_java_version s) = Some n /\
       get_unique_values self "bundleType"
         (Some [("os", sel_os s); ("architecture", sel_arch s);
                ("packageType", sel_package_type s); ("featureVersion", VInt n)])
       = Ok bundle_list /\
       sel_bundle_type s ∈ bundle_list) /\
  ((forall it, it ∈ default [] (api_data self) ->
               truthy (item_get it "bundleType") = false) ->
   forall s rest,
     interactive_setup HAS_COLOR repr_of sort_by_version self settings inputs
     <> (SetupReturns s, rest)).
Proof.
assert (Hmain : forall s rest,
     interactive_setup HAS_COLOR repr_of sort_by_version self settings inputs
     = (SetupReturns s, rest) ->
     exists n bundle_list,
       int_of (sel_java_version s) = Some n /\
       get_unique_values self "bundleType"
         (Some [("os", sel_os s); ("architecture", sel_arch s);
                ("packageType", sel_package_type s); ("featureVersion", VInt n)])
       = Ok bundle_list /\
       sel_bundle_type s ∈ bundle_list).
{ intros s rest Hrun.
  apply interactive_setup_Returns in Hrun
    as (n & bundle_list & sorted & idx & Hn & Hsel & Hlist & Hsorted & Hidx).
  apply list_elem_of_lookup_2 in Hidx. rewrite (sort_permutes _ _ Hsorted) in Hidx.
  apply list_elem_of_filter in Hidx as [Hfits Hin].
  unfold fits in Hfits. rewrite !andb_True, !Is_true_true in Hfits.
  destruct Hfits as ((((Hos & Harch) & Hpack) & Hver) & Hbundle).
  exists n, bundle_list. split; [done|]. split; [done|].
  destruct bundle_list as [|b bundle_list]; cbn [is_empty] in Hsel; [exfalso|done].
  apply list_elem_of_singleton in Hsel. rewrite Hsel in Hbundle.
  assert (Hstd : item_get (sel_release s) "bundleType" = VStr "standard").
  { destruct (item_get (sel_release s) "bundleType") as [| | |x| |]; try done.
    simpl in Hbundle. by apply String.eqb_eq in Hbundle as ->. }
  destruct (get_unique_values_complete _ _ _ _ (VStr "standard") Hlist)
    as (v' & Hv' & _); [|by apply elem_of_nil in Hv'].
  exists (sel_release s). split; [done|]. split; [|by rewrite Hstd].
  intros key x Hkey. cbn [default] in Hkey.
  repeat (apply elem_of_cons in Hkey as [[= -> ->]|Hkey]; [done|]).
  by apply elem_of_nil in Hkey. }
split; [exact Hmain|].
intros Hnone s rest Hrun.
destruct (Hmain _ _ Hrun) as (n & l & _ & Hlist & Hsel).
apply (get_unique_values_elem _ _ _ _ _ Hlist) in Hsel
  as (it & Hit & _ & Hval & Htruthy).
rewrite <- Hval, Hnone in Htruthy; done.
Qed.

(** Without a catalog in [api_data], [interactive_setup] returns [None]
    before it asks anything. *)
Lemma interactive_setup_no_catalog (self : installer) settings inputs :
  api_data self = None \/ api_data self = Some [] ->
  interactive_setup HAS_COLOR repr_of sort_by_version self settings inputs
  = (SetupNone, inputs).
Proof.
intros Hdata. unfold interactive_setup, interactive_setup_steps, get_unique_values.
by destruct Hdata as [-> | ->].
Qed.
End SetupTheorems.

Lemma sort_by_scalar_version_permutes (l r : list Installer.item) :
  InstallerSetup.sort_by_scalar_version l = PyValue.Ok r -> r ≡ₚ l.
Proof.
unfold InstallerSetup.sort_by_scalar_version.
destruct (forallb _ l); [intros [= <-]; apply sorted_Permutation|].
destruct (forallb _ l); [intros [= <-]; apply sorted_Permutation|].
destruct l as [|? [|? ?]]; by intros [= <-].
Qed.

(** A catalog of three releases for Linux and one for Windows; the lines
    typed choose Linux, the only architecture, the only package, Java 17,
    the JDK and the first release shown, which is the newest. *)
Lemma interactive_setup_release_fits_example :
  let release (os : string) (version : string) (file : string) : Installer.item :=
    list_to_map [("os", PyValue.VStr os); ("architecture", PyValue.VStr "x86_64");
                 ("packageType", PyValue.VStr "tar.gz");
                 ("featureVersion", PyValue.VInt 17); ("bundleType", PyValue.VStr "jdk");
                 ("version", PyValue.VStr version); ("filename", PyValue.VStr file);
                 ("size", PyValue.VInt 200000000)] in
  let self := {| Installer.cache_file := None;
                 Installer.api_data :=
                   Some [release "linux" "17.0.8+7" "jdk17.0.8.tar.gz";
                         release "windows" "17.0.9+11" "jdk17.0.9.zip";
                         release "linux" "17.0.9+11" "jdk17.0.9.tar.gz"] |} in
  let settings := Installer.default_settings "/opt/Java" "/tmp/bellsoft-java" in
  let typed := Installer.Line <$> ["1"; "1"; "1"; "1"; "1"; "1"; "y"] in
  exists s,
    InstallerSetup.interactive_setup (H := PyStr.ascii_ops) false (fun _ => "")
      InstallerSetup.sort_by_scalar_version self settings typed
    = (InstallerSetup.SetupReturns s, [Installer.Line "y"]) /\
    Installer.item_get (InstallerSetup.sel_release s) "filename"
    = PyValue.VStr "jdk17.0.9.tar.gz" /\
    PyValue.py_eqb (Installer.item_get (InstallerSetup.sel_release s) "os")
      (InstallerSetup.sel_os s) = true.
Proof.
intros release self settings typed.
assert (Hseen :
  match InstallerSetup.interactive_setup (H := PyStr.ascii_ops) false (fun _ => "")
          InstallerSetup.sort_by_scalar_version self settings typed with
  | (InstallerSetup.SetupReturns s, rest) =>
      Some (Installer.item_get (InstallerSetup.sel_release s) "filename", rest)
  | _ => None
  end = Some (PyValue.VStr "jdk17.0.9.tar.gz", [Installer.Line "y"]))
  by (vm_compute; reflexivity).
revert Hseen.
destruct (InstallerSetup.interactive_setup (H := PyStr.ascii_ops) false (fun _ => "")
            InstallerSetup.sort_by_scalar_version self settings typed)
  as [[| |s] rest] eqn:Hrun; try discriminate.
intros [= Hfile ->]. exists s. split; [reflexivity|]. split; [exact Hfile|].
exact (proj1 (proj2 (interactive_setup_release_fits (H := PyStr.ascii_ops) false
                       (fun _ => "") InstallerSetup.sort_by_scalar_version
                       sort_by_scalar_version_permutes self settings typed s
                       [Installer.Line "y"] Hrun))).
Defined.

(** The same choices on a catalog that names no bundle: "standard" is
    offered and chosen, and nothing is returned. *)
Lemma interactive_setup_needs_bundle_type_example :
  let release (version : string) : Installer.item :=
    list_to_map [("os", PyValue.VStr "linux"); ("architecture", PyValue.VStr "x86_64");
                 ("packageType", PyValue.VStr "tar.gz");
                 ("featureVersion", PyValue.VInt 17);
                 ("version", PyValue.VStr version);
                 ("filename", PyValue.VStr "jdk.tar.gz"); ("size", PyValue.VInt 5)] in
  let self := {| Installer.cache_file := None;
                 Installer.api_data := Some [release "17.0.8+7"; release "17.0.9+11"] |} in
  let settings := Installer.default_settings "/opt/Java" "/tmp/bellsoft-java" in
  let typed := Installer.Line <$> ["1"; "1"; "1"; "1"; "1"; "1"] in
  InstallerSetup.interactive_setup (H := PyStr.ascii_ops) false (fun _ => "")
    InstallerSetup.sort_by_scalar_version self settings typed
  = (InstallerSetup.SetupNone, [Installer.Line "1"]) /\
  forall s rest,
    InstallerSetup.interactive_setup (H := PyStr.ascii_ops) false (fun _ => "")
      InstallerSetup.sort_by_scalar_version self settings typed
    <> (InstallerSetup.SetupReturns s, rest).
Proof.
intros release self settings typed. split; [vm_compute; reflexivity|].
apply (proj2 (interactive_setup_needs_bundle_type (H := PyStr.ascii_ops) false
                (fun _ => "") InstallerSetup.sort_by_scalar_version
                sort_by_scalar_version_permutes self settings typed)).
intros it Hit. cbn [default Installer.api_data self] in Hit.
repeat (apply elem_of_cons in Hit as [->|Hit]; [vm_compute; reflexivity|]).
by apply elem_of_nil in Hit.
Defined.

(** ** The catalog in the cache file *)

Section CacheFacts.
Import PyStr PyText PyValue PyFloat Installer InstallerSetup InstallerCache.
Context `{StrOps}.
Variable HAS_COLOR : bool.
Variable repr_of : value -> string.
Variable sort_by_version : list item -> result (list item).

Lemma append_nonempty a b : b <> "" -> a +:+ b <> "".
Proof. destruct a; [done|]. intros _. discriminate. Qed.

Lemma path_join_nonempty a b : b <> "" -> path_join a b <> "".
Proof.
intros Hb. unfold path_join.
destruct (startswith b "/"); [done|].
destruct (String.eqb a "" || endswith a "/"); [by apply append_nonempty|].
apply append_nonempty. destruct b; [done|]. discriminate.
Qed.

(** X12: [fetch_api_data] puts a catalog in [api_data] only when its
    request brings one; when it returns [True] on the strength of a cache
    file it names the file in [cache_file] and loads nothing. For an
    installer that has just started (no catalog, no cache file named,
    so that [load_cached_data] fails) the choice of a release that follows
    in the main menu therefore ends at once with [None], without a
    question; a second [load_cached_data] is what reads the file. *)
Theorem cached_catalog_is_not_loaded (env : cache_env) (cache_dir : string)
    (settings : gmap string value) (force : bool) (self : installer)
    (disk : string -> cache_content) (inputs : list input_event) :
  let r := fetch_api_data env cache_dir settings force self in
  (api_data (self_after r) <> api_data self ->
     exists json_data, urlopen env 0%nat = Catalog json_data /\ requests r = 1%nat /\
                       api_data (self_after r) = Some json_data) /\
  (cache_file self = None -> api_data self = None ->
     load_cached_data disk self = (false, self) /\
     (ended r = Installer.Returns true ->
      (requests r = 0%nat \/ forall json_data, urlopen env 0%nat <> Catalog json_data) ->
      interactive_setup HAS_COLOR repr_of sort_by_version (self_after r) settings inputs
      = (SetupNone, inputs) /\
      exists f, cache_file (self_after r) = Some f /\
        forall data, disk f = Document data ->
          load_cached_data disk (self_after r)
          = (true, {| cache_file := Some f; api_data := Some data |}))).
Proof.
intros r.
assert (Hcases :
  (self_after r = self /\ ended r <> Installer.Returns true) \/
  (exists latest rest, cache_files_of (listdir env) = latest :: rest /\
     self_after r = {| cache_file := Some (path_join cache_dir latest);
                       api_data := api_data self |}) \/
  (exists json_data, urlopen env 0%nat = Catalog json_data /\ requests r = 1%nat /\
     (api_data (self_after r) = Some json_data \/
      (api_data (self_after r) = api_data self /\ ended r <> Installer.Returns true)))).
{ unfold r, fetch_api_data.
  destruct (cache_files_of (listdir env)) as [|latest rest] eqn:Hfiles.
  - destruct (truthy (get settings "offline_mode" VNone)); [left; by split|].
    destruct (urlopen env 0%nat) eqn:Hnet; [left; by split..|].
    right. right. eexists. split; [done|].
    destruct (save_ok env), (as_number (get settings "keep_old_cache" (VInt 3)));
      cbn; (split; [done|]); first [by left|right; by split].
  - assert (Hold : (exists latest0 rest0, latest :: rest = latest0 :: rest0 /\
               {| cache_file := Some (path_join cache_dir latest);
                  api_data := api_data self |}
               = {| cache_file := Some (path_join cache_dir latest0);
                    api_data := api_data self |})) by eauto.
    destruct force.
    + destruct (truthy (get settings "offline_mode" VNone)); [right; by left|].
      destruct (urlopen env 0%nat) eqn:Hnet; [right; by left|left; by split|].
      right. right. eexists. split; [done|].
      destruct (save_ok env), (as_number (get settings "keep_old_cache" (VInt 3)));
        cbn; (split; [done|]); first [by left|right; by split].
    + destruct (as_number (get settings "cache_max_age_hours" (VInt CACHE_MAX_AGE_HOURS)));
        [|left; by split].
      destruct (_ <? _); [right; by left|].
      destruct (truthy (get settings "offline_mode" VNone)); [right; by left|].
      destruct (urlopen env 0%nat) eqn:Hnet; [right; by left|left; by split|].
      right. right. eexists. split; [done|].
      destruct (save_ok env), (as_number (get settings "keep_old_cache" (VInt 3)));
        cbn; (split; [done|]); first [by left|right; by split]. }
split.
- intros Hchanged.
  destruct Hcases as [[Hsame _]|[(latest & rest & _ & Hsame)|(json & Hnet & Hreq & Hdata)]].
  + by rewrite Hsame in Hchanged.
  + by rewrite Hsame in Hchanged.
  + destruct Hdata as [Hdata|[Hdata _]]; [eauto|done].
- intros Hfile Hdata. split; [unfold load_cached_data; by rewrite Hfile|].
  intros Hended Hcache.
  destruct Hcases as [[_ Hnot]|[(latest & rest & Hfiles & Hsame)|(json & Hnet & Hreq & _)]].
  + done.
  + rewrite Hsame. split.
    * apply interactive_setup_no_catalog. left. by rewrite Hdata.
    * eexists. split; [done|]. intros data Hdoc. unfold load_cached_data.
      cbn [cache_file]. rewrite Hdoc.
      assert (Hne : path_join cache_dir latest <> "").
      { apply path_join_nonempty. intros ->.
        assert (Hin : "" ∈ cache_files_of (listdir env))
          by (rewrite Hfiles; apply list_elem_of_here).
        by apply elem_of_cache_files_of in Hin as (_ & Hprefix & _). }
      by destruct (String.eqb_spec (path_join cache_dir latest) "").
  + destruct Hcache as [Hzero|Hno]; [congruence|]. by destruct (Hno json).
Qed.
End CacheFacts.

(** A start without the network, with two cache files in the work
    directory: the newer one is named, and the choice of a release ends at
    once. *)
Lemma cached_catalog_is_not_loaded_example :
  let env := {| Installer.listdir := ["api-cache-20240101_000000.json"; "installer.log";
                                      "api-cache-20240201_000000.json"];
                Installer.getmtime := fun _ => 0;
                Installer.clock := 48 * 3600 * 1000000;
                Installer.stamp := "20240203_000000";
                Installer.urlopen := fun _ => Installer.RaisesURLError;
                Installer.save_ok := true;
                Installer.remove_ok := fun _ => true |} in
  let settings := <["offline_mode" := PyValue.VBool true]>
                    (Installer.default_settings "/opt/Java" "/tmp/bellsoft-java") in
  let self := {| Installer.cache_file := None; Installer.api_data := None |} in
  let r := Installer.fetch_api_data env "/tmp/bellsoft-java" settings false self in
  let typed := [Installer.Line "1"] in
  Installer.ended r = Installer.Returns true /\
  InstallerSetup.interactive_setup (H := PyStr.ascii_ops) false (fun _ => "")
    InstallerSetup.sort_by_scalar_version (Installer.self_after r) settings typed
  = (InstallerSetup.SetupNone, typed).
Proof.
intros env settings self r typed.
assert (Hended : Installer.ended r = Installer.Returns true) by (vm_compute; reflexivity).
split; [exact Hended|].
destruct (cached_catalog_is_not_loaded (H := PyStr.ascii_ops) false (fun _ => "")
            InstallerSetup.sort_by_scalar_version env "/tmp/bellsoft-java" settings false
            self (fun _ => InstallerCache.NoFile) typed) as [_ Hfresh].
destruct (Hfresh eq_refl eq_refl) as [_ Hnext].
destruct (Hnext Hended (or_introl eq_refl)) as [Hsetup _]. exact Hsetup.
Defined.

(** ** The removal of old files *)

Section CleanupFacts.
Import PyStr PyValue PyFloat Installer InstallerCleanup.
Variable env : disk.


Lemma adds_refl P Q p : adds P Q p p.
Proof.
exists [], []. rewrite !app_nil_r. repeat split; try done. simpl. lia.
Qed.

Lemma adds_trans P Q p1 p2 p3 : adds P Q p1 p2 -> adds P Q p2 p3 -> adds P Q p1 p3.
Proof.
intros (a & e & Ha & HPa & He & HQe & Hc) (b & f & Hb & HPb & Hf & HQf & Hd).
exists (a ++ b), (e ++ f). rewrite Hb, Ha, Hf, He, Hd, Hc, !app_assoc, length_app.
repeat split; try done; try (by apply Forall_app). lia.
Qed.

Lemma adds_keep P Q p : adds P Q p (keep p).
Proof.
exists [], []. rewrite !app_nil_r. repeat split; try done. simpl. lia.
Qed.

Lemma adds_event P (Q : log_event -> Prop) e p : Q e -> adds P Q p (log_event_added e p).
Proof.
intros He. exists [], [e]. rewrite !app_nil_r. repeat split; try done.
- by constructor.
- simpl. lia.
Qed.

Lemma adds_try_remove (P : string -> Prop) (Q : log_event -> Prop) path msg p :
  (remove_ok env path = true -> P path) ->
  (forall m, msg = Some m -> Q (Logged m)) ->
  adds P Q p (try_remove env path msg p).
Proof.
intros HP HQ. unfold try_remove. destruct (remove_ok env path); [|apply adds_refl].
eapply adds_trans with
  (p2 := {| removed := removed p ++ [path]; log_events := log_events p;
            deleted_count := deleted_count p + 1; kept_count := kept_count p |}).
- exists [path], []. rewrite !app_nil_r. repeat split; try done.
  constructor; [by apply HP|done].
- destruct msg as [m|]; [|apply adds_refl]. apply adds_event. by apply HQ.
Qed.

Lemma adds_weaken (P P' : string -> Prop) (Q Q' : log_event -> Prop) p p' :
  (forall x, P x -> P' x) -> (forall e, Q e -> Q' e) -> adds P Q p p' -> adds P' Q' p p'.
Proof.
intros HP HQ (a & e & Ha & HPa & He & HQe & Hc). exists a, e.
repeat split; try done; eapply Forall_impl; eauto.
Qed.


Lemma elem_of_cache_files_with_mtime names f mtime :
  (f, mtime) ∈ cache_files_with_mtime env names ->
  f ∈ names /\ startswith f CACHE_FILE_PREFIX = true /\ endswith f ".json" = true /\
  cache_mtime env f = Some mtime.
Proof.
induction names as [|g names IH]; simpl; [by intros ?%elem_of_nil|].
assert (Hrest : (f, mtime) ∈ cache_files_with_mtime env names ->
          f ∈ g :: names /\ startswith f CACHE_FILE_PREFIX = true /\
          endswith f ".json" = true /\ cache_mtime env f = Some mtime).
{ intros Hin. destruct (IH Hin) as (? & ? & ? & ?).
  split; [by apply list_elem_of_further|done]. }
destruct (startswith g CACHE_FILE_PREFIX && endswith g ".json") eqn:Hname; [|done].
destruct (cache_mtime env g) as [m|] eqn:Hm; [|done].
intros [[= -> ->]|Hin]%elem_of_cons; [|by apply Hrest].
apply andb_prop in Hname as [? ?]. split; [apply list_elem_of_here|done].
Qed.


Lemma shorten_log_adds (P : string -> Prop) p :
  adds P (fun e => (exists m, e = Logged m) \/
                   exists read completed,
                     log_read env = Some read /\ (1000 < length read)%nat /\
                     e = Rewrote (drop (length read - 1000) read) completed)
       p (shorten_log env p).
Proof.
unfold shorten_log. destruct (log_read env) as [lines|] eqn:Hread; [|apply adds_refl].
destruct (Nat.ltb_spec 1000 (length lines)); [|apply adds_refl].
assert (Hlast : slice_from (-1000) lines = drop (length lines - 1000) lines).
{ unfold slice_from. simpl. f_equal. lia. }
rewrite Hlast.
destruct (log_rewrite_ok env).
- eapply adds_trans; apply adds_event; [right; by eauto 6|left; by eexists].
- apply adds_event. right. by eauto 6.
Qed.


Lemma clean_downloads_old cache_dir cutoff_time settings entries : forall es p,
  downloads env = Downloads entries ->
  (forall f, f ∈ es -> f ∈ entries) ->
  adds (removal_ok env settings cache_dir cutoff_time) (log_event_ok env) p
    (clean_downloads env (path_join cache_dir "downloads") cutoff_time es p).1.
Proof.
intros es. induction es as [|f es IH]; intros p Hdl Hsub; simpl; [apply adds_refl|].
assert (Hsub' : forall g, g ∈ es -> g ∈ entries)
  by (intros g Hg; by apply Hsub, list_elem_of_further).
destruct (dl_is_file f) eqn:Hfile; [|by apply IH].
destruct (dl_mtime f) as [mtime|] eqn:Hm; [|apply adds_refl].
eapply adds_trans; [|by apply IH].
destruct (lt_double mtime cutoff_time) eqn:Hold; [|apply adds_keep].
apply adds_try_remove; [|intros m _; left; by eexists].
intros Hok. split; [done|]. left. exists entries, f, mtime.
repeat split; try done. apply Hsub, list_elem_of_here.
Qed.

Lemma clean_caches_old settings cache_dir cutoff_time keep_old names p :
  listing env = Some names ->
  as_number (get settings "keep_old_cache" (VInt 3)) = Some keep_old ->
  adds (removal_ok env settings cache_dir cutoff_time) (log_event_ok env) p
    (clean_caches env cache_dir cutoff_time keep_old 0
       (PySort.sorted snd (fun a b => negb (lt_double a b))
          (cache_files_with_mtime env names)) p).
Proof.
intros Hnames Hkeep.
set (all := PySort.sorted snd (fun a b => negb (lt_double a b))
              (cache_files_with_mtime env names)).
assert (Hgen : forall cache_files (i : nat) q,
          (forall j x, cache_files !! j = Some x -> all !! (i + j)%nat = Some x) ->
          adds (removal_ok env settings cache_dir cutoff_time) (log_event_ok env) q
            (clean_caches env cache_dir cutoff_time keep_old (Z.of_nat i) cache_files q)).
{ induction cache_files as [|[f mtime] rest IH]; intros i q Hall; simpl;
    [apply adds_refl|].
  eapply adds_trans.
  2:{ replace (Z.of_nat i + 1) with (Z.of_nat (S i)) by lia. apply IH.
      intros j x Hj. replace (S i + j)%nat with (i + S j)%nat by lia. by apply Hall. }
  destruct (Z.ltb_spec (Z.of_nat i) keep_old); [apply adds_keep|].
  destruct (lt_double mtime cutoff_time) eqn:Hold; [|apply adds_keep].
  apply adds_try_remove; [|intros m _; left; by eexists].
  intros Hok. split; [done|]. right. left.
  specialize (Hall 0%nat (f, mtime) eq_refl). rewrite Nat.add_0_r in Hall.
  assert (Hin : (f, mtime) ∈ cache_files_with_mtime env names).
  { apply list_elem_of_lookup_2 in Hall. unfold all in Hall.
    by rewrite sorted_Permutation in Hall. }
  apply elem_of_cache_files_with_mtime in Hin as (? & ? & ? & ?).
  exists names, f, mtime, keep_old, i. repeat split; try done. }
apply (Hgen all 0%nat p). by intros j x Hj.
Qed.

Lemma clean_backups_old settings cache_dir cutoff_time : forall files p,
  (forall x, x ∈ files -> x ∈ backups env) ->
  adds (removal_ok env settings cache_dir cutoff_time) (log_event_ok env) p
    (clean_backups env cutoff_time files p).
Proof.
intros files. induction files as [|[path [mtime|]] files IH]; intros p Hsub; simpl;
  [apply adds_refl| |].
2:{ apply IH. intros x Hx. by apply Hsub, list_elem_of_further. }
eapply adds_trans.
2:{ apply IH. intros x Hx. by apply Hsub, list_elem_of_further. }
destruct (lt_double mtime cutoff_time) eqn:Hold; [|apply adds_refl].
apply adds_try_remove; [|done].
intros Hok. split; [done|]. right. right. exists mtime.
split; [|done]. apply Hsub, list_elem_of_here.
Qed.

Lemma shorten_log_ok (P : string -> Prop) p : adds P (log_event_ok env) p (shorten_log env p).
Proof.
eapply adds_weaken; [| |apply (shorten_log_adds P)]; [done|].
intros e [?|?]; [by left|right; by right].
Qed.

Lemma cleanup_adds (settings : gmap string value) :
  let start := {| removed := []; log_events := []; deleted_count := 0; kept_count := 0 |} in
  let r := outcome_of (cleanup_old_files env settings) in
  adds (fun _ => False) (log_event_ok env) start r \/
  exists days cutoff_time cache_dir,
    as_number (get settings "cleanup_days" (VInt 7)) = Some days /\
    minus_seconds (now env) (days * 24 * 3600) = Some cutoff_time /\
    get settings "cache_dir" VNone = VStr cache_dir /\
    adds (removal_ok env settings cache_dir cutoff_time) (log_event_ok env) start r.
Proof.
intros start r.
assert (Hfail : forall P p, adds P (log_event_ok env) start p ->
          adds P (log_event_ok env) start (log_event_added LoggedError p)).
{ intros P p Hp. eapply adds_trans; [exact Hp|]. apply adds_event. right. by left. }
unfold r, cleanup_old_files. fold start.
destruct (as_number (get settings "cleanup_days" (VInt 7))) as [days|] eqn:Hdays;
  [|left; apply Hfail, adds_refl].
destruct (minus_seconds (now env) (days * 24 * 3600)) as [cutoff_time|] eqn:Hcut;
  [|left; apply Hfail, adds_refl].
destruct (get settings "cache_dir" VNone) as [| | |cache_dir| |] eqn:Hdir;
  try (left; apply Hfail, adds_refl).
right. exists days, cutoff_time, cache_dir.
split; [done|]. split; [done|]. split; [done|].
set (P := removal_ok env settings cache_dir cutoff_time).
(* the downloads *)
assert (H1 : adds P (log_event_ok env) start
          (match downloads env with
           | NoDownloads => (start, true)
           | Unlistable => (start, false)
           | Downloads entries =>
               clean_downloads env (path_join cache_dir "downloads") cutoff_time
                 entries start
           end).1).
{ destruct (downloads env) as [| |entries] eqn:Hdl; try apply adds_refl.
  by apply (clean_downloads_old cache_dir cutoff_time settings entries). }
destruct (match downloads env with
          | NoDownloads => (start, true) | Unlistable => (start, false)
          | Downloads entries => _ end) as [p1 ok1].
cbn [fst] in H1. destruct ok1; [|by apply Hfail].
(* the log *)
assert (H2 : forall p2,
          (if log_exists env then
             match log_stat env with
             | None => None
             | Some (log_size, log_mtime) =>
                 if lt_double log_mtime cutoff_time || (10 * 1024 * 1024 <? log_size)
                 then Some (shorten_log env p1) else Some p1
             end
           else Some p1) = Some p2 -> adds P (log_event_ok env) start p2).
{ intros p2. destruct (log_exists env); [|by intros [= <-]].
  destruct (log_stat env) as [[log_size log_mtime]|]; [|done].
  destruct (_ || _); intros [= <-]; [|done].
  eapply adds_trans; [exact H1|]. apply shorten_log_ok. }
match goal with |- context [match ?x with Some _ => _ | None => _ end] =>
  destruct x as [p2|] end; [|by apply Hfail].
specialize (H2 _ eq_refl).
(* the caches *)
destruct (listing env) as [names|] eqn:Hnames; [|by apply Hfail].
assert (H3 : forall p3,
          match PySort.sorted snd (fun a b => negb (lt_double a b))
                  (cache_files_with_mtime env names) with
          | [] => Some p2
          | _ :: _ =>
              match as_number (get settings "keep_old_cache" (VInt 3)) with
              | Some keep_old =>
                  Some (clean_caches env cache_dir cutoff_time keep_old 0
                          (PySort.sorted snd (fun a b => negb (lt_double a b))
                             (cache_files_with_mtime env names)) p2)
              | None => None
              end
          end = Some p3 -> adds P (log_event_ok env) start p3).
{ intros p3.
  destruct (PySort.sorted snd _ (cache_files_with_mtime env names)) eqn:Hcf;
    [by intros [= <-]|].
  destruct (as_number (get settings "keep_old_cache" (VInt 3))) as [keep_old|] eqn:Hkeep;
    [|done].
  intros [= <-]. eapply adds_trans; [exact H2|].
  pose proof (clean_caches_old settings cache_dir cutoff_time keep_old names p2
                Hnames Hkeep) as Hc.
  rewrite Hcf in Hc. exact Hc. }
match goal with |- context [match ?x with Some _ => _ | None => _ end] =>
  destruct x as [p3|] end; [|by apply Hfail].
specialize (H3 _ eq_refl). cbn [outcome_of].
(* the backups *)
eapply adds_trans; [exact H3|]. by apply clean_backups_old.
Qed.

(** X13: [cleanup_old_files] removes nothing but files older than the
    time limit [time.time() - cleanup_days * 24 * 3600]: regular files of
    the downloads, cache files of the catalog that are not among the
    [keep_old_cache] most recently modified ones, and backups of the
    settings; each removal is counted in the number that is reported.
    (Without a number of days or a cache directory nothing is removed.)
    The log is written anew only with the last thousand of the lines read
    from it, when there were more. *)
Theorem cleanup_removes_old_files_only (settings : gmap string value) :
  let r := outcome_of (cleanup_old_files env settings) in
  deleted_count r = Z.of_nat (length (removed r)) /\
  (forall path, path ∈ removed r ->
     remove_ok env path = true /\
     exists days cutoff_time cache_dir,
       as_number (get settings "cleanup_days" (VInt 7)) = Some days /\
       minus_seconds (now env) (days * 24 * 3600) = Some cutoff_time /\
       get settings "cache_dir" VNone = VStr cache_dir /\
       (old_download env cache_dir cutoff_time path \/
        old_cache env settings cache_dir cutoff_time path \/
        old_backup env cutoff_time path)) /\
  (forall lines completed, Rewrote lines completed ∈ log_events r ->
     exists read, log_read env = Some read /\ (1000 < length read)%nat /\
                  lines = drop (length read - 1000) read /\
                  read = take (length read - 1000) read ++ lines).
Proof.
intros r.
assert (Hlog : forall P start, adds P (log_event_ok env) start r -> log_events start = [] ->
          forall lines completed, Rewrote lines completed ∈ log_events r ->
          exists read, log_read env = Some read /\ (1000 < length read)%nat /\
                       lines = drop (length read - 1000) read /\
                       read = take (length read - 1000) read ++ lines).
{ intros P start (paths & events & _ & _ & He & HQ & _) Hnil lines completed Hin.
  rewrite He, Hnil in Hin. cbn in Hin. rewrite Forall_forall in HQ.
  destruct (HQ _ Hin) as [[m [=]]|[[=]|(read & c & Hread & Hlen & [= -> ->])]].
  exists read. repeat split; try done. by rewrite take_drop. }
destruct (cleanup_adds settings) as [Hadds|(days & cutoff & cache_dir & ? & ? & ? & Hadds)];
  fold r in Hadds.
- split; [|split; [|by apply (Hlog _ _ Hadds)]];
    destruct Hadds as (paths & events & Hp & HP & _ & _ & Hc); cbn in Hp, Hc.
  + rewrite Hp, Hc. lia.
  + intros path Hin. rewrite Hp in Hin. rewrite Forall_forall in HP.
    destruct (HP _ Hin).
- split; [|split; [|by apply (Hlog _ _ Hadds)]];
    destruct Hadds as (paths & events & Hp & HP & _ & _ & Hc); cbn in Hp, Hc.
  + rewrite Hp, Hc. lia.
  + intros path Hin. rewrite Hp in Hin. rewrite Forall_forall in HP.
    destruct (HP _ Hin) as [Hok Hkind]. split; [done|]. by eauto 10.
Qed.
End CleanupFacts.

(** Two downloads, one of ten days ago and one of yesterday, with the
    seven days of the defaults: the older one is removed and counted. *)
Lemma cleanup_removes_old_files_only_example :
  let day := 24 * 3600 in
  let seconds (n : Z) := {| PyFloat.mant := n; PyFloat.scale := 0 |} in
  let download (name : string) (mtime : Z) :=
    {| InstallerCleanup.dl_name := name; InstallerCleanup.dl_is_file := true;
       InstallerCleanup.dl_mtime := Some (seconds mtime) |} in
  let env := {| InstallerCleanup.now := seconds (100 * day);
                InstallerCleanup.downloads :=
                  InstallerCleanup.Downloads [download "jdk-17.tar.gz" (90 * day);
                                              download "jdk-21.tar.gz" (99 * day)];
                InstallerCleanup.log_exists := false;
                InstallerCleanup.log_stat := None;
                InstallerCleanup.log_read := None;
                InstallerCleanup.log_rewrite_ok := true;
                InstallerCleanup.listing := Some [];
                InstallerCleanup.cache_mtime := fun _ => None;
                InstallerCleanup.backups := [];
                InstallerCleanup.remove_ok := fun _ => true |} in
  let settings := Installer.default_settings "/opt/Java" "/tmp/bellsoft-java" in
  let r := InstallerCleanup.outcome_of (InstallerCleanup.cleanup_old_files env settings) in
  InstallerCleanup.removed r = ["/tmp/bellsoft-java/downloads/jdk-17.tar.gz"] /\
  InstallerCleanup.deleted_count r = 1.
Proof.
intros day seconds download env settings r.
assert (Hremoved : InstallerCleanup.removed r
                   = ["/tmp/bellsoft-java/downloads/jdk-17.tar.gz"])
  by (vm_compute; reflexivity).
split; [exact Hremoved|].
pose proof (proj1 (cleanup_removes_old_files_only env settings)) as Hcount.
fold r in Hcount. rewrite Hcount, Hremoved. reflexivity.
Defined.

(** ** The shell configuration *)

Section ShellFacts.
Import PyStr PyText PyValue Installer InstallerShell.
Context `{StrOps}.
Variable home : string.

Lemma string_app_assoc (a b c : string) : (a +:+ b) +:+ c = a +:+ (b +:+ c).
Proof.
induction a as [|x a IH]; [reflexivity|].
change (String x ((a +:+ b) +:+ c) = String x (a +:+ (b +:+ c))). by rewrite IH.
Qed.

Lemma string_app_inv (a b c : string) : a +:+ b = a +:+ c -> b = c.
Proof.
induction a as [|x a IH]; [done|].
change (String x (a +:+ b) = String x (a +:+ c) -> b = c).
intros [=]. by apply IH.
Qed.

Lemma prefix_app a b : String.prefix a (a +:+ b) = true.
Proof.
induction a as [|c a IH]; [by destruct b|].
change (String.prefix (String c a) (String c (a +:+ b)) = true).
simpl. by destruct (ascii_dec c c).
Qed.

Lemma contains_prefix needle s : String.prefix needle s = true -> contains needle s = true.
Proof. intros Hp. destruct s; cbn [contains]; by rewrite Hp. Qed.

Lemma contains_app needle a b : contains needle (a +:+ needle +:+ b) = true.
Proof.
induction a as [|c a IH]; [apply contains_prefix, (prefix_app needle b)|].
change (contains needle (String c (a +:+ needle +:+ b)) = true).
cbn [contains]. rewrite IH. apply orb_true_r.
Qed.


Lemma read_from_app a : forall after_cr b,
  read_from after_cr (a +:+ b)
  = read_from after_cr a +:+ read_from (ends_cr after_cr a) b.
Proof.
induction a as [|c a IH]; intros after_cr b; [done|].
change (String c a +:+ b) with (String c (a +:+ b)). cbn [read_from ends_cr].
destruct (Ascii.eqb c cr) eqn:Hc.
- by rewrite IH.
- destruct (Ascii.eqb c lf && after_cr); by rewrite IH.
Qed.

Lemma no_cr_app a b : no_cr (a +:+ b) = no_cr a && no_cr b.
Proof.
induction a as [|c a IH]; [done|].
change (String c a +:+ b) with (String c (a +:+ b)). cbn [no_cr].
by rewrite IH, andb_assoc.
Qed.

Lemma read_from_no_cr s : no_cr s = true -> read_from false s = s.
Proof.
induction s as [|c s IH]; [done|]. cbn [no_cr read_from].
intros [Hc Hs]%andb_prop. apply negb_true_iff in Hc. rewrite Hc, andb_false_r.
by rewrite IH.
Qed.

(** The text looked for is read as it was written, wherever it stands. *)
Lemma read_java_home_of after_cr path :
  no_cr path = true -> read_from after_cr (java_home_of path) = java_home_of path.
Proof.
intros Hpath. unfold java_home_of.
change ("JAVA_HOME=" +:+ quote +:+ path +:+ quote)
  with (String "J" ("AVA_HOME=" +:+ quote +:+ path +:+ quote)).
cbn [read_from]. change (Ascii.eqb "J" cr) with false. change (Ascii.eqb "J" lf) with false.
cbn [andb]. rewrite read_from_no_cr; [done|].
rewrite !no_cr_app, Hpath. reflexivity.
Qed.

Lemma read_contains_java_home_of before path after :
  no_cr path = true ->
  contains (java_home_of path) (read_text (before +:+ java_home_of path +:+ after)) = true.
Proof.
intros Hpath. unfold read_text.
rewrite !read_from_app, (read_java_home_of _ _ Hpath). apply contains_app.
Qed.

(** What [add_to] appends holds the text by which it knows a file that
    has Java already. *)
Lemma java_config_configured w today install_path latest_link (use_latest : bool)
    before after :
  no_cr install_path = true ->
  (forall link, latest_link = Some link -> no_cr link = true) ->
  configured install_path latest_link
    (read_text (before +:+ format_java_env_config w today install_path
                  (if use_latest then latest_link else None) +:+ after)) = true.
Proof.
intros Hpath Hlink.
unfold configured, format_java_env_config.
set (head := "# Java from BellSoft Installer (" +:+ today +:+ ")").
set (tail := "export PATH=" +:+ quote +:+ "$JAVA_HOME/bin:$PATH" +:+ quote).
assert (Hshape : forall path,
          before +:+ String.concat newline
                       [head; "export JAVA_HOME=" +:+ quote +:+ path +:+ quote; tail]
                 +:+ after
          = (before +:+ head +:+ newline +:+ "export ")
            +:+ java_home_of path
            +:+ (newline +:+ tail +:+ after)).
{ intros path. cbn [String.concat]. unfold java_home_of.
  change ("export JAVA_HOME=" +:+ quote +:+ path +:+ quote)
    with ("export " +:+ "JAVA_HOME=" +:+ quote +:+ path +:+ quote).
  by rewrite !string_app_assoc. }
destruct (if use_latest then latest_link else None) as [link|] eqn:Huse.
- destruct (negb (String.eqb link "") && link_exists w link) eqn:Hthere.
  + rewrite Hshape. destruct use_latest; [|done]. subst latest_link.
    apply andb_prop in Hthere as [-> _]. cbn [andb].
    rewrite (read_contains_java_home_of _ link _) by by apply Hlink.
    apply orb_true_r.
  + rewrite Hshape. by rewrite (read_contains_java_home_of _ install_path _).
- rewrite Hshape. by rewrite (read_contains_java_home_of _ install_path _).
Qed.

(** [add_to] leaves the answers of the system and the files other than
    the one it is given; that one it leaves or appends to. *)
Lemma add_to_keeps today settings install_path latest_link config_path w :
  let w' := add_to today settings install_path latest_link config_path w in
  unreadable w' = unreadable w /\ unwritable w' = unwritable w /\
  link_exists w' = link_exists w /\
  (forall path, path <> config_path -> files w' !! path = files w !! path) /\
  (files w' !! config_path = files w !! config_path \/
   files w' !! config_path =
     Some (default "" (files w !! config_path) +:+ newline +:+
           format_java_env_config w today install_path
             (if truthy (get settings "prefer_latest_link" (VBool true))
              then latest_link else None) +:+ newline)).
Proof.
unfold add_to.
destruct (if unreadable w config_path then false else _);
  [by repeat split; try done; left|].
destruct (unwritable w config_path); [by repeat split; try done; left|]. cbn.
repeat split; try done.
- intros path Hne. by rewrite lookup_insert_ne.
- right. by rewrite lookup_insert_eq.
Qed.

Lemma format_java_env_config_ext w w' today java_home_path use_latest_link :
  link_exists w' = link_exists w ->
  format_java_env_config w' today java_home_path use_latest_link
  = format_java_env_config w today java_home_path use_latest_link.
Proof. unfold format_java_env_config. by intros ->. Qed.

Lemma add_to_settled today settings install_path latest_link config_path w :
  unreadable w config_path = false ->
  settled install_path latest_link config_path w ->
  add_to today settings install_path latest_link config_path w = w.
Proof.
intros Hread [Hwrite|(content & Hfile & Hdone)]; unfold add_to; rewrite Hread.
- rewrite Hwrite. by case_match.
- by rewrite Hfile, Hdone.
Qed.

Lemma add_to_settles today settings install_path latest_link config_path w :
  no_cr install_path = true ->
  (forall link, latest_link = Some link -> no_cr link = true) ->
  unreadable w config_path = false ->
  settled install_path latest_link config_path
    (add_to today settings install_path latest_link config_path w).
Proof.
intros Hpath Hlink Hread. unfold add_to. rewrite Hread.
destruct (files w !! config_path) as [content|] eqn:Hfile.
- destruct (configured install_path latest_link (read_text content)) eqn:Hdone.
  + right. by exists content.
  + destruct (unwritable w config_path) eqn:Hwrite; [by left|].
    right. eexists. cbn [files]. rewrite lookup_insert_eq. split; [done|].
    cbn [default from_option id]. rewrite <- (string_app_assoc content newline).
    by apply java_config_configured.
- destruct (unwritable w config_path) eqn:Hwrite; [by left|].
  right. eexists. cbn [files]. rewrite lookup_insert_eq. split; [done|].
  cbn [default from_option id]. rewrite <- (string_app_assoc "" newline).
  by apply java_config_configured.
Qed.

Lemma shell_configs_NoDup w : NoDup (shell_configs home w).
Proof.
apply NoDup_filter. unfold bashrc, zshrc, profile.
repeat apply NoDup_cons_2; try apply NoDup_nil_2;
  rewrite ?elem_of_cons, ?elem_of_nil;
  intros Hin; repeat destruct Hin as [Hin|Hin]; try done;
  by apply string_app_inv in Hin.
Qed.

Lemma shell_configs_exist w path :
  path ∈ shell_configs home w -> is_Some (files w !! path).
Proof.
unfold shell_configs. rewrite list_elem_of_filter. intros [Hthere _].
by apply bool_decide_unpack in Hthere.
Qed.

(** The loop leaves the answers of the system; a file it leaves as it was,
    or it has appended the lines to it once, after a yes to the question
    about it. *)
Lemma ask_each_appends today settings install_path latest_link configs :
  NoDup configs ->
  forall inputs w,
  let w' := (ask_each today settings install_path latest_link configs inputs w).1.2 in
  unreadable w' = unreadable w /\ unwritable w' = unwritable w /\
  link_exists w' = link_exists w /\
  forall path,
    files w' !! path = files w !! path \/
    exists i choice,
      configs !! i = Some path /\ inputs !! i = Some (Line choice) /\
      lower choice = "y" /\
      files w' !! path =
        Some (default "" (files w !! path) +:+ newline +:+
              format_java_env_config w today install_path
                (if truthy (get settings "prefer_latest_link" (VBool true))
                 then latest_link else None) +:+ newline).
Proof.
induction 1 as [|config_path configs Hnew Hnodup IH]; intros inputs w;
  [by repeat split; try done; left|].
destruct inputs as [|[choice| |] rest]; try (by repeat split; try done; left).
cbn [ask_each].
set (w1 := if String.eqb (lower choice) "y"
           then add_to today settings install_path latest_link config_path w else w).
assert (Hw1 : unreadable w1 = unreadable w /\ unwritable w1 = unwritable w /\
              link_exists w1 = link_exists w /\
              (forall path, path <> config_path -> files w1 !! path = files w !! path) /\
              (files w1 !! config_path = files w !! config_path \/
               lower choice = "y" /\
               files w1 !! config_path =
                 Some (default "" (files w !! config_path) +:+ newline +:+
                       format_java_env_config w today install_path
                         (if truthy (get settings "prefer_latest_link" (VBool true))
                          then latest_link else None) +:+ newline))).
{ subst w1. destruct (String.eqb_spec (lower choice) "y") as [Hyes|Hno].
  - destruct (add_to_keeps today settings install_path latest_link config_path w)
      as (? & ? & ? & ? & [?|?]); repeat split; try done; [by left|by right].
  - repeat split; try done. by left. }
destruct Hw1 as (Hr & Hwr & Hl & Hother & Hthis).
destruct (IH rest w1) as (Hr' & Hwr' & Hl' & Hfiles).
cbv zeta. rewrite Hr', Hwr', Hl'. repeat split; try done.
intros path. destruct (Hfiles path) as [Hsame|(i & line & Hi & Hline & Hyes & Hadded)].
- destruct (decide (path = config_path)) as [->|Hne].
  + rewrite Hsame. destruct Hthis as [->|[Hyes ->]]; [by left|].
    right. by exists 0%nat, choice.
  + left. by rewrite Hsame, Hother.
- destruct (decide (path = config_path)) as [->|Hne].
  + exfalso. apply Hnew. by eapply list_elem_of_lookup_2.
  + right. exists (S i), line. repeat split; try done.
    rewrite Hadded, (Hother _ Hne).
    by rewrite (format_java_env_config_ext w w1 _ _ _ Hl).
Qed.

(** Asked again with the same answers, the loop changes nothing. *)
Lemma ask_each_again today today' settings settings' install_path latest_link configs :
  no_cr install_path = true ->
  (forall link, latest_link = Some link -> no_cr link = true) ->
  NoDup configs ->
  forall inputs w,
  (forall path, path ∈ configs -> unreadable w path = false) ->
  let r := ask_each today settings install_path latest_link configs inputs w in
  ask_each today' settings' install_path latest_link configs inputs r.1.2 = r.
Proof.
intros Hpath Hlink. induction 1 as [|config_path configs Hnew Hnodup IH];
  intros inputs w Hread; [done|].
destruct inputs as [|[choice| |] rest]; try done.
cbn [ask_each].
set (w1 := if String.eqb (lower choice) "y"
           then add_to today settings install_path latest_link config_path w else w).
assert (Hr1 : unreadable w1 = unreadable w).
{ subst w1. destruct (String.eqb (lower choice) "y"); [|done].
  apply add_to_keeps. }
assert (Hs1 : String.eqb (lower choice) "y" = true ->
              settled install_path latest_link config_path w1).
{ subst w1. intros ->. apply add_to_settles; try done. apply Hread. by left. }
destruct (ask_each_appends today settings install_path latest_link configs Hnodup rest w1)
  as (Hr' & Hwr' & _ & Hfiles).
set (r := ask_each today settings install_path latest_link configs rest w1) in *.
cbv zeta.
assert (Hstep : (if String.eqb (lower choice) "y"
                 then add_to today' settings' install_path latest_link config_path r.1.2
                 else r.1.2) = r.1.2).
{ destruct (String.eqb (lower choice) "y"); [|done].
  apply add_to_settled.
  - rewrite Hr', Hr1. apply Hread. by left.
  - assert (Hsame : files r.1.2 !! config_path = files w1 !! config_path).
    { destruct (Hfiles config_path) as [?|(i & ? & Hi & _)]; [done|].
      exfalso. apply Hnew. by eapply list_elem_of_lookup_2. }
    destruct (Hs1 eq_refl) as [Hw|(content & Hfile & Hdone)].
    + left. by rewrite Hwr'.
    + right. exists content. by rewrite Hsame. }
rewrite Hstep. apply IH. intros path Hin. rewrite Hr1. apply Hread. by right.
Qed.

(** X14: [add_to_shell_config] creates no file and leaves every file that is
    there as it was, but for the files [~/.bashrc], [~/.zshrc] and
    [~/.profile] for which the answer to its question, in lower case, was
    [y]: to such a file it appends at most once, a line feed, the three
    lines of [format_java_env_config] and a line feed. *)
Theorem add_to_shell_config_appends today settings install_path latest_link inputs w path :
  let w' := (add_to_shell_config home today settings install_path latest_link inputs w).1.2 in
  match files w !! path with
  | None => files w' !! path = None
  | Some content =>
      files w' !! path = Some content \/
      exists i choice,
        shell_configs home w !! i = Some path /\ inputs !! i = Some (Line choice) /\
        lower choice = "y" /\
        files w' !! path =
          Some (content +:+ newline +:+
                format_java_env_config w today install_path
                  (if truthy (get settings "prefer_latest_link" (VBool true))
                   then latest_link else None) +:+ newline)
  end.
Proof.
unfold add_to_shell_config.
destruct (ask_each_appends today settings install_path latest_link _
            (shell_configs_NoDup w) inputs w) as (_ & _ & _ & Hfiles).
cbv zeta. destruct (Hfiles path) as [Hsame|(i & choice & Hi & Hline & Hyes & Hadded)].
- rewrite Hsame. destruct (files w !! path); [by left|done].
- destruct (shell_configs_exist w path) as [content Hfile];
    [by eapply list_elem_of_lookup_2|].
  rewrite Hfile in *. right. by exists i, choice.
Qed.

(** X15: called a second time for the same installation and with the same
    answers, whatever the day and the settings then, [add_to_shell_config]
    changes no file, when the files of the shells can be read and the
    paths of the installation and of the link hold no carriage return. *)
Theorem add_to_shell_config_again today today' settings settings' install_path latest_link
    inputs w :
  no_cr install_path = true ->
  (forall link, latest_link = Some link -> no_cr link = true) ->
  (forall path, path ∈ shell_configs home w -> unreadable w path = false) ->
  let r := add_to_shell_config home today settings install_path latest_link inputs w in
  add_to_shell_config home today' settings' install_path latest_link inputs r.1.2 = r.
Proof.
intros Hpath Hlink Hread. unfold add_to_shell_config. cbv zeta.
assert (Hconfigs : shell_configs home
          (ask_each today settings install_path latest_link
             (shell_configs home w) inputs w).1.2 = shell_configs home w).
{ destruct (ask_each_appends today settings install_path latest_link _
              (shell_configs_NoDup w) inputs w) as (_ & _ & _ & Hfiles).
  unfold shell_configs at 1 3. apply list_filter_iff. intros path.
  rewrite !bool_decide_spec.
  destruct (Hfiles path) as [->|(i & ? & Hi & _ & _ & ->)]; [done|].
  split; [|by eexists]. intros _. apply shell_configs_exist.
  by eapply list_elem_of_lookup_2. }
rewrite Hconfigs. by apply ask_each_again; [| |apply shell_configs_NoDup|].
Qed.
End ShellFacts.

(** A yes for [~/.bashrc], twice: the lines are appended the first time,
    and the second call, a month later, leaves the file as it is. *)
Lemma add_to_shell_config_again_example :
  let w := {| InstallerShell.files := {[ "/home/u/.bashrc" := "alias ll=ls" ]};
              InstallerShell.unreadable := fun _ => false;
              InstallerShell.unwritable := fun _ => false;
              InstallerShell.link_exists := fun _ => true |} in
  let run today :=
    InstallerShell.add_to_shell_config (H := PyStr.ascii_ops) "/home/u" today
      (∅ : gmap string PyValue.value) "/opt/Java/jdk-17" (Some "/opt/Java/latest")
      [Installer.Line "Y"] in
  let r := run "2024-01-01" w in
  (PyText.contains "/opt/Java/latest" <$> (InstallerShell.files r.1.2 !! "/home/u/.bashrc"))
  = Some true /\
  run "2024-02-02" r.1.2 = r.
Proof.
intros w run r. split; [vm_compute; reflexivity|].
apply (add_to_shell_config_again (H := PyStr.ascii_ops) "/home/u" "2024-01-01"
         "2024-02-02" ∅ ∅ "/opt/Java/jdk-17" (Some "/opt/Java/latest")
         [Installer.Line "Y"] w).
- reflexivity.
- intros link [= <-]. reflexivity.
- intros path _. reflexivity.
Defined.

(** A yes for [~/.bashrc], the only file of a shell there is: no
    [~/.zshrc] is made, and a file that is none of the three is as it
    was. *)
Lemma add_to_shell_config_appends_example :
  let w := {| InstallerShell.files := {[ "/home/u/.bashrc" := "alias ll=ls";
                                         "/home/u/notes" := "x" ]};
              InstallerShell.unreadable := fun _ => false;
              InstallerShell.unwritable := fun _ => false;
              InstallerShell.link_exists := fun _ => true |} in
  let r := InstallerShell.add_to_shell_config (H := PyStr.ascii_ops) "/home/u"
             "2024-01-01" (∅ : gmap string PyValue.value) "/opt/Java/jdk-17" None
             [Installer.Line "y"] w in
  InstallerShell.files r.1.2 !! "/home/u/.zshrc" = None /\
  InstallerShell.files r.1.2 !! "/home/u/notes" = Some "x".
Proof.
intros w r. split.
- exact (add_to_shell_config_appends (H := PyStr.ascii_ops) "/home/u" "2024-01-01" ∅
           "/opt/Java/jdk-17" None [Installer.Line "y"] w "/home/u/.zshrc").
- pose proof (add_to_shell_config_appends (H := PyStr.ascii_ops) "/home/u" "2024-01-01" ∅
                "/opt/Java/jdk-17" None [Installer.Line "y"] w "/home/u/notes") as Hnotes.
  assert (Hfile : InstallerShell.files w !! "/home/u/notes" = Some "x") by reflexivity.
  cbv zeta in Hnotes. rewrite Hfile in Hnotes.
  destruct Hnotes as [Hsame|(i & choice & Hi & _)]; [exact Hsame|].
  exfalso. destruct i as [|i]; vm_compute in Hi; discriminate.
Defined.

(** ** The settings menu of the archiver *)

Section ArchiverSettingsFacts.
Import PyStr PyValue Store Archiver InstallerSettings ArchiverSettings.
Context `{StrOps}.
Variable write_outcome : nat -> save_result.
Variable settings : loc.

Lemma changed_one st key v :
  storable key v -> changed write_outcome settings st (change write_outcome settings key v st).
Proof. intros Hs. by apply changed_step; [apply changed_refl|]. Qed.

Lemma changed_trans st1 st2 st3 :
  changed write_outcome settings st1 st2 -> changed write_outcome settings st2 st3 ->
  changed write_outcome settings st1 st3.
Proof.
intros H12 H23. induction H23 as [|st2 st3 key v _ IH Hs]; [done|].
apply changed_step; [by apply IH|done].
Qed.

Lemma answered_changed choice line st :
  changed write_outcome settings st (answered write_outcome settings choice line st).
Proof.
unfold answered, storable.
repeat match goal with
| |- context [if ?b then _ else _] => destruct b eqn:?
| |- context [match ?o with Some _ => _ | None => _ end] => destruct o eqn:?
end; try apply changed_refl; apply changed_one.
- right; left. split; [done|]. by eexists.
- do 2 right; left. split; [done|]. eexists. split; [done|]. lia.
- do 3 right; left. split; [done|]. eexists. split; [done|].
  intros Hempty. by rewrite Hempty in *.
- do 4 right; left. split; [done|]. eexists. split; [done|]. lia.
- do 5 right. split; [done|]. by eexists.
Qed.

Lemma read_change key v st :
  read settings (heap (change write_outcome settings key v st))
  = <[key := v]> (read settings (heap st)).
Proof.
unfold change, save_settings. cbn [heap].
destruct (write_outcome _); cbn [snd heap]; unfold read at 1;
  by rewrite lookup_insert_eq.
Qed.

Lemma changed_keeps_keys st st' key :
  changed write_outcome settings st st' ->
  is_Some (read settings (heap st) !! key) -> is_Some (read settings (heap st') !! key).
Proof.
induction 1 as [|st st' key' v _ IH _]; [done|]. intros Hkey.
rewrite read_change. destruct (decide (key' = key)) as [->|Hne].
- rewrite lookup_insert_eq. by eexists.
- rewrite lookup_insert_ne by done. by apply IH.
Qed.

(** However [show_settings] ends, it has got to its state by storing
    values of the kinds above, and the dict it returns is the one it was
    given. *)
Lemma show_settings_changed inputs : forall st,
  let r := show_settings write_outcome settings inputs st in
  changed write_outcome settings st r.1.2 /\
  (forall l, r.1.1 = SettingsReturned l -> l = settings) /\
  (r.1.1 = KeyErrorRaised ->
   ~ (is_Some (read settings (heap st) !! "archive_path") /\
      is_Some (read settings (heap st) !! "default_delete"))).
Proof.
remember (length inputs) as n eqn:Hn. revert inputs Hn.
induction n as [n IH] using lt_wf_ind. intros inputs Hn st.
assert (Hend : forall e st' (rest : list input_result),
          changed write_outcome settings st st' -> e <> KeyErrorRaised ->
          (forall l, e = SettingsReturned l -> l = settings) ->
          let r := (e, st', rest) in
          changed write_outcome settings st r.1.2 /\
          (forall l, r.1.1 = SettingsReturned l -> l = settings) /\
          (r.1.1 = KeyErrorRaised ->
           ~ (is_Some (read settings (heap st) !! "archive_path") /\
              is_Some (read settings (heap st) !! "default_delete")))).
{ intros e st' rest Hch Hne Hret. by repeat split. }
assert (Hloop : forall rest st',
          (length rest < n)%nat -> changed write_outcome settings st st' ->
          let r := show_settings write_outcome settings rest st' in
          changed write_outcome settings st r.1.2 /\
          (forall l, r.1.1 = SettingsReturned l -> l = settings) /\
          (r.1.1 = KeyErrorRaised ->
           ~ (is_Some (read settings (heap st) !! "archive_path") /\
              is_Some (read settings (heap st) !! "default_delete")))).
{ intros rest st' Hlen Hch.
  destruct (IH _ Hlen rest eq_refl st') as (Hch' & Hret & Hkey).
  split; [by eapply changed_trans|]. split; [done|].
  intros Hraised [Ha Hd]. apply (Hkey Hraised).
  split; by eapply changed_keeps_keys. }
destruct inputs as [|[line|] rest]; cbn [show_settings];
  (destruct (negb _) eqn:Hkeys;
   [cbn [fst snd]; split; [apply changed_refl|]; split; [done|];
    intros _ [Ha Hd]; apply negb_true_iff, andb_false_iff in Hkeys;
    by destruct Hkeys as [Hk|Hk]; apply bool_decide_eq_false in Hk|]);
  try (apply Hend; [apply changed_refl|done|done]).
simpl in Hn.
destruct (String.eqb (strip line) "0");
  [apply Hend; [apply changed_refl|done|by intros l [= <-]]|].
destruct (String.eqb (strip line) "1").
{ destruct rest as [|[line1|] rest1];
    try (apply Hend; [apply changed_refl|done|done]).
  simpl in Hn. destruct (negb (String.eqb (strip line1) "")) eqn:Hpath.
  - assert (Hch : changed write_outcome settings st
                    (change write_outcome settings "archive_path" (VStr (strip line1)) st)).
    { apply changed_one. left. split; [done|]. eexists. split; [done|].
      intros Hempty. by rewrite Hempty in Hpath. }
    destruct rest1 as [|[line2|] rest2]; try (apply Hend; [exact Hch|done|done]).
    simpl in Hn. apply Hloop; [lia|exact Hch].
  - apply Hloop; [lia|apply changed_refl]. }
destruct (_ || _).
{ destruct rest as [|[line1|] rest1];
    try (apply Hend; [apply changed_refl|done|done]).
  simpl in Hn. pose proof (answered_changed (strip line) line1 st) as Hch.
  destruct rest1 as [|[line2|] rest2]; try (apply Hend; [exact Hch|done|done]).
  simpl in Hn. apply Hloop; [lia|exact Hch]. }
destruct rest as [|[line1|] rest1];
  try (apply Hend; [apply changed_refl|done|done]).
simpl in Hn. apply Hloop; [lia|apply changed_refl].
Qed.

Lemma heap_change key v st l :
  l <> settings -> heap (change write_outcome settings key v st) !! l = heap st !! l.
Proof.
intros Hne. unfold change, save_settings. cbn [heap].
destruct (write_outcome _); cbn [snd heap]; by rewrite lookup_insert_ne.
Qed.

Lemma in_range_insert key v d : storable key v -> in_range d -> in_range (<[key := v]> d).
Proof.
intros Hs (Ha & Hd & Hc & Hp & Hb & Hh).
destruct Hs as [[-> (x & -> & Hx)]|[[-> (x & ->)]|[[-> (x & -> & Hx)]|
               [[-> (x & -> & Hx)]|[[-> (x & -> & Hx)]|[-> (x & ->)]]]]]];
  unfold in_range; rewrite ?lookup_insert_eq, ?lookup_insert_ne by done;
  repeat split; try done; by exists x.
Qed.

Lemma changed_in_range st st' :
  changed write_outcome settings st st' ->
  in_range (read settings (heap st)) -> in_range (read settings (heap st')).
Proof.
induction 1 as [|st st' key v _ IH Hs]; [done|]. intros Hin.
rewrite read_change. by apply in_range_insert; [|apply IH].
Qed.

Lemma changed_heap st st' l :
  changed write_outcome settings st st' -> l <> settings -> heap st' !! l = heap st !! l.
Proof.
induction 1 as [|st st' key v _ IH Hs]; [done|]. intros Hne.
rewrite heap_change by done. by apply IH.
Qed.

Lemma changed_saved st st' :
  changed write_outcome settings st st' ->
  st' = st \/
  (writes st < writes st')%nat /\
  match write_outcome (pred (writes st')) with
  | Saved => file st' = Object (read settings (heap st'))
  | NotOpened => True
  | CutShort => file st' = InvalidJSON
  end.
Proof.
induction 1 as [|st st' key v Hch IH Hs]; [by left|]. right.
assert (Hw : writes (change write_outcome settings key v st') = S (writes st')).
{ unfold change, save_settings. cbn [writes].
  destruct (write_outcome (writes st')); reflexivity. }
split; [rewrite Hw; destruct IH as [->|[? _]]; lia|].
rewrite Hw. cbn [pred].
pose proof (read_change key v st') as Hread.
unfold change, save_settings in *. cbn [heap writes file] in *.
destruct (write_outcome (writes st')); cbn [snd heap file] in *; done.
Qed.

(** X16: the settings menu of the archiver keeps the six settings within
    their bounds: when the dict it is given has a non-empty text as path
    of the archives and as prefix, booleans for deleting the folder and
    for hidden files, a compression level from 0 to 9 and a number of
    archives to keep that is not negative, then so has the dict when the
    menu ends, whatever was typed; the menu raises no [KeyError], returns
    the dict object it was given and changes no other dict. *)
Theorem show_settings_keeps_in_range inputs st :
  in_range (read settings (heap st)) ->
  let r := show_settings write_outcome settings inputs st in
  in_range (read settings (heap r.1.2)) /\
  (r.1.1 = SettingsReturned settings \/ r.1.1 = InputRaised) /\
  (forall l, l <> settings -> heap r.1.2 !! l = heap st !! l).
Proof.
intros Hin r.
destruct (show_settings_changed inputs st) as (Hch & Hret & Hkey). fold r in Hch, Hret, Hkey.
split; [by eapply changed_in_range|]. split.
- destruct r.1.1 as [l| |]; [left; f_equal; by apply Hret| |by right].
  exfalso. apply Hkey; [done|]. destruct Hin as ([? [-> _]] & [? ->] & _).
  split; by eexists.
- intros l Hne. by eapply changed_heap.
Qed.

(** X17: the settings menu of the archiver writes the file after every
    change and changes nothing without writing: it ends with memory and
    file as they were, or the file has been written and the last write
    decides what it holds. When that write succeeded the file holds the
    dict as the menu leaves it, and [load_settings] at the next start
    returns that dict, with the defaults for the keys it has not. *)
Theorem show_settings_saves_each_change inputs st :
  let r := show_settings write_outcome settings inputs st in
  r.1.2 = st \/
  (writes st < writes r.1.2)%nat /\
  match write_outcome (pred (writes r.1.2)) with
  | Saved =>
      file r.1.2 = Object (read settings (heap r.1.2)) /\
      let loaded := load_settings (file r.1.2) (heap r.1.2) in
      read loaded.1 loaded.2
      = read settings (heap r.1.2) ∪ read DEFAULT_SETTINGS (heap r.1.2)
  | NotOpened => True
  | CutShort => file r.1.2 = InvalidJSON
  end.
Proof.
intros r. destruct (show_settings_changed inputs st) as (Hch & _ & _). fold r in Hch.
destruct (changed_saved _ _ Hch) as [?|[Hlt Hlast]]; [by left|]. right.
split; [done|]. destruct (write_outcome (pred (writes r.1.2))); try done.
split; [done|]. rewrite Hlast. unfold load_settings.
match goal with |- context [alloc ?d ?h] =>
  destruct (alloc_fresh d h) as (_ & Hl & _); destruct (alloc d h) as [l h1] end.
cbn [fst snd] in *. unfold read at 1. by rewrite Hl.
Qed.
End ArchiverSettingsFacts.

Lemma default_settings_in_range (archives : string) :
  archives <> "" -> ArchiverSettings.in_range (Archiver.default_settings archives).
Proof.
intros Hne. unfold ArchiverSettings.in_range.
split; [exists archives; by split|].
split; [by exists true|].
split; [exists 6; split; [reflexivity|lia]|].
split; [exists "GTNH"; by split|].
split; [exists 5; split; [reflexivity|lia]|].
by exists false.
Qed.

(** The compression level is chosen twice: 12 is refused, 9 is stored;
    then the menu is left with 0. *)
Lemma show_settings_keeps_in_range_example :
  let d := Archiver.default_settings "/home/u/archives" in
  let st := {| ArchiverSettings.heap := {[ 1%nat := d ]};
               ArchiverSettings.file := Absent;
               ArchiverSettings.writes := 0 |} in
  let typed := Archiver.Typed <$> ["3"; "12"; ""; "3"; " 9 "; ""; "0"] in
  let r := ArchiverSettings.show_settings (H := PyInt.text_ops)
             (fun _ => InstallerSettings.Saved) 1%nat typed st in
  r.1.1 = ArchiverSettings.SettingsReturned 1%nat /\
  Store.read 1%nat (ArchiverSettings.heap r.1.2) !! "compression_level"
  = Some (PyValue.VInt 9) /\
  ArchiverSettings.in_range (Store.read 1%nat (ArchiverSettings.heap r.1.2)).
Proof.
intros d st typed r.
split; [vm_compute; reflexivity|]. split; [vm_compute; reflexivity|].
refine (proj1 (show_settings_keeps_in_range (H := PyInt.text_ops)
                 (fun _ => InstallerSettings.Saved) 1%nat typed st _)).
assert (Hd : Store.read 1%nat (ArchiverSettings.heap st) = d) by reflexivity.
rewrite Hd. by apply default_settings_in_range.
Defined.

(** The prefix is changed and written; the file then holds the dict with
    the new prefix. *)
Lemma show_settings_saves_each_change_example :
  let d := Archiver.default_settings "/home/u/archives" in
  let st := {| ArchiverSettings.heap := {[ Archiver.DEFAULT_SETTINGS := d; 1%nat := d ]};
               ArchiverSettings.file := Absent;
               ArchiverSettings.writes := 0 |} in
  let typed := Archiver.Typed <$> ["4"; " GT "; ""; "0"] in
  let r := ArchiverSettings.show_settings (H := PyInt.text_ops)
             (fun _ => InstallerSettings.Saved) 1%nat typed st in
  exists saved,
    ArchiverSettings.file r.1.2 = Object saved /\
    saved !! "prefix" = Some (PyValue.VStr "GT").
Proof.
intros d st typed r.
assert (Hwrites : ArchiverSettings.writes r.1.2 = 1%nat) by (vm_compute; reflexivity).
destruct (show_settings_saves_each_change (H := PyInt.text_ops)
            (fun _ => InstallerSettings.Saved) 1%nat typed st) as [Hsame|[_ Hlast]].
- exfalso. fold r in Hsame. rewrite Hsame in Hwrites. discriminate Hwrites.
- cbv beta iota in Hlast. destruct Hlast as [Hfile _]. fold r in Hfile.
  eexists. split; [exact Hfile|]. vm_compute. reflexivity.
Defined.

(** ** The settings menu of the installer *)

Section SettingsMenuFacts.
Import PyStr PyValue Store Installer InstallerSettings InstallerMenu.
Context `{StrOps}.
Variable write_outcome : nat -> save_result.
Variable isatty : bool.
Variable keys_of : gmap string value -> list string.
Variable defaults : gmap string value.
Hypothesis defaults_sound : sound defaults defaults.


Lemma get_all_kept s :
  well_kept defaults s ->
  well_kept defaults (get_all s).2 /\
  current (get_all s).2 = current s /\
  read (get_all s).1 (heap (get_all s).2) = current s.
Proof.
intros (Hd & Hne & Hsome & Hdom). unfold get_all.
destruct (alloc_fresh (current s) (heap s)) as (Hf & Hl & Ho).
destruct (alloc (current s) (heap s)) as [l h1]. cbn [fst snd] in *.
assert (Hself : h1 !! self_settings s = heap s !! self_settings s).
{ apply Ho, elem_of_dom, Hsome. }
assert (Hcur : read (self_settings s) h1 = current s).
{ unfold current, read. by rewrite Hself. }
split; [|split].
- unfold well_kept, current. cbn [heap self_settings]. rewrite Hself, Hcur.
  rewrite Ho by (apply elem_of_dom; by eexists). done.
- unfold current at 1. by cbn [heap self_settings].
- cbn [fst snd heap]. unfold read at 1. by rewrite Hl.
Qed.

Lemma kept_copy st :
  kept defaults st ->
  kept defaults (with_settings st (get_all (menu_settings st)).2) /\
  read (get_all (menu_settings st)).1 (heap (get_all (menu_settings st)).2)
  = current (menu_settings st).
Proof.
intros [Hw Hs]. destruct (get_all_kept _ Hw) as (Hw' & Hcur & Hread).
split; [|done]. split; [done|]. cbn [with_settings menu_settings]. by rewrite Hcur.
Qed.

Lemma kept_reset st : kept defaults st -> kept defaults (reset write_outcome isatty st).
Proof.
intros [Hw Hs]. unfold reset. split; cbn [menu_settings].
- apply (well_kept_call write_outcome defaults _ CallReset Hw).
- destruct Hw as (Hd & Hne & Hsome & Hdom). unfold reset_to_defaults.
  destruct (alloc_fresh (read DEFAULT_SETTINGS (heap (menu_settings st)))
              (heap (menu_settings st))) as (Hf & Hl & Ho).
  destruct (alloc _ (heap (menu_settings st))) as [l h1]. cbn [fst snd] in *.
  rewrite current_save. unfold current. cbn [heap self_settings].
  unfold read at 1. rewrite Hl. unfold read. rewrite Hd. exact defaults_sound.
Qed.

Lemma kept_save st :
  kept defaults st ->
  kept defaults (with_settings st (save_settings write_outcome (menu_settings st)).2).
Proof.
intros [Hw Hs]. split; cbn [with_settings menu_settings].
- apply (well_kept_call write_outcome defaults _ CallSave Hw).
- by rewrite current_save.
Qed.

Lemma kept_store key current_value new_value st :
  kept defaults st ->
  current (menu_settings st) !! key = Some current_value ->
  kind_of new_value = kind_of current_value ->
  refused key new_value = Some false ->
  kept defaults (store_value write_outcome isatty key new_value st).
Proof.
intros [Hw (Hkinds & Ht & Hc & Hk)] Hcur Hkind Hok. unfold store_value.
split; cbn [menu_settings].
- apply (well_kept_call write_outcome defaults _ (CallSet key new_value) Hw).
- rewrite (current_set write_outcome key new_value _ current_value Hcur).
  assert (Hbound : forall name bound n,
            (String.eqb key name = true -> refused key (VInt n) = Some (n <? bound)) ->
            (forall m, current (menu_settings st) !! name = Some (VInt m) -> bound <= m) ->
            <[key := new_value]> (current (menu_settings st)) !! name = Some (VInt n) ->
            bound <= n).
  { intros name bound n Hrefused Hold.
    destruct (String.eqb_spec key name) as [->|Hne].
    - rewrite lookup_insert_eq. intros [= ->].
      rewrite Hrefused in Hok by done. injection Hok as Hok. lia.
    - rewrite lookup_insert_ne by done. apply Hold. }
  split; [|split; [|split]].
  + intros k v0 Hk0. destruct (decide (key = k)) as [->|Hne].
    * rewrite lookup_insert_eq. exists new_value. split; [done|].
      destruct (Hkinds k v0 Hk0) as (v & Hv & <-). rewrite Hcur in Hv.
      injection Hv as <-. done.
    * rewrite lookup_insert_ne by done. by apply Hkinds.
  + intros n. apply Hbound; [|done]. intros Heq. apply String.eqb_eq in Heq as ->.
    reflexivity.
  + intros n. apply Hbound; [|done]. intros Heq. apply String.eqb_eq in Heq as ->.
    reflexivity.
  + intros n. apply Hbound; [|done]. intros Heq. apply String.eqb_eq in Heq as ->.
    reflexivity.
Qed.


Lemma show_settings_menu_kept inputs : forall st,
  kept defaults st ->
  menu_kept defaults inputs (show_settings_menu write_outcome isatty keys_of inputs st).
Proof.
remember (length inputs) as n eqn:Hn. revert inputs Hn.
induction n as [n IH] using lt_wf_ind. intros inputs Hn st Hst.
destruct (kept_copy st Hst) as [Hst1 Hread].
assert (Hloop : forall rest st',
          (length rest < n)%nat -> kept defaults st' ->
          (forall e, e ∈ rest -> e ∈ inputs) ->
          menu_kept defaults inputs
            (show_settings_menu write_outcome isatty keys_of rest st')).
{ intros rest st' Hlen Hst' Hsub.
  destruct (IH _ Hlen rest eq_refl st' Hst') as (Hk & Hfalse & Hhangs).
  split; [done|]. split; [|done]. intros Hr. by apply Hsub, Hfalse. }
assert (Hhangs : forall st',
          kept defaults st' -> menu_kept defaults inputs (MenuHangs, st', [])).
{ intros st' Hst'. by split; [|split]. }
assert (Htrue : forall st' rest,
          kept defaults st' -> menu_kept defaults inputs (MenuReturned true, st', rest)).
{ intros st' rest Hst'. by split; [|split]. }
assert (Hfalse : forall st' rest,
          kept defaults st' -> KeyboardInterrupt ∈ inputs ->
          menu_kept defaults inputs (MenuReturned false, st', rest)).
{ intros st' rest Hst' Hin. by split; [|split]. }
set (st1 := with_settings st (get_all (menu_settings st)).2) in *.
assert (Hcur1 : current (menu_settings st1) = current (menu_settings st)).
{ destruct Hst as [Hw _]. by destruct (get_all_kept _ Hw) as (_ & ? & _). }
destruct inputs as [|[line| |] rest]; cbn [show_settings_menu]; cbv zeta;
  fold st1; rewrite ?Hread; simpl in Hn.
- by apply Hhangs.
- repeat match goal with
  | |- menu_kept _ _ (if ?b then _ else _) => destruct b eqn:?
  | |- menu_kept _ _ (match ?x with _ => _ end) => destruct x eqn:?
  end; simpl in Hn;
  first
  [ by apply Hhangs
  | by apply Htrue
  | apply Htrue; by apply kept_save
  | apply Hfalse; [done|repeat first [apply list_elem_of_here|apply list_elem_of_further]]
  | apply Hloop;
    [lia
    | first [exact Hst1 | by apply kept_reset | idtac]
    | intros e He; repeat first [exact He|apply list_elem_of_further]] ].
  all: eapply kept_store; [exact Hst1|rewrite Hcur1; eassumption| |eassumption].
  all: repeat match goal with
       | Heq : match ?v with _ => _ end = Some _ |- _ => destruct v; simplify_eq
       | Heq : _ <$> ?o = Some _ |- _ => destruct o; simplify_eq/=
       end; try done; by destruct (negb _).
- apply Hfalse; [done|apply list_elem_of_here].
- apply Hloop; [lia|done|]. intros e He. by apply list_elem_of_further.
Qed.
End SettingsMenuFacts.

Lemma default_settings_sound install_dir cache_dir :
  InstallerMenu.sound (Installer.default_settings install_dir cache_dir)
    (Installer.default_settings install_dir cache_dir).
Proof.
split; [|split; [|split]].
- intros k v0 Hk. by exists v0.
- intros n Hn. vm_compute in Hn. injection Hn as <-. done.
- intros n Hn. vm_compute in Hn. injection Hn as <-. done.
- intros n Hn. vm_compute in Hn. injection Hn as <-. done.
Qed.

(** X18: the settings menu of the installer keeps the settings sound. When
    every setting of the defaults is there with a value of the kind of its
    default (a boolean, an integer, or something else) and the timeout is
    at least 1, the days of the clean-up at least 0 and the number of
    caches to keep at least 1, then the same holds when the menu ends,
    whatever was typed and however the writes of the file ended, and the
    defaults of the class are as they were. The menu returns [False] only
    after a [KeyboardInterrupt], and it does not return only when the
    input has come to its end. *)
Theorem show_settings_menu_keeps_sound `{PyStr.StrOps}
    (write_outcome : nat -> InstallerSettings.save_result) (isatty : bool)
    (keys_of : gmap string PyValue.value -> list string)
    (install_dir cache_dir : string)
    (inputs : list InstallerMenu.key_event) (st : InstallerMenu.menu_state) :
  let defaults := Installer.default_settings install_dir cache_dir in
  InstallerSettings.well_kept defaults (InstallerMenu.menu_settings st) ->
  InstallerMenu.sound defaults
    (InstallerSettings.current (InstallerMenu.menu_settings st)) ->
  let r := InstallerMenu.show_settings_menu write_outcome isatty keys_of inputs st in
  InstallerMenu.sound defaults
    (InstallerSettings.current (InstallerMenu.menu_settings r.1.2)) /\
  Store.read Installer.DEFAULT_SETTINGS
    (InstallerSettings.heap (InstallerMenu.menu_settings r.1.2)) = defaults /\
  (r.1.1 = InstallerMenu.MenuReturned false -> InstallerMenu.KeyboardInterrupt ∈ inputs) /\
  (r.1.1 = InstallerMenu.MenuHangs -> r.2 = []).
Proof.
intros defaults Hw Hs r.
destruct (show_settings_menu_kept write_outcome isatty keys_of defaults
            (default_settings_sound install_dir cache_dir) inputs st (conj Hw Hs))
  as ([(Hd & _) Hsound] & Hfalse & Hhangs).
split; [done|]. split; [|done]. unfold Store.read. fold r. unfold r.
change (InstallerSettings.heap _ !! Installer.DEFAULT_SETTINGS) with
  (InstallerSettings.heap (InstallerMenu.menu_settings
     (InstallerMenu.show_settings_menu write_outcome isatty keys_of inputs st).1.2)
   !! Installer.DEFAULT_SETTINGS).
by rewrite Hd.
Qed.

(** The timeout is chosen twice: the answer 0 is refused, 45 is stored and
    written; then the menu is left with S. *)
Lemma show_settings_menu_keeps_sound_example :
  let defaults := Installer.default_settings "/opt/Java" "/tmp/bellsoft-java" in
  let h : Store.store := {[ Installer.DEFAULT_SETTINGS := defaults ]} in
  let keys_of (d : gmap string PyValue.value) :=
    filter (fun k => bool_decide (is_Some (d !! k)))
      ["install_dir"; "cache_dir"; "timeout"; "offline_mode"; "show_colors";
       "keep_old_cache"; "cleanup_days"; "auto_update_cache"; "prefer_latest_link";
       "check_sha1"; "download_resume"; "show_progress"; "max_releases_display";
       "cache_max_age_hours"] in
  let st := {| InstallerMenu.menu_settings := InstallerSettings.settings_init Absent h;
               InstallerMenu.HAS_COLOR := true |} in
  let typed := InstallerMenu.Entered <$> ["3"; "0"; ""; "3"; "45"; "s"] in
  let r := InstallerMenu.show_settings_menu (H := PyInt.text_ops)
             (fun _ => InstallerSettings.Saved) true keys_of typed st in
  r.1.1 = InstallerMenu.MenuReturned true /\
  InstallerSettings.current (InstallerMenu.menu_settings r.1.2) !! "timeout"
  = Some (PyValue.VInt 45) /\
  InstallerMenu.sound defaults
    (InstallerSettings.current (InstallerMenu.menu_settings r.1.2)).
Proof.
intros defaults h keys_of st typed r.
split; [vm_compute; reflexivity|]. split; [vm_compute; reflexivity|].
refine (proj1 (show_settings_menu_keeps_sound (H := PyInt.text_ops)
                 (fun _ => InstallerSettings.Saved) true keys_of
                 "/opt/Java" "/tmp/bellsoft-java" typed st _ _)).
- apply well_kept_init. reflexivity.
- cbn [InstallerMenu.menu_settings st].
  rewrite (settings_init_current defaults Absent h eq_refl).
  apply default_settings_sound.
Defined.

(** ** The log file *)

Section LogFacts.
Import PyStr PyText InstallerSetup InstallerLog.

Lemma span_length p s : ((span p s).1 + String.length (span p s).2 = String.length s)%nat.
Proof.
induction s as [|c s IH]; [done|]. cbn [span]. destruct (p c); cbn [fst snd String.length]; lia.
Qed.

Lemma span_app_NC p s :
  p (ascii_of_nat 27) = false ->
  span p (s +:+ NC) = ((span p s).1, (span p s).2 +:+ NC).
Proof.
intros Hp. induction s as [|c s IH].
- change ("" +:+ NC) with (String (ascii_of_nat 27) "[0m"). cbn [span]. by rewrite Hp.
- change (String c s +:+ NC) with (String c (s +:+ NC)). cbn [span].
  destruct (p c); [by rewrite IH|done].
Qed.

Lemma ansi_escape_match_app_NC c s :
  ansi_escape_match (String c s +:+ NC) = ansi_escape_match (String c s).
Proof.
change (String c s +:+ NC) with (String c (s +:+ NC)).
destruct s as [|d s].
- change ("" +:+ NC) with (String (ascii_of_nat 27) "[0m"). cbn [ansi_escape_match].
  by destruct (Ascii.eqb c (ascii_of_nat 27)).
- change (String d s +:+ NC) with (String d (s +:+ NC)). cbn [ansi_escape_match].
  destruct (Ascii.eqb c (ascii_of_nat 27)); [|done].
  destruct (is_single d); [done|]. destruct (Ascii.eqb d "["); [|done].
  rewrite (span_app_NC is_parameter) by done. cbn [fst snd].
  rewrite (span_app_NC is_intermediate) by done. cbn [fst snd].
  destruct (span is_intermediate (span is_parameter s).2).2 as [|f rest]; done.
Qed.

Lemma ansi_escape_match_length s n :
  ansi_escape_match s = Some n -> (1 <= n <= String.length s)%nat.
Proof.
destruct s as [|e [|d s]]; try done. cbn [ansi_escape_match String.length].
destruct (Ascii.eqb e (ascii_of_nat 27)); [|done].
destruct (is_single d); [intros [= <-]; lia|]. destruct (Ascii.eqb d "["); [|done].
pose proof (span_length is_parameter s) as Hp.
pose proof (span_length is_intermediate (span is_parameter s).2) as Hi.
destruct (span is_intermediate (span is_parameter s).2).2 as [|f rest]; [done|].
destruct (is_final f); [|done]. intros [= <-]. cbn [String.length] in Hi. lia.
Qed.

(** The code that ends a colour is removed, whatever stands before it. *)
Lemma ansi_escape_sub_from_NC text : forall skip,
  (skip <= String.length text)%nat ->
  ansi_escape_sub_from skip (text +:+ NC) = ansi_escape_sub_from skip text.
Proof.
induction text as [|c text IH]; intros skip Hskip.
- cbn [String.length] in Hskip. assert (skip = O) as -> by lia. reflexivity.
- change (String c text +:+ NC) with (String c (text +:+ NC)).
  cbn [ansi_escape_sub_from String.length] in *. destruct skip as [|skip].
  + change (String c (text +:+ NC)) with (String c text +:+ NC).
    rewrite ansi_escape_match_app_NC.
    destruct (ansi_escape_match (String c text)) as [n|] eqn:Hmatch.
    * apply ansi_escape_match_length in Hmatch. cbn [String.length] in Hmatch.
      apply IH. lia.
    * by rewrite IH by lia.
  + apply IH. lia.
Qed.

(** A code of [Colors] is removed, whatever stands after it. *)
Lemma ansi_escape_sub_code code rest :
  code ∈ codes -> ansi_escape_sub (code +:+ rest) = ansi_escape_sub rest.
Proof.
unfold codes. rewrite !elem_of_cons, elem_of_nil.
intros [->|[->|[->|[->|[->|[->|[->|[->|[->|[]]]]]]]]]]; reflexivity.
Qed.

(** X19: a message that [colorize] has coloured is logged as the message
    itself is: [_clean_message] removes the codes that [colorize] puts
    around a text, whatever the text, for a colour made of codes of the
    class [Colors]. *)
Theorem clean_message_of_colorize (HAS_COLOR : bool) (text : string) (colors : list string) :
  Forall (fun code => code ∈ codes) colors ->
  _clean_message (colorize HAS_COLOR text (String.concat "" colors)) = _clean_message text.
Proof.
intros Hcodes. unfold colorize. destruct HAS_COLOR; [|done].
unfold _clean_message. f_equal.
assert (Hend : ansi_escape_sub (text +:+ NC) = ansi_escape_sub text).
{ apply ansi_escape_sub_from_NC. lia. }
induction Hcodes as [|code colors Hcode _ IH]; [exact Hend|].
destruct colors as [|code' colors].
- cbn [String.concat]. by rewrite ansi_escape_sub_code.
- change (String.concat "" (code :: code' :: colors))
    with (code +:+ "" +:+ String.concat "" (code' :: colors)).
  change ("" +:+ String.concat "" (code' :: colors))
    with (String.concat "" (code' :: colors)).
  rewrite string_app_assoc. by rewrite ansi_escape_sub_code.
Qed.
End LogFacts.

(** A bold blue title with a sign, as the menus print it. *)
Lemma clean_message_of_colorize_example :
  InstallerLog._clean_message
    (InstallerSetup.colorize true "✅ Java 17"
       (String.concat "" [InstallerSetup.BOLD; InstallerSetup.BLUE]))
  = "[OK] Java 17".
Proof.
rewrite (clean_message_of_colorize true "✅ Java 17"
           [InstallerSetup.BOLD; InstallerSetup.BLUE]).
- vm_compute. reflexivity.
- repeat constructor; vm_compute; by repeat first [left|right].
Defined.
